(** * mcp-eia: the scoring and aggregation core

    A shallow embedding of the analytic functions of the EIA electricity
    server:

    - [src/analysis/energyStorageAnalyzer.ts]  (class [EnergyStorageAnalyzer])
    - [src/analysis/capacityAnalyzer.ts]       (class [CapacityAnalyzer])
    - [src/index.ts]  ([getTrend], [basicStats], [identifyPrimaryDriver] and
      the [findHighPotentialEnergyStorageAreas] tool)

    ** Numbers

    The code is embedded over two models of the JavaScript number.

    [JsNumber.number] is an exact rational, or one of the three IEEE
    special values [Infinity], [-Infinity] and [NaN].  Arithmetic on
    finite values is exact: the rounding error and the overflow of
    binary64 are not part of this model, and neither is the sign of zero.
    The special values follow IEEE 754 as JavaScript exposes it (a
    division by zero gives an infinity or [NaN], every comparison with
    [NaN] is false, [Math.max] and [Math.min] propagate [NaN]).
    [Math.sqrt] of a finite non-negative value is the square root rounded
    down to 52 fractional bits.  This model carries the properties that do
    not turn on rounding: guards and fallback branches, which records a
    function reads, the order of comparisons, the bookkeeping of the
    resource manager.

    [Binary64.float] is the binary64 value itself, with correctly rounded
    arithmetic, overflow to the infinities, the two zeros, and
    [Math.round] and [toFixed] taken on the exact value of the double.
    The analyzer and the region ranker are embedded a second time over it
    ([InBinary64]); what the code returns as a number (a score, a rounded
    mean, a percentage, the order of a ranking) is stated there. *)

From Stdlib Require Import QArith Qround Qabs ZArith List String Bool.
From Stdlib Require Import Lia Lqa Sorted Permutation.
From Stdlib Require SpecFloat.
Import ListNotations.

Local Open Scope Q_scope.

(* ================================================================== *)
(** ** JavaScript numbers *)
(* ================================================================== *)

Module JsNumber.

Inductive number : Type :=
| Fin (q : Q)
| PInf
| NInf
| NaN.

Definition Qltb (x y : Q) : bool := negb (Qle_bool y x).

Definition zero : number := Fin 0.
Definition one : number := Fin 1.

(** [typeof x === "number" && Number.isFinite(x)] on a value that is a
    number. *)
Definition isFinite (x : number) : bool :=
  match x with Fin _ => true | _ => false end.

(** Unary minus. *)
Definition neg (x : number) : number :=
  match x with
  | Fin q => Fin (- q)
  | PInf => NInf
  | NInf => PInf
  | NaN => NaN
  end.

(** [x + y] *)
Definition add (x y : number) : number :=
  match x, y with
  | NaN, _ | _, NaN => NaN
  | Fin a, Fin b => Fin (a + b)
  | PInf, NInf | NInf, PInf => NaN
  | PInf, _ | _, PInf => PInf
  | NInf, _ | _, NInf => NInf
  end.

(** [x - y] *)
Definition sub (x y : number) : number := add x (neg y).

(** The sign of a finite value: [Gt] positive, [Lt] negative, [Eq] zero. *)
Definition Qsign (q : Q) : comparison := (0 ?= q)%Q.

(** [x * y] *)
Definition mul (x y : number) : number :=
  match x, y with
  | NaN, _ | _, NaN => NaN
  | Fin a, Fin b => Fin (a * b)
  | Fin a, PInf | PInf, Fin a =>
      match Qsign a with Lt => PInf | Gt => NInf | Eq => NaN end
  | Fin a, NInf | NInf, Fin a =>
      match Qsign a with Lt => NInf | Gt => PInf | Eq => NaN end
  | PInf, PInf | NInf, NInf => PInf
  | PInf, NInf | NInf, PInf => NaN
  end.

(** [x / y].  A finite non-zero value over zero is an infinity of the
    sign of the numerator, zero over zero is [NaN]. *)
Definition div (x y : number) : number :=
  match x, y with
  | NaN, _ | _, NaN => NaN
  | Fin a, Fin b =>
      if Qeq_bool b 0
      then match Qsign a with Lt => PInf | Gt => NInf | Eq => NaN end
      else Fin (a / b)
  | Fin _, PInf | Fin _, NInf => Fin 0
  | PInf, Fin b => if Qltb b 0 then NInf else PInf
  | NInf, Fin b => if Qltb b 0 then PInf else NInf
  | PInf, PInf | PInf, NInf | NInf, PInf | NInf, NInf => NaN
  end.

(** [x < y] *)
Definition lt (x y : number) : bool :=
  match x, y with
  | NaN, _ | _, NaN => false
  | Fin a, Fin b => Qltb a b
  | NInf, NInf | PInf, _ | _, NInf => false
  | NInf, _ | _, PInf => true
  end.

(** [x > y] *)
Definition gt (x y : number) : bool := lt y x.

(** [x <= y] *)
Definition le (x y : number) : bool :=
  match x, y with
  | NaN, _ | _, NaN => false
  | Fin a, Fin b => Qle_bool a b
  | NInf, _ | _, PInf => true
  | PInf, _ | _, NInf => false
  end.

(** [x === y] on numbers. *)
Definition eqb (x y : number) : bool :=
  match x, y with
  | Fin a, Fin b => Qeq_bool a b
  | PInf, PInf | NInf, NInf => true
  | _, _ => false
  end.

(** [x !== y] on numbers. *)
Definition neqb (x y : number) : bool := negb (eqb x y).

(** The truth value of a number in a condition: [0] and [NaN] are falsy. *)
Definition truthy (x : number) : bool :=
  match x with
  | Fin q => negb (Qeq_bool q 0)
  | PInf | NInf => true
  | NaN => false
  end.

(** [x || d] where [x] is a number or [null]. *)
Definition orElse (x : option number) (d : number) : number :=
  match x with
  | Some v => if truthy v then v else d
  | None => d
  end.

(** [x ?? d] where [x] is a number or [null] (or [undefined]). *)
Definition nullish (x : option number) (d : number) : number :=
  match x with
  | Some v => v
  | None => d
  end.

(** [Math.abs] *)
Definition abs (x : number) : number :=
  match x with
  | Fin q => Fin (Qabs q)
  | PInf | NInf => PInf
  | NaN => NaN
  end.

(** [Math.max(x, y)] *)
Definition max (x y : number) : number :=
  match x, y with
  | NaN, _ | _, NaN => NaN
  | _, _ => if lt x y then y else x
  end.

(** [Math.min(x, y)] *)
Definition min (x y : number) : number :=
  match x, y with
  | NaN, _ | _, NaN => NaN
  | _, _ => if lt y x then y else x
  end.

(** [Math.max(...xs)]; [Math.max()] is [-Infinity]. *)
Definition maxList (xs : list number) : number := fold_left max xs NInf.

(** [Math.min(...xs)]; [Math.min()] is [Infinity]. *)
Definition minList (xs : list number) : number := fold_left min xs PInf.

(** [Math.round]: the nearest integer, a tie going up. *)
Definition round (x : number) : number :=
  match x with
  | Fin q => Fin (inject_Z (Qfloor (q + (1 # 2))))
  | _ => x
  end.

(** [Math.pow(x, 2)] *)
Definition square (x : number) : number := mul x x.

(** The square root of a non-negative rational, rounded down to 52
    fractional bits. *)
Definition Qsqrt (q : Q) : Q :=
  Z.sqrt (Qfloor (q * inject_Z (2 ^ 104))) # (2 ^ 52).

(** [Math.sqrt] *)
Definition sqrt (x : number) : number :=
  match x with
  | Fin q => if Qltb q 0 then NaN else Fin (Qsqrt q)
  | PInf => PInf
  | NInf | NaN => NaN
  end.

(** [10 ^ d] as a positive. *)
Definition pow10 (d : nat) : positive := Pos.pow 10 (Pos.of_nat d).

Definition scale10 (d : nat) : positive :=
  match d with
  | O => 1%positive
  | S _ => pow10 d
  end.

(** [parseFloat(x.toFixed(d))].  [toFixed] rounds the magnitude to [d]
    decimals, a tie going away from zero, and prints values of magnitude
    [1e21] and more (and the special values) as [String(x)] does, which
    [parseFloat] reads back unchanged. *)
Definition toFixed (d : nat) (x : number) : number :=
  match x with
  | Fin q =>
      if Qle_bool 1e21 (Qabs q) then Fin (Qred q)
      else
        let n := Qfloor (Qabs q * inject_Z (Zpos (scale10 d)) + (1 # 2)) in
        if Qltb q 0 then Fin ((- n) # scale10 d) else Fin (n # scale10 d)
  | _ => x
  end.

(** [n] as a number, for array lengths. *)
Definition ofNat (n : nat) : number := Fin (inject_Z (Z.of_nat n)).

(** [xs.reduce((a, b) => a + b, 0)] *)
Definition sum (xs : list number) : number := fold_left add xs zero.

End JsNumber.

Import JsNumber.

Local Open Scope string_scope.

(* ================================================================== *)
(** ** Validated records ([src/validation/electricity.schemas.ts]) *)
(* ================================================================== *)

(** A [z.coerce.number().nullable()] field is [option number], [None]
    standing for [null]. *)

Record OperatingCapacity : Type := {
  oc_period : string;
  oc_stateid : string;
  oc_energy_source_code : string;
  oc_net_summer_capacity_mw : option number;
  oc_net_winter_capacity_mw : option number
}.

Record GenerationData : Type := {
  period : string;
  generation : option number;
  total_consumption : option number
}.

Record RTODemandData : Type := {
  rto_period : string;
  respondent : string;
  value : option number
}.

Record CapacityByFuelData : Type := {
  cf_period : string;
  cf_stateid : string;
  energy_source_code : string;
  net_summer_capacity_mw : option number;
  net_winter_capacity_mw : option number
}.

Record RetailPriceData : Type := {
  rp_period : string;
  rp_stateid : string;
  sectorid : string;
  price : option number;
  sales : option number
}.

(* ================================================================== *)
(** ** Metric records ([src/types/energyStorage.types.ts]) *)
(* ================================================================== *)

Record GridCapacityMetrics : Type := {
  totalCapacityMW : number;
  renewableCapacityMW : number;
  fossilCapacityMW : number;
  renewablePenetration : number
}.

Record DemandSupplyMetrics : Type := {
  averageDemandMW : number;
  peakDemandMW : number;
  minimumDemandMW : number;
  loadFactor : number;
  demandVariabilityIndex : number
}.

Record RenewableIntegrationMetrics : Type := {
  solarCapacityMW : number;
  windCapacityMW : number;
  estimatedCurtailmentMWh : number;
  renewableVariabilityIndex : number;
  duckCurveSeverity : number
}.

Record GridStabilityMetrics : Type := {
  maxHourlyRampMW : number;
  rampingFrequency : number;
  frequencyRegulationNeed : number;
  spinningReserveRequirement : number
}.

Record EconomicMetrics : Type := {
  averageRetailPriceCentsPerKWh : number;
  priceVolatilityIndex : number;
  peakOffPeakSpread : number;
  estimatedArbitrageRevenue : number
}.

Record StorageOpportunityScore : Type := {
  overall : number;
  peakShavingScore : number;
  renewableIntegrationScore : number;
  gridServicesScore : number;
  economicScore : number
}.

Record EnergyStorageOpportunityMetrics : Type := {
  region : string;
  analysisDate : string;
  gridCapacity : GridCapacityMetrics;
  demandSupplyMetrics : DemandSupplyMetrics;
  renewableIntegration : RenewableIntegrationMetrics;
  gridStability : GridStabilityMetrics;
  economicOpportunity : EconomicMetrics;
  storageOpportunityScore : StorageOpportunityScore
}.

(** [xs.includes(s)] on an array of strings. *)
Definition includes (xs : list string) (s : string) : bool :=
  existsb (String.eqb s) xs.

(* ================================================================== *)
(** ** [EnergyStorageAnalyzer] ([src/analysis/energyStorageAnalyzer.ts]) *)
(* ================================================================== *)

Module EnergyStorageAnalyzer.

Definition renewableSources : list string :=
  ["SUN"; "WND"; "HYD"; "GEO"; "BIO"; "WAS"].

Definition fossilSources : list string := ["NG"; "COL"; "PET"; "OTH"].

(** The three accumulators of the loop of [calculateGridCapacityMetrics]:
    [totalCapacity], [renewableCapacity], [fossilCapacity]. *)
Record CapacityAcc : Type := {
  accTotal : number;
  accRenewable : number;
  accFossil : number
}.

Definition capacityStep (acc : CapacityAcc) (record : CapacityByFuelData)
  : CapacityAcc :=
  let capacity := orElse (net_summer_capacity_mw record) zero in
  let total := add (accTotal acc) capacity in
  if includes renewableSources (energy_source_code record) then
    {| accTotal := total;
       accRenewable := add (accRenewable acc) capacity;
       accFossil := accFossil acc |}
  else if includes fossilSources (energy_source_code record) then
    {| accTotal := total;
       accRenewable := accRenewable acc;
       accFossil := add (accFossil acc) capacity |}
  else
    {| accTotal := total;
       accRenewable := accRenewable acc;
       accFossil := accFossil acc |}.

Definition capacityLoop (capacityData : list CapacityByFuelData) : CapacityAcc :=
  fold_left capacityStep capacityData
    {| accTotal := zero; accRenewable := zero; accFossil := zero |}.

Definition calculateGridCapacityMetrics (capacityData : list CapacityByFuelData)
  : GridCapacityMetrics :=
  let acc := capacityLoop capacityData in
  {| totalCapacityMW := round (accTotal acc);
     renewableCapacityMW := round (accRenewable acc);
     fossilCapacityMW := round (accFossil acc);
     renewablePenetration :=
       if gt (accTotal acc) zero
       then round (mul (div (accRenewable acc) (accTotal acc)) (Fin 100))
       else zero |}.

(** [typeof d.value === "number" && Number.isFinite(d.value) ? d.value : null] *)
Definition finiteOrNull (v : option number) : option number :=
  match v with
  | Some x => if isFinite x then Some x else None
  | None => None
  end.

(** [.filter((v) => v !== null)] *)
Fixpoint dropNulls (vs : list (option number)) : list number :=
  match vs with
  | [] => []
  | Some v :: rest => v :: dropNulls rest
  | None :: rest => dropNulls rest
  end.

(** The numeric series built at the head of [calculateDemandSupplyMetrics]
    and of [calculateGridStabilityMetrics]. *)
Definition numericSeries (demandData : list RTODemandData) : list number :=
  dropNulls (map (fun d => finiteOrNull (value d)) demandData).

(** [xs.length || 1] *)
Definition lengthOrOne {A : Type} (xs : list A) : number :=
  match List.length xs with
  | O => one
  | n => ofNat n
  end.

(** The estimate from generation data that both fallback branches of
    [calculateDemandSupplyMetrics] return. *)
Definition generationFallback (generationData : list GenerationData)
  : DemandSupplyMetrics :=
  let totalGen :=
    fold_left (fun sum g => add sum (orElse (generation g) zero))
      generationData zero in
  let denom := lengthOrOne generationData in
  let avgGen := div totalGen denom in
  {| averageDemandMW := round avgGen;
     peakDemandMW := round (mul avgGen (Fin 1.2));
     minimumDemandMW := round (mul avgGen (Fin 0.6));
     loadFactor := Fin 0.7;
     demandVariabilityIndex := Fin 0.15 |}.

(** [xs.reduce((sum, d) => sum + Math.pow(d - avg, 2), 0) / xs.length] *)
Definition varianceOf (xs : list number) (avg : number) : number :=
  div (fold_left (fun sum d => add sum (square (sub d avg))) xs zero)
      (ofNat (List.length xs)).

Definition calculateDemandSupplyMetrics
  (demandData : list RTODemandData) (generationData : list GenerationData)
  : DemandSupplyMetrics :=
  match demandData with
  | [] => generationFallback generationData
  | _ :: _ =>
      let series := numericSeries demandData in
      match series with
      | [] => generationFallback generationData
      | _ :: _ =>
          let avgDemand := div (sum series) (ofNat (List.length series)) in
          let peakDemand := maxList series in
          let minDemand := minList series in
          let variance := varianceOf series avgDemand in
          let stdDev := sqrt variance in
          let coefficientOfVariation :=
            if neqb avgDemand zero then div stdDev avgDemand else zero in
          {| averageDemandMW := round avgDemand;
             peakDemandMW := round peakDemand;
             minimumDemandMW := round minDemand;
             loadFactor :=
               toFixed 3 (div avgDemand (orElse (Some peakDemand) one));
             demandVariabilityIndex := toFixed 3 coefficientOfVariation |}
      end
  end.

(** [capacityData.filter(d => d.energy_source_code === code)
       .reduce((sum, d) => sum + (d['net-summer-capacity-mw'] || 0), 0)] *)
Definition capacityOfFuel (code : string) (capacityData : list CapacityByFuelData)
  : number :=
  fold_left (fun sum d => add sum (orElse (net_summer_capacity_mw d) zero))
    (filter (fun d => String.eqb (energy_source_code d) code) capacityData)
    zero.

Definition calculateRenewableMetrics
  (capacityData : list CapacityByFuelData) (generationData : list GenerationData)
  : RenewableIntegrationMetrics :=
  let solarCapacity := capacityOfFuel "SUN" capacityData in
  let windCapacity := capacityOfFuel "WND" capacityData in
  let totalRenewableCapacity := add solarCapacity windCapacity in
  let estimatedCurtailmentRate := Fin 0.03 in
  let hoursPerYear := Fin 8760 in
  let capacityFactor := Fin 0.35 in
  let estimatedCurtailment :=
    mul (mul (mul totalRenewableCapacity hoursPerYear) capacityFactor)
        estimatedCurtailmentRate in
  let solarPenetration :=
    div solarCapacity (add (add solarCapacity windCapacity) one) in
  let duckCurve := min (mul solarPenetration (Fin 2)) one in
  {| solarCapacityMW := round solarCapacity;
     windCapacityMW := round windCapacity;
     estimatedCurtailmentMWh := round estimatedCurtailment;
     renewableVariabilityIndex :=
       toFixed 3 (add (Fin 0.4) (mul solarPenetration (Fin 0.3)));
     duckCurveSeverity := toFixed 3 duckCurve |}.

(** The loop [for (let i = 1; i < series.length; i++)
      ramps.push(Math.abs(series[i] - series[i - 1]))]. *)
Fixpoint rampsOf (series : list number) : list number :=
  match series with
  | prev :: (cur :: _) as rest => abs (sub cur prev) :: rampsOf rest
  | _ => []
  end.

Definition calculateGridStabilityMetrics (demandData : list RTODemandData)
  : GridStabilityMetrics :=
  let series := numericSeries demandData in
  if (List.length series <? 2)%nat then
    {| maxHourlyRampMW := Fin 500;
       rampingFrequency := Fin 4;
       frequencyRegulationNeed := Fin 100;
       spinningReserveRequirement := Fin 300 |}
  else
    let ramps := rampsOf series in
    let maxRamp := match ramps with [] => zero | _ => maxList ramps end in
    let avgDemand := div (sum series) (ofNat (List.length series)) in
    let significantRampThreshold := mul avgDemand (Fin 0.05) in
    let significantRamps :=
      List.length (filter (fun r => gt r significantRampThreshold) ramps) in
    let rampFrequency :=
      mul (div (ofNat significantRamps) (ofNat (List.length series))) (Fin 24) in
    let frequencyRegulation := mul avgDemand (Fin 0.01) in
    let spinningReserve := mul maxRamp (Fin 0.5) in
    {| maxHourlyRampMW := round maxRamp;
       rampingFrequency := toFixed 1 rampFrequency;
       frequencyRegulationNeed := round frequencyRegulation;
       spinningReserveRequirement := round spinningReserve |}.

Definition calculateEconomicMetrics
  (priceData : list RetailPriceData) (demandSupply : DemandSupplyMetrics)
  : EconomicMetrics :=
  match priceData with
  | [] =>
      {| averageRetailPriceCentsPerKWh := Fin 10;
         priceVolatilityIndex := Fin 0.15;
         peakOffPeakSpread := Fin 50;
         estimatedArbitrageRevenue := Fin 50000 |}
  | _ :: _ =>
      let prices := map (fun p => orElse (price p) zero) priceData in
      let avgPrice := div (sum prices) (ofNat (List.length prices)) in
      let priceVariance := varianceOf prices avgPrice in
      let priceStdDev := sqrt priceVariance in
      let priceVolatility := div priceStdDev avgPrice in
      let spread := mul (mul avgPrice (Fin 0.5)) (Fin 10) in
      let storageHours := Fin 4 in
      let cyclesPerYear := Fin 300 in
      let efficiency := Fin 0.85 in
      let arbitrageRevenue :=
        mul (mul (mul spread storageHours) cyclesPerYear) efficiency in
      {| averageRetailPriceCentsPerKWh := toFixed 2 avgPrice;
         priceVolatilityIndex := toFixed 3 priceVolatility;
         peakOffPeakSpread := round spread;
         estimatedArbitrageRevenue := round arbitrageRevenue |}
  end.

(** [Math.min(Math.max(x, 0), 100)], the clamp of the return statement of
    [calculateOpportunityScores]. *)
Definition clamp (x : number) : number := min (max x zero) (Fin 100).

(** The weights of the overall score. *)
Definition peakShavingWeight : Q := 0.25.
Definition renewableWeight : Q := 0.35.
Definition gridServicesWeight : Q := 0.20.
Definition economicWeight : Q := 0.20.

(** The local constant [peakShavingScore] of [calculateOpportunityScores]:
    the rounded formula, before the clamp. *)
Definition peakShavingRaw (demandSupply : DemandSupplyMetrics) : number :=
  round (add (mul (sub one (loadFactor demandSupply)) (Fin 50))
             (mul (demandVariabilityIndex demandSupply) (Fin 200))).

(** The local constant [renewableScore]. *)
Definition renewableRaw (gridCap : GridCapacityMetrics)
  (renewable : RenewableIntegrationMetrics) : number :=
  round (add (add (mul (renewablePenetration gridCap) (Fin 0.5))
                  (mul (duckCurveSeverity renewable) (Fin 30)))
             (mul (min (div (estimatedCurtailmentMWh renewable) (Fin 10000)) one)
                  (Fin 20))).

(** The local constant [gridServicesScore]. *)
Definition gridServicesRaw (stability : GridStabilityMetrics) : number :=
  round (add (add (mul (min (div (maxHourlyRampMW stability) (Fin 1000)) one)
                       (Fin 40))
                  (mul (min (div (rampingFrequency stability) (Fin 10)) one)
                       (Fin 30)))
             (mul (min (div (frequencyRegulationNeed stability) (Fin 500)) one)
                  (Fin 30))).

(** The local constant [economicScore]. *)
Definition economicRaw (economic : EconomicMetrics) : number :=
  round (add (add (mul (min (div (averageRetailPriceCentsPerKWh economic)
                                 (Fin 20)) one)
                       (Fin 30))
                  (mul (priceVolatilityIndex economic) (Fin 100)))
             (mul (min (div (estimatedArbitrageRevenue economic) (Fin 100000))
                       one)
                  (Fin 40))).

(** The weighted sum inside the [Math.round] of [overallScore]. *)
Definition weightedSum (ps rs gs es : number) : number :=
  add (add (add (mul ps (Fin peakShavingWeight))
                (mul rs (Fin renewableWeight)))
           (mul gs (Fin gridServicesWeight)))
      (mul es (Fin economicWeight)).

(** The local constant [overallScore]. *)
Definition overallRaw (ps rs gs es : number) : number :=
  round (weightedSum ps rs gs es).

Definition calculateOpportunityScores
  (gridCap : GridCapacityMetrics)
  (demandSupply : DemandSupplyMetrics)
  (renewable : RenewableIntegrationMetrics)
  (stability : GridStabilityMetrics)
  (economic : EconomicMetrics) : StorageOpportunityScore :=
  let ps := peakShavingRaw demandSupply in
  let rs := renewableRaw gridCap renewable in
  let gs := gridServicesRaw stability in
  let es := economicRaw economic in
  let overallScore := overallRaw ps rs gs es in
  {| overall := clamp overallScore;
     peakShavingScore := clamp ps;
     renewableIntegrationScore := clamp rs;
     gridServicesScore := clamp gs;
     economicScore := clamp es |}.

(** [analyzeStorageOpportunity]; [now] is [new Date().toISOString()]. *)
Definition analyzeStorageOpportunity (now : string) (reg : string)
  (capacityData : list CapacityByFuelData)
  (demandData : list RTODemandData)
  (generationData : list GenerationData)
  (priceData : list RetailPriceData) : EnergyStorageOpportunityMetrics :=
  let gridCap := calculateGridCapacityMetrics capacityData in
  let demandSupply := calculateDemandSupplyMetrics demandData generationData in
  let renewable := calculateRenewableMetrics capacityData generationData in
  let stability := calculateGridStabilityMetrics demandData in
  let economic := calculateEconomicMetrics priceData demandSupply in
  let score :=
    calculateOpportunityScores gridCap demandSupply renewable stability
      economic in
  {| region := reg;
     analysisDate := now;
     gridCapacity := gridCap;
     demandSupplyMetrics := demandSupply;
     renewableIntegration := renewable;
     gridStability := stability;
     economicOpportunity := economic;
     storageOpportunityScore := score |}.

End EnergyStorageAnalyzer.

(* ================================================================== *)
(** ** [CapacityAnalyzer] ([src/analysis/capacityAnalyzer.ts]) *)
(* ================================================================== *)

Module CapacityAnalyzer.

Record RegionalCapacityMetrics : Type := {
  region : string;
  latestPeriod : string;
  totalSummerCapacityMW : number;
  totalWinterCapacityMW : number
}.

(** The object [calculateCapacityUtilization] returns; [None] is [null]. *)
Record CapacityUtilization : Type := {
  utilization : option number;
  totalGenerationGWh : number;
  totalConsumptionGWh : number
}.

Definition calculateRegionalMetrics (reg : string)
  (capacityData : list OperatingCapacity) : RegionalCapacityMetrics :=
  match capacityData with
  | [] =>
      {| region := reg; latestPeriod := "N/A";
         totalSummerCapacityMW := zero; totalWinterCapacityMW := zero |}
  | first :: _ =>
      let latest := oc_period first in
      if String.eqb latest "" then
        {| region := reg; latestPeriod := "N/A";
           totalSummerCapacityMW := zero; totalWinterCapacityMW := zero |}
      else
        let latestPeriodData :=
          filter (fun d => String.eqb (oc_period d) latest) capacityData in
        {| region := reg;
           latestPeriod := latest;
           totalSummerCapacityMW :=
             fold_left
               (fun sum gen => add sum (nullish (oc_net_summer_capacity_mw gen) zero))
               latestPeriodData zero;
           totalWinterCapacityMW :=
             fold_left
               (fun sum gen => add sum (nullish (oc_net_winter_capacity_mw gen) zero))
               latestPeriodData zero |}
  end.

(** [30.4375 * 24] *)
Definition totalHoursInMonth : number := mul (Fin 30.4375) (Fin 24).

Definition calculateCapacityUtilization
  (capacityMetrics : RegionalCapacityMetrics)
  (generationData : list GenerationData) : CapacityUtilization :=
  match generationData with
  | [] =>
      {| utilization := None;
         totalGenerationGWh := zero; totalConsumptionGWh := zero |}
  | first :: _ =>
      if le (totalSummerCapacityMW capacityMetrics) zero then
        {| utilization := None;
           totalGenerationGWh := zero; totalConsumptionGWh := zero |}
      else
        let latestGenerationPeriod := period first in
        let latestGenerationData :=
          filter (fun d => String.eqb (period d) latestGenerationPeriod)
            generationData in
        let totalGenerationMWh :=
          fold_left (fun sum gen => add sum (nullish (generation gen) zero))
            latestGenerationData zero in
        let totalConsumptionMWh :=
          fold_left (fun sum gen => add sum (nullish (total_consumption gen) zero))
            latestGenerationData zero in
        let potentialGenerationMWh :=
          mul (totalSummerCapacityMW capacityMetrics) totalHoursInMonth in
        let util :=
          if gt potentialGenerationMWh zero
          then Some (div totalGenerationMWh potentialGenerationMWh)
          else None in
        {| utilization :=
             match util with
             | Some u => if truthy u then Some (toFixed 4 u) else None
             | None => None
             end;
           totalGenerationGWh := toFixed 3 (div totalGenerationMWh (Fin 1000));
           totalConsumptionGWh := toFixed 3 (div totalConsumptionMWh (Fin 1000)) |}
  end.

End CapacityAnalyzer.

(* ================================================================== *)
(** ** Errors of the data layer ([src/services/eiaClient.ts],
       [src/repositories/electricityRepository.ts]) *)
(* ================================================================== *)

Module Errors.

(** The message of the [Error] that [EiaApiClient.get] throws when a
    request fails. *)
Definition requestFailed (path errorMessage : string) : string :=
  "Failed to fetch data from EIA endpoint: " ++ path ++ ". Reason: "
  ++ errorMessage.

(** The message of the [Error] that [parseAndValidate] throws when the
    response carries no data. *)
Definition invalidStructure (context : string) : string :=
  "Invalid response structure from EIA API for " ++ context ++ ".".

End Errors.

(* ================================================================== *)
(** ** The tool layer ([src/index.ts]) *)
(* ================================================================== *)

Module Index.

Inductive Trend : Type := up | down | flat.

(** [typeof x === "number" ? x : 0] on a value that is a number, [null] or
    [undefined]. *)
Definition numberOrZero (x : option number) : number :=
  match x with
  | Some v => v
  | None => zero
  end.

Definition getTrend (latest previous : option number) : Trend :=
  let l := numberOrZero latest in
  let p := numberOrZero previous in
  let absPrev := abs p in
  let delta := sub l p in
  let threshold := if gt absPrev zero then mul absPrev (Fin 0.01) else one in
  if gt delta threshold then up
  else if lt delta (neg threshold) then down
  else flat.

Record Stats : Type := {
  avg : number;
  stddev : number;
  cov : number
}.

Definition basicStats (values : list number) : Stats :=
  match values with
  | [] => {| avg := zero; stddev := zero; cov := zero |}
  | _ :: _ =>
      let a := div (sum values) (ofNat (List.length values)) in
      let variance :=
        div (fold_left (fun s v => add s (square (sub v a))) values zero)
            (ofNat (List.length values)) in
      let sd := sqrt variance in
      let c := if neqb a zero then div sd a else zero in
      {| avg := a; stddev := sd; cov := c |}
  end.

Record Driver : Type := {
  name : string;
  score : number
}.

(** [drivers.reduce((prev, current) =>
      current.score > prev.score ? current : prev).name] *)
Definition identifyPrimaryDriver (scores : StorageOpportunityScore) : string :=
  let first := {| name := "Peak Shaving"; score := peakShavingScore scores |} in
  let rest :=
    [ {| name := "Renewable Integration";
         score := renewableIntegrationScore scores |};
      {| name := "Grid Services"; score := gridServicesScore scores |};
      {| name := "Economic Arbitrage"; score := economicScore scores |} ] in
  name (fold_left
          (fun prev current =>
             if gt (score current) (score prev) then current else prev)
          rest first).

(** *** The repository as the tool sees it

    A call of the repository settles as a rejected promise, carrying the
    [message] of the [Error] thrown ([EiaApiClient.get] and
    [parseAndValidate] throw [Error]s only), or as a resolved one.  The
    outcome is taken to be a function of the region. *)

Inductive Promise (A : Type) : Type :=
| Rejected (message : string)
| Resolved (a : A).

Arguments Rejected {A} message.
Arguments Resolved {A} a.

Record ElectricityRepository : Type := {
  getCapacityByFuelType : string -> Promise (list CapacityByFuelData);
  getGenerationByFuelType : string -> Promise (list GenerationData);
  getRetailPrices : string -> Promise (list RetailPriceData);
  getRTODemandData : string -> Promise (list RTODemandData)
}.

Record RegionData : Type := {
  capacityData : list CapacityByFuelData;
  generationData : list GenerationData;
  priceData : list RetailPriceData;
  demandData : list RTODemandData
}.

(** The inner [Promise.all] over the four fetches of a region.  It rejects
    as soon as one of them does; when several reject, the model reports the
    first in the order of the array. *)
Definition fetchRegion (repo : ElectricityRepository)
  (includeHourlyAnalysis : bool) (reg : string) : Promise RegionData :=
  match getCapacityByFuelType repo reg with
  | Rejected m => Rejected m
  | Resolved cap =>
      match getGenerationByFuelType repo reg with
      | Rejected m => Rejected m
      | Resolved gen =>
          match getRetailPrices repo reg with
          | Rejected m => Rejected m
          | Resolved prices =>
              match (if includeHourlyAnalysis
                     then getRTODemandData repo reg
                     else Resolved []) with
              | Rejected m => Rejected m
              | Resolved demand =>
                  Resolved {| capacityData := cap;
                              generationData := gen;
                              priceData := prices;
                              demandData := demand |}
              end
          end
      end
  end.

(** [RegionalAnalysisResult] of [src/types/energyStorage.types.ts]; an
    absent key is [None]. *)
Record RegionalAnalysisResult : Type := {
  resultRegion : string;
  metrics : option EnergyStorageOpportunityMetrics;
  error : option string
}.

(** The body of [args.regions.map(async (region) => ...)]: its [try] and its
    [catch]. *)
Definition analyzeRegion (now : string) (repo : ElectricityRepository)
  (includeHourlyAnalysis : bool) (reg : string) : RegionalAnalysisResult :=
  match fetchRegion repo includeHourlyAnalysis reg with
  | Rejected m =>
      {| resultRegion := reg; metrics := None; error := Some m |}
  | Resolved data =>
      match capacityData data with
      | [] =>
          {| resultRegion := reg; metrics := None;
             error := Some "No capacity data found" |}
      | _ :: _ =>
          {| resultRegion := reg;
             metrics :=
               Some (EnergyStorageAnalyzer.analyzeStorageOpportunity now reg
                       (capacityData data) (demandData data)
                       (generationData data) (priceData data));
             error := None |}
      end
  end.

(** [Array.prototype.sort] with a comparator: [b] goes before [a] when
    [cmp a b > 0]; the sort is stable.  A comparator value of [NaN] counts
    as [0]. *)
Fixpoint insertBy {A : Type} (cmp : A -> A -> number) (x : A) (l : list A)
  : list A :=
  match l with
  | [] => [x]
  | y :: rest =>
      if gt (cmp x y) zero then y :: insertBy cmp x rest else x :: l
  end.

Definition sortBy {A : Type} (cmp : A -> A -> number) (l : list A) : list A :=
  fold_right (insertBy cmp) [] l.

(** [(b.metrics?.storageOpportunityScore.overall ?? 0)
      - (a.metrics?.storageOpportunityScore.overall ?? 0)] on two metrics. *)
Definition byOverallDesc (a b : EnergyStorageOpportunityMetrics) : number :=
  sub (overall (storageOpportunityScore b))
      (overall (storageOpportunityScore a)).

Record Opportunity : Type := {
  opportunityRegion : string;
  overallScore : number;
  primaryDriver : string
}.

Record Summary : Type := {
  summaryDate : string;
  regionsAnalyzed : nat;
  successfulAnalyses : nat;
  topOpportunities : list Opportunity
}.

(** The object the tool serialises with [JSON.stringify]. *)
Record ToolOutput : Type := {
  summary : Summary;
  detailedResults : list EnergyStorageOpportunityMetrics;
  failedRegions : list RegionalAnalysisResult
}.

(** A call of the tool returns its output or throws a [UserError]. *)
Inductive ToolResult : Type :=
| Throws (message : string)
| Returns (output : ToolOutput).

Definition apiKeyErrorMessage : string :=
  "Authentication failed: No EIA API key provided in the request context (extraArgs.apiKey) and no fallback EIA_API_KEY found in environment variables.".

(** [a || b] on strings that may be absent: the empty string is falsy. *)
Definition firstKey (a b : option string) : option string :=
  match a with
  | Some k => if String.eqb k "" then b else Some k
  | None => b
  end.

(** [.filter(r => "metrics" in r && r.metrics !== undefined)], which the
    code then reads through [r.metrics]. *)
Fixpoint successfulOf (results : list RegionalAnalysisResult)
  : list EnergyStorageOpportunityMetrics :=
  match results with
  | [] => []
  | r :: rest =>
      match metrics r with
      | Some m => m :: successfulOf rest
      | None => successfulOf rest
      end
  end.

(** [.filter(r => "error" in r)] *)
Definition failedOf (results : list RegionalAnalysisResult)
  : list RegionalAnalysisResult :=
  filter (fun r => match error r with Some _ => true | None => false end)
    results.

(** [execute] of [findHighPotentialEnergyStorageAreas].  [extraArgsApiKey]
    and [configApiKey] are the two places a key can come from, [connect]
    stands for the repository built on the client of that key, and [now]
    for the clock. *)
Definition findHighPotentialEnergyStorageAreas
  (extraArgsApiKey configApiKey : option string)
  (connect : string -> ElectricityRepository) (now : string)
  (regions : list string) (includeHourlyAnalysis : bool) : ToolResult :=
  match firstKey extraArgsApiKey configApiKey with
  | None => Throws apiKeyErrorMessage
  | Some eiaApiKey =>
      if String.eqb eiaApiKey "" then Throws apiKeyErrorMessage
      else
        let electricityRepo := connect eiaApiKey in
        let results :=
          map (analyzeRegion now electricityRepo includeHourlyAnalysis) regions in
        let successful := successfulOf results in
        let failedAnalyses := failedOf results in
        let sortedResults := sortBy byOverallDesc successful in
        Returns
          {| summary :=
               {| summaryDate := now;
                  regionsAnalyzed := List.length regions;
                  successfulAnalyses := List.length successful;
                  topOpportunities :=
                    map (fun r =>
                           {| opportunityRegion := region r;
                              overallScore :=
                                overall (storageOpportunityScore r);
                              primaryDriver :=
                                identifyPrimaryDriver
                                  (storageOpportunityScore r) |})
                        (firstn 3 sortedResults) |};
             detailedResults := sortedResults;
             failedRegions := failedAnalyses |}
  end.

End Index.

(* ================================================================== *)
(** * Specification vocabulary *)
(* ================================================================== *)

Import EnergyStorageAnalyzer.

(** Two numbers denote the same value: rationals are compared by [Qeq]. *)
Definition sameNumber (x y : number) : Prop :=
  match x, y with
  | Fin a, Fin b => a == b
  | PInf, PInf | NInf, NInf | NaN, NaN => True
  | _, _ => False
  end.

(** A finite number within the score range. *)
Definition inScoreRange (x : number) : Prop :=
  match x with
  | Fin q => 0 <= q <= 100
  | _ => False
  end.

(** A finite number that is not negative. *)
Definition nonNegative (x : number) : Prop :=
  match x with
  | Fin q => 0 <= q
  | _ => False
  end.

(** *** Sample metric records *)

Definition sampleDemandSupply : DemandSupplyMetrics :=
  {| averageDemandMW := Fin 41000; peakDemandMW := Fin 58000;
     minimumDemandMW := Fin 30000; loadFactor := Fin 0.7;
     demandVariabilityIndex := Fin 0.15 |}.

(** *** The overall score as the specification words it *)

Import Index.

(** *** Trend classification *)

(** A value that is [null] or a finite number. *)
Definition ofOptionQ (x : option Q) : option number := option_map Fin x.

(** [null] read as [0]. *)
Definition valueOrZero (x : option Q) : Q :=
  match x with
  | Some q => q
  | None => 0
  end.

(** The deadband [getTrend] applies: one percent of the magnitude of the
    previous value, and [1] when the previous value is zero. *)
Definition deadband (p : Q) : Q :=
  if Qeq_bool p 0 then 1 else Qabs p * 0.01.

(** The classifier as the specification words it: the threshold is
    [max(|previous| * 0.01, 1)]. *)
Definition classifyTrendSpec (latest previous : option number) : Trend :=
  let l := numberOrZero latest in
  let p := numberOrZero previous in
  let threshold := max (mul (abs p) (Fin 0.01)) one in
  let delta := sub l p in
  if gt delta threshold then up
  else if lt delta (neg threshold) then down
  else flat.

(** *** Hourly demand and generation samples *)

Definition hourly (v : option number) : RTODemandData :=
  {| rto_period := "2024-06-01T00"; respondent := "ERCO"; value := v |}.

Definition monthly (g : option number) : GenerationData :=
  {| period := "2024-06"; generation := g; total_consumption := None |}.

(** One finite value among missing and non-finite ones. *)
Definition sparseDemand : list RTODemandData :=
  [hourly (Some (Fin 41000)); hourly None; hourly (Some NaN);
   hourly (Some PInf)].

Definition someGeneration : list GenerationData :=
  [monthly (Some (Fin 1000)); monthly None; monthly (Some (Fin 500))].

(** *** Retail prices *)

Definition retail (p : option number) : RetailPriceData :=
  {| rp_period := "2024-06"; rp_stateid := "TX"; sectorid := "ALL";
     price := p; sales := None |}.

(** The price of a record is [null] or a finite number. *)
Definition finitePrice (p : RetailPriceData) : Prop :=
  match price p with
  | Some (Fin _) | None => True
  | Some _ => False
  end.

(** The price of a record with [null] read as [0]. *)
Definition priceOrZero (p : RetailPriceData) : Q :=
  match price p with
  | Some (Fin q) => q
  | _ => 0
  end.

Definition Qsum (qs : list Q) : Q := fold_right Qplus 0 qs.

(** The arithmetic mean of a list of rationals. *)
Definition Qmean (qs : list Q) : Q :=
  Qsum qs / inject_Z (Z.of_nat (List.length qs)).

Definition threePrices : list RetailPriceData :=
  [retail (Some (Fin 1)); retail (Some (Fin 2)); retail (Some (Fin 2))].

Definition pricesWithGap : list RetailPriceData :=
  [retail (Some (Fin 12)); retail None; retail (Some (Fin 13.3))].

(** A price series whose only record has no price. *)
Definition unpriced : list RetailPriceData := [retail None].

(** *** Capacity by fuel *)

Definition plant (code : string) (mw : Q) : CapacityByFuelData :=
  {| cf_period := "2024"; cf_stateid := "TX"; energy_source_code := code;
     net_summer_capacity_mw := Some (Fin mw);
     net_winter_capacity_mw := None |}.

Definition solarAndGas : list CapacityByFuelData :=
  [plant "SUN" 8000; plant "NG" 12000].

Definition oneToTwo : list CapacityByFuelData :=
  [plant "SUN" 1; plant "NG" 2].

(** *** Capacity utilization *)

Definition hundredMW : CapacityAnalyzer.RegionalCapacityMetrics :=
  {| CapacityAnalyzer.region := "TX";
     CapacityAnalyzer.latestPeriod := "2024-06";
     CapacityAnalyzer.totalSummerCapacityMW := Fin 100;
     CapacityAnalyzer.totalWinterCapacityMW := Fin 110 |}.

(** A month in which the only record reports no generation and no
    consumption. *)
Definition idleMonth : list GenerationData :=
  [{| period := "2024-06"; generation := Some (Fin 0);
      total_consumption := Some (Fin 0) |}].

(** A month at half of the potential output of [hundredMW]:
    [100 * 730.5 / 2 = 36525] MWh. *)
Definition halfLoadMonth : list GenerationData :=
  [{| period := "2024-06"; generation := Some (Fin 36525);
      total_consumption := Some (Fin 1200) |};
   {| period := "2024-05"; generation := Some (Fin 70000);
      total_consumption := None |}].

(** The generation of the latest period, in MWh: the sum
    [calculateCapacityUtilization] takes over the records of the period of
    the first record. *)
Definition latestGenerationMWh (generationData : list GenerationData)
  : number :=
  match generationData with
  | [] => zero
  | first :: _ =>
      sum (map (fun gen => nullish (generation gen) zero)
             (filter (fun d => String.eqb (period d) (period first))
                generationData))
  end.

(** *** The region ranker *)

(** The message of a capacity request that timed out. *)
Definition capacityTimeout : string :=
  Errors.requestFailed "/v2/electricity/operating-generator-capacity/data"
    "timeout of 30000ms exceeded".


(* ================================================================== *)
(** * Further code of the server *)
(* ================================================================== *)

(* ================================================================== *)
(** ** The other tools of [src/index.ts] *)
(* ================================================================== *)

Module Tools.

(** [StateProfileData] of [src/validation/electricity.schemas.ts]; an
    absent or [null] field is [None]. *)
Record StateProfileData : Type := {
  sp_period : string;
  net_generation : option number;
  total_retail_sales : option number;
  average_retail_price : option number
}.

(** One entry of [metrics] in [getStateElectricityProfileSummary]. *)
Record ProfileMetric : Type := {
  latestValue : option number;
  yoyDelta : number;
  trend : Trend
}.

(** [record?.[field]] on a record that may be [undefined]. *)
Definition fieldOf (field : StateProfileData -> option number)
  (record : option StateProfileData) : option number :=
  match record with
  | Some d => field d
  | None => None
  end.

(** The entry of [metrics] for one field: [latest] and [previous] are
    [data[0]] and [data[1]]. *)
Definition profileMetric (field : StateProfileData -> option number)
  (data : list StateProfileData) : ProfileMetric :=
  let latest := nth_error data 0 in
  let previous := nth_error data 1 in
  {| latestValue := fieldOf field latest;
     yoyDelta := sub (nullish (fieldOf field latest) zero)
                     (nullish (fieldOf field previous) zero);
     trend := getTrend (fieldOf field latest) (fieldOf field previous) |}.

(** The object [getStateElectricityProfileSummary] serialises. *)
Record ProfileSummary : Type := {
  ps_region : string;
  ps_analysisDate : string;
  years : list string;
  netGenerationMetric : ProfileMetric;
  totalRetailSalesMetric : ProfileMetric;
  averageRetailPriceMetric : ProfileMetric
}.

Definition stateElectricityProfileSummary (now reg : string)
  (data : list StateProfileData) : ProfileSummary :=
  {| ps_region := reg;
     ps_analysisDate := now;
     years := map sp_period data;
     netGenerationMetric := profileMetric net_generation data;
     totalRetailSalesMetric := profileMetric total_retail_sales data;
     averageRetailPriceMetric := profileMetric average_retail_price data |}.

(** The object [getCapacityAndUtilizationByState] serialises. *)
Record CapacityAndUtilization : Type := {
  cu_region : string;
  cu_latestPeriod : string;
  cu_totalSummerCapacityMW : number;
  cu_totalWinterCapacityMW : number;
  cu_utilization : CapacityAnalyzer.CapacityUtilization
}.

Definition capacityAndUtilization (reg : string)
  (capacityData : list OperatingCapacity)
  (generationData : list GenerationData) : CapacityAndUtilization :=
  let capacityMetrics :=
    CapacityAnalyzer.calculateRegionalMetrics reg capacityData in
  let util :=
    CapacityAnalyzer.calculateCapacityUtilization capacityMetrics
      generationData in
  {| cu_region := reg;
     cu_latestPeriod := CapacityAnalyzer.latestPeriod capacityMetrics;
     cu_totalSummerCapacityMW :=
       CapacityAnalyzer.totalSummerCapacityMW capacityMetrics;
     cu_totalWinterCapacityMW :=
       CapacityAnalyzer.totalWinterCapacityMW capacityMetrics;
     cu_utilization := util |}.

Inductive PriceTrend : Type := rising | falling | flatPrice.

(** What [compareRetailElectricityPrices] computes for a region with
    price data. *)
Record PriceComparison : Type := {
  avgPriceCentsPerKWh : number;
  volatilityIndex : number;
  priceTrend : PriceTrend
}.

(** [xs.slice(0, n)] *)
Definition slice0 {A : Type} (n : nat) (xs : list A) : list A := firstn n xs.

(** The body of the [try] of [compareRetailElectricityPrices] once the
    price data are there; [inl] is the [error] of a region without price
    data. *)
Definition comparePrices (months : nat) (priceData : list RetailPriceData)
  : string + PriceComparison :=
  let sliced := slice0 months priceData in
  match sliced with
  | [] => inl "No price data"
  | _ :: _ =>
      let prices := map (fun p => nullish (price p) zero) sliced in
      let stats := basicStats prices in
      let latest := nullish (nth_error prices 0) zero in
      let oldest := nullish (nth_error prices (List.length prices - 1)) zero in
      let delta := sub latest oldest in
      let deadband := Fin 0.1 in
      inr {| avgPriceCentsPerKWh := toFixed 2 (avg stats);
             volatilityIndex := toFixed 3 (cov stats);
             priceTrend :=
               if gt delta deadband then rising
               else if lt delta (neg deadband) then falling
               else flatPrice |}
  end.

End Tools.

(* ================================================================== *)
(** ** [EiaApiClient] ([src/services/eiaClient.ts]) *)
(* ================================================================== *)

Module EiaApiClient.

(** The state of a client: the key it sends with every request and the
    options it gave to [axios.create]. *)
Record EiaApiClient : Type := {
  apiKey : string;
  baseURL : string;
  timeout : Z
}.

Definition keyRequired : string := "EIA API key is required for EiaApiClient.".

(** [new EiaApiClient(apiKey, timeout)]: the constructor throws on an empty
    key. *)
Definition new (key : string) (timeoutMs : Z) : Promise EiaApiClient :=
  if String.eqb key "" then Rejected keyRequired
  else Resolved {| apiKey := key; baseURL := "https://api.eia.gov";
                   timeout := timeoutMs |}.

End EiaApiClient.

(* ================================================================== *)
(** ** [ResourceManager] ([src/resource-manager.ts]) *)
(* ================================================================== *)

(** The manager keeps its resources in a [Map] from the cache key to a
    [ResourceInfo].  The [Map] is the list of its entries in insertion
    order, which is the order its iteration follows.  An asynchronous
    function is a function to the outcome of its promise, and the calls of
    the manager run one after the other: the model does not interleave
    two calls at an [await].  [now] is what [Date.now()] returns during the
    call, in milliseconds, and [uuid] what [uuidv4()] returns. *)

Module ResourceManager.

Section Manager.

(** The type of the managed resource. *)
Variable T : Type.

Record ResourceInfo : Type := {
  resource : T;
  lastUsed : Z;
  instanceId : string;
  resourceType : string;
  cacheKey : string;
  cleanupFn : T -> Promise unit
}.

Definition Resources : Type := list (string * ResourceInfo).

(** [Map.prototype.get] *)
Fixpoint mapGet (key : string) (resources : Resources)
  : option ResourceInfo :=
  match resources with
  | [] => None
  | (k, info) :: rest =>
      if String.eqb k key then Some info else mapGet key rest
  end.

(** [Map.prototype.set]: the entry of a key that is there keeps its place,
    a new key goes to the end. *)
Fixpoint mapSet (key : string) (info : ResourceInfo) (resources : Resources)
  : Resources :=
  match resources with
  | [] => [(key, info)]
  | (k, i) :: rest =>
      if String.eqb k key then (k, info) :: rest
      else (k, i) :: mapSet key info rest
  end.

(** [Map.prototype.delete] *)
Fixpoint mapDelete (key : string) (resources : Resources) : Resources :=
  match resources with
  | [] => []
  | (k, i) :: rest =>
      if String.eqb k key then rest else (k, i) :: mapDelete key rest
  end.

(** [existingInfo.lastUsed = Date.now()] *)
Definition touch (now : Z) (info : ResourceInfo) : ResourceInfo :=
  {| resource := resource info;
     lastUsed := now;
     instanceId := instanceId info;
     resourceType := resourceType info;
     cacheKey := cacheKey info;
     cleanupFn := cleanupFn info |}.

Definition factoryFailed (type message : string) : string :=
  "Resource factory function failed for type " ++ type ++ ": " ++ message.

(** [getResource]: the resources after the call and the outcome of the
    promise.  A resource that is cached is returned whatever its type; the
    assignment to [lastUsed] writes to the object that the map holds. *)
Definition getResource (now : Z) (uuid : string)
  (key type : string) (factoryFn : string -> Promise T)
  (cleanup : T -> Promise unit) (resources : Resources)
  : Resources * Promise T :=
  match mapGet key resources with
  | Some existingInfo =>
      (mapSet key (touch now existingInfo) resources,
       Resolved (resource existingInfo))
  | None =>
      match factoryFn key with
      | Resolved newResource =>
          let newInfo :=
            {| resource := newResource;
               lastUsed := now;
               instanceId := uuid;
               resourceType := type;
               cacheKey := key;
               cleanupFn := cleanup |} in
          (mapSet key newInfo resources, Resolved newResource)
      | Rejected message => (resources, Rejected (factoryFailed type message))
      end
  end.

(** [now - info.lastUsed > this.cleanupIntervalMs] *)
Definition inactive (now cleanupIntervalMs : Z) (info : ResourceInfo) : bool :=
  (cleanupIntervalMs <? now - lastUsed info)%Z.

(** The first loop of [cleanupInactiveResources]. *)
Definition keysToRemove (now cleanupIntervalMs : Z) (resources : Resources)
  : list string :=
  map fst
    (filter (fun entry => inactive now cleanupIntervalMs (snd entry))
       resources).

(** [await info.cleanupFn(info.resource)] resolves. *)
Definition cleaned (info : ResourceInfo) : bool :=
  match cleanupFn info (resource info) with
  | Resolved _ => true
  | Rejected _ => false
  end.

(** One turn of the second loop. *)
Definition cleanupKey (now cleanupIntervalMs : Z) (resources : Resources)
  (key : string) : Resources :=
  match mapGet key resources with
  | Some info =>
      if inactive now cleanupIntervalMs info then
        if cleaned info then mapDelete key resources else resources
      else resources
  | None => resources
  end.

(** [cleanupInactiveResources]: the resources after the call. *)
Definition cleanupInactiveResources (now cleanupIntervalMs : Z)
  (resources : Resources) : Resources :=
  fold_left (cleanupKey now cleanupIntervalMs)
    (keysToRemove now cleanupIntervalMs resources) resources.

(** [destroyAllNow]: the resources whose [cleanupFn] was called, and the
    resources after [this.resources.clear()]. *)
Definition destroyAllNow (resources : Resources) : list T * Resources :=
  (map (fun entry => resource (snd entry)) resources, []).

End Manager.

Arguments resource {T} _.
Arguments lastUsed {T} _.
Arguments instanceId {T} _.
Arguments resourceType {T} _.
Arguments cacheKey {T} _.
Arguments cleanupFn {T} _.
Arguments mapGet {T} key resources.
Arguments mapSet {T} key info resources.
Arguments mapDelete {T} key resources.
Arguments touch {T} now info.
Arguments getResource {T} now uuid key type factoryFn cleanup resources.
Arguments inactive {T} now cleanupIntervalMs info.
Arguments keysToRemove {T} now cleanupIntervalMs resources.
Arguments cleaned {T} info.
Arguments cleanupKey {T} now cleanupIntervalMs resources key.
Arguments cleanupInactiveResources {T} now cleanupIntervalMs resources.
Arguments destroyAllNow {T} resources.

End ResourceManager.

(* ================================================================== *)
(** ** [getElectricityRepository] ([src/index.ts]) *)
(* ================================================================== *)

Module Access.

(** [getElectricityRepository]: the key is the one of the request, or the
    one of the configuration; the client of the key comes from the resource
    manager.  The result is the client that the repository is built on. *)
Definition getElectricityRepository
  (extraArgsApiKey configApiKey : option string) (eiaApiTimeout : Z)
  (now : Z) (uuid : string)
  (resources : ResourceManager.Resources EiaApiClient.EiaApiClient)
  : ResourceManager.Resources EiaApiClient.EiaApiClient
    * Promise EiaApiClient.EiaApiClient :=
  match firstKey extraArgsApiKey configApiKey with
  | None => (resources, Rejected apiKeyErrorMessage)
  | Some eiaApiKey =>
      if String.eqb eiaApiKey "" then (resources, Rejected apiKeyErrorMessage)
      else
        ResourceManager.getResource now uuid eiaApiKey "EiaApiClient"
          (fun key => EiaApiClient.new key eiaApiTimeout)
          (fun _ => Resolved tt)
          resources
  end.

End Access.

(* ================================================================== *)
(** ** Objects used as records from strings to values *)
(* ================================================================== *)

(** An object literal [{}] that the code fills by [o[key] = v] and reads by
    [o[key]], [Object.values] and [for ... in] is the list of its own
    properties in the order of their creation, which is the order of the
    enumeration for keys that are not array indices.  The keys are taken to
    be neither array indices nor names that [Object.prototype] defines:
    the fuel codes and state codes of the EIA are capital letters. *)

Module JsObject.

Section Object.

Variable V : Type.

Definition object : Type := list (string * V).

(** [o[key]], [None] for [undefined]. *)
Fixpoint lookup (key : string) (o : object) : option V :=
  match o with
  | [] => None
  | (k, v) :: rest => if String.eqb k key then Some v else lookup key rest
  end.

(** [o[key] = v] *)
Fixpoint assign (key : string) (v : V) (o : object) : object :=
  match o with
  | [] => [(key, v)]
  | (k, w) :: rest =>
      if String.eqb k key then (k, v) :: rest
      else (k, w) :: assign key v rest
  end.

(** [delete o[key]] *)
Fixpoint remove (key : string) (o : object) : object :=
  match o with
  | [] => []
  | (k, w) :: rest =>
      if String.eqb k key then rest else (k, w) :: remove key rest
  end.

(** [Object.values(o)] *)
Definition values (o : object) : list V := map snd o.

(** [Object.keys(o)] *)
Definition keys (o : object) : list string := map fst o.

End Object.

Arguments lookup {V} key o.
Arguments assign {V} key v o.
Arguments remove {V} key o.
Arguments values {V} o.
Arguments keys {V} o.

End JsObject.

(* ================================================================== *)
(** ** [ElectricityRepository] ([src/repositories/electricityRepository.ts]) *)
(* ================================================================== *)

Module Repository.

(** [mapStateToRTO], on a state code of two letters. *)
Definition mapStateToRTO (stateId : string) : option string :=
  JsObject.lookup stateId
    [("TX", "ERCO"); ("CA", "CISO"); ("NY", "NYIS"); ("IL", "MISO");
     ("PA", "PJM"); ("MA", "ISNE"); ("OK", "SWPP")].

(** [getRTODemandData].  [fetch respondent type] is the request of the
    hourly data of a respondent followed by [parseAndValidate]. *)
Definition getRTODemandData
  (fetch : string -> string -> Promise (list RTODemandData))
  (stateId : string) (respondentOverride : option string)
  (typeOverride : string) : Promise (list RTODemandData) :=
  let rtoRegion :=
    match respondentOverride with
    | Some respondent => Some respondent
    | None => mapStateToRTO stateId
    end in
  match rtoRegion with
  | None => Resolved []
  | Some respondent =>
      if String.eqb respondent "" then Resolved []
      else fetch respondent typeOverride
  end.

(** One turn of the loop of [getCapacityByFuelType] over the plants. *)
Definition capacityByFuelStep
  (capacityByFuel : JsObject.object CapacityByFuelData)
  (plant : OperatingCapacity) : JsObject.object CapacityByFuelData :=
  let fuelType := oc_energy_source_code plant in
  if String.eqb fuelType "" then capacityByFuel
  else
    let entry :=
      match JsObject.lookup fuelType capacityByFuel with
      | Some existing => existing
      | None =>
          {| cf_period := String.substring 0 4 (oc_period plant);
             cf_stateid := oc_stateid plant;
             energy_source_code := fuelType;
             net_summer_capacity_mw := Some zero;
             net_winter_capacity_mw := Some zero |}
      end in
    JsObject.assign fuelType
      {| cf_period := cf_period entry;
         cf_stateid := cf_stateid entry;
         energy_source_code := energy_source_code entry;
         net_summer_capacity_mw :=
           Some (add (nullish (net_summer_capacity_mw entry) zero)
                   (orElse (oc_net_summer_capacity_mw plant) zero));
         net_winter_capacity_mw :=
           Some (add (nullish (net_winter_capacity_mw entry) zero)
                   (orElse (oc_net_winter_capacity_mw plant) zero)) |}
      capacityByFuel.

(** What [getCapacityByFuelType] returns for the validated plants of the
    response. *)
Definition capacityByFuelType (plantData : list OperatingCapacity)
  : list CapacityByFuelData :=
  JsObject.values (fold_left capacityByFuelStep plantData []).

(** The repository of a state as [findHighPotentialEnergyStorageAreas] uses
    it, over the requests of a client: the capacity comes grouped by fuel
    and the hourly demand goes through the mapping of the state. *)
Definition over
  (plants : string -> Promise (list OperatingCapacity))
  (generation : string -> Promise (list GenerationData))
  (prices : string -> Promise (list RetailPriceData))
  (fetch : string -> string -> Promise (list RTODemandData))
  : ElectricityRepository :=
  {| Index.getCapacityByFuelType := fun stateId =>
       match plants stateId with
       | Rejected message => Rejected message
       | Resolved plantData => Resolved (capacityByFuelType plantData)
       end;
     Index.getGenerationByFuelType := generation;
     Index.getRetailPrices := prices;
     Index.getRTODemandData := fun stateId =>
       getRTODemandData fetch stateId None "D" |}.

End Repository.

(* ================================================================== *)
(** ** [compareRetailElectricityPrices] ([src/index.ts]) *)
(* ================================================================== *)

Module Compare.

(** What the tool keeps of a region: the comparison of its prices, or the
    [error] of a region without price data or whose request failed. *)
Record PriceResult : Type := {
  priceRegion : string;
  outcome : string + Tools.PriceComparison
}.

(** The body of [regions.map(async (region) => ...)]: its [try] and its
    [catch]. *)
Definition compareRegion
  (getRetailPrices : string -> Promise (list RetailPriceData))
  (months : nat) (reg : string) : PriceResult :=
  match getRetailPrices reg with
  | Rejected message => {| priceRegion := reg; outcome := inl message |}
  | Resolved priceData =>
      {| priceRegion := reg; outcome := Tools.comparePrices months priceData |}
  end.

(** The truth value of [r.error]: an absent [error] and an empty one are
    falsy. *)
Definition hasError (r : PriceResult) : bool :=
  match outcome r with
  | inl message => negb (String.eqb message "")
  | inr _ => false
  end.

(** [r.avgPriceCentsPerKWh] as the comparator reads it: the subtraction
    turns the [undefined] of a result without the field into [NaN]. *)
Definition avgPriceOf (r : PriceResult) : number :=
  match outcome r with
  | inl _ => NaN
  | inr comparison => Tools.avgPriceCentsPerKWh comparison
  end.

(** [(a, b) => b.avgPriceCentsPerKWh - a.avgPriceCentsPerKWh] *)
Definition byAvgPriceDesc (a b : PriceResult) : number :=
  sub (avgPriceOf b) (avgPriceOf a).

Record PriceRanking : Type := {
  rankingDate : string;
  monthsAnalyzed : nat;
  rankings : list PriceResult;
  top5 : list PriceResult;
  failedRegions : list PriceResult
}.

(** The body of the [try] of the tool once the repository is there. *)
Definition compareRetailElectricityPrices
  (getRetailPrices : string -> Promise (list RetailPriceData))
  (now : string) (regions : list string) (months : nat) : PriceRanking :=
  let results := map (compareRegion getRetailPrices months) regions in
  let ok := filter (fun r => negb (hasError r)) results in
  let failed := filter hasError results in
  let ranked := sortBy byAvgPriceDesc ok in
  {| rankingDate := now;
     monthsAnalyzed := months;
     rankings := ranked;
     top5 := Tools.slice0 5 ranked;
     failedRegions := failed |}.

End Compare.

(* ================================================================== *)
(** * Further vocabulary *)
(* ================================================================== *)

(** The rational a finite number stands for ([0] for the others). *)
Definition valueOf (x : number) : Q :=
  match x with
  | Fin q => q
  | _ => 0
  end.

(** A field that is [null] or a finite number. *)
Definition nullOrFinite (x : option number) : Prop :=
  match x with
  | Some (Fin _) | None => True
  | Some _ => False
  end.

(** A finite number within [lo, hi]. *)
Definition within (lo hi : Q) (x : number) : Prop :=
  match x with
  | Fin q => lo <= q <= hi
  | _ => False
  end.

(** [x <= y] on finite numbers. *)
Definition notAbove (x y : number) : Prop :=
  match x, y with
  | Fin a, Fin b => a <= b
  | _, _ => False
  end.

Definition mixedFleet : list CapacityByFuelData :=
  [plant "SUN" 8000; plant "WND" 4000.5; plant "NG" 12000; plant "NUC" 2500;
   {| cf_period := "2024"; cf_stateid := "TX"; energy_source_code := "HYD";
      net_summer_capacity_mw := None; net_winter_capacity_mw := None |}].

(** Five hourly values, one of them missing. *)
Definition fiveHours : list RTODemandData :=
  [hourly (Some (Fin 40000)); hourly (Some (Fin 43000)); hourly None;
   hourly (Some (Fin 42000)); hourly (Some (Fin 47000))].

(** The value of an hourly record, when it is a finite number, is not
    negative. *)
Definition noNegativeValue (d : RTODemandData) : Prop :=
  forall q, value d = Some (Fin q) -> 0 <= q.

(** *** Drivers and rankings *)

Definition driverNames : list string :=
  ["Peak Shaving"; "Renewable Integration"; "Grid Services";
   "Economic Arbitrage"].

(** The sub-score a driver name stands for. *)
Definition driverScore (s : StorageOpportunityScore) (n : string) : number :=
  if String.eqb n "Peak Shaving" then peakShavingScore s
  else if String.eqb n "Renewable Integration" then renewableIntegrationScore s
  else if String.eqb n "Grid Services" then gridServicesScore s
  else economicScore s.

(** The position of a driver name in the array of [identifyPrimaryDriver]. *)
Definition driverRank (n : string) : nat :=
  if String.eqb n "Peak Shaving" then 0
  else if String.eqb n "Renewable Integration" then 1
  else if String.eqb n "Grid Services" then 2
  else 3.

(** [x < y] on finite numbers. *)
Definition below (x y : number) : Prop :=
  match x, y with
  | Fin a, Fin b => a < b
  | _, _ => False
  end.

(** The four sub-scores are finite. *)
Definition finiteSubScores (s : StorageOpportunityScore) : Prop :=
  isFinite (peakShavingScore s) = true
  /\ isFinite (renewableIntegrationScore s) = true
  /\ isFinite (gridServicesScore s) = true
  /\ isFinite (economicScore s) = true.

(** A repository with three regions: CC with the mixed fleet, BB failing
    and any other region with one solar and two gas megawatts. *)
Definition threeRegions : ElectricityRepository :=
  {| getCapacityByFuelType := fun reg =>
       if String.eqb reg "BB" then Rejected capacityTimeout
       else if String.eqb reg "CC" then Resolved mixedFleet
       else Resolved oneToTwo;
     getGenerationByFuelType := fun _ => Resolved someGeneration;
     getRetailPrices := fun _ => Resolved pricesWithGap;
     getRTODemandData := fun _ => Resolved fiveHours |}.

Definition tiedScores : StorageOpportunityScore :=
  {| overall := Fin 60; peakShavingScore := Fin 40;
     renewableIntegrationScore := Fin 75; gridServicesScore := Fin 75;
     economicScore := Fin 50 |}.

(** A key that is present and not empty. *)
Definition usableKey (k : option string) : Prop :=
  exists s, k = Some s /\ s <> "".

(** *** The other tools *)

(** The field of the two latest records is [null] or finite. *)
Definition finiteProfile (field : Tools.StateProfileData -> option number)
  (data : list Tools.StateProfileData) : Prop :=
  forall d, In d (firstn 2 data) -> nullOrFinite (field d).

Definition profileYear (year : string) (generationGWh : option number)
  : Tools.StateProfileData :=
  {| Tools.sp_period := year;
     Tools.net_generation := generationGWh;
     Tools.total_retail_sales := None;
     Tools.average_retail_price := Some (Fin 9.5) |}.

Definition fiveYears : list Tools.StateProfileData :=
  [profileYear "2023" (Some (Fin 540000)); profileYear "2022" (Some (Fin 525000));
   profileYear "2021" None; profileYear "2020" (Some (Fin 480000));
   profileYear "2019" (Some (Fin 483000))].

Definition generator (period code : string) (summer winter : option number)
  : OperatingCapacity :=
  {| oc_period := period; oc_stateid := "TX"; oc_energy_source_code := code;
     oc_net_summer_capacity_mw := summer;
     oc_net_winter_capacity_mw := winter |}.

(** Two generators of June 2024. *)
Definition juneFleet : list OperatingCapacity :=
  [generator "2024-06" "NG" (Some (Fin 60)) (Some (Fin 65));
   generator "2024-06" "SUN" (Some (Fin 40)) None].

(** Generators of May 2024. *)
Definition mayFleet : list OperatingCapacity :=
  [generator "2024-05" "NG" (Some (Fin 60)) (Some (Fin 65));
   generator "2024-05" "COL" (Some (Fin 500)) (Some (Fin 510))].

Definition juneGeneration : list GenerationData :=
  [{| period := "2024-06"; generation := Some (Fin 36525);
      total_consumption := Some (Fin 1200) |}].

Definition mayGeneration : list GenerationData :=
  [{| period := "2024-05"; generation := Some (Fin 70000);
      total_consumption := None |}].

(** The rational mean of a price series, [null] read as [0]. *)
Definition meanPrice (priceData : list RetailPriceData) : Q :=
  Qmean (map priceOrZero priceData).

(** *** The resource manager *)

(** The keys of the map, in the order of its iteration. *)
Definition keysOf {T : Type} (resources : ResourceManager.Resources T)
  : list string := map fst resources.

(** What a [Map] guarantees: a key has one entry. *)
Definition distinctKeys {T : Type} (resources : ResourceManager.Resources T)
  : Prop := NoDup (keysOf resources).

(** Every entry records the key it is stored under. *)
Definition keyedByCacheKey {T : Type}
  (resources : ResourceManager.Resources T) : Prop :=
  Forall (fun entry => ResourceManager.cacheKey (snd entry) = fst entry)
    resources.

(** An entry that a cleanup at [now] keeps: it was used within the
    interval, or its [cleanupFn] fails. *)
Definition keptBy {T : Type} (now cleanupIntervalMs : Z)
  (entry : string * ResourceManager.ResourceInfo T) : bool :=
  negb (ResourceManager.inactive now cleanupIntervalMs (snd entry)
        && ResourceManager.cleaned (snd entry)).

(** Every cached client sends the key it is cached under. *)
Definition holdsOwnKey
  (resources : ResourceManager.Resources EiaApiClient.EiaApiClient) : Prop :=
  Forall (fun entry =>
            EiaApiClient.apiKey (ResourceManager.resource (snd entry))
            = fst entry)
    resources.

(** A manager of numbered connections: [alpha] used at time 1000, [beta],
    whose cleanup fails, at time 0, and [gamma] at time 0. *)
Definition connection (n : nat) (used : Z) (key : string)
  (closes : bool) : string * ResourceManager.ResourceInfo nat :=
  (key,
   {| ResourceManager.resource := n;
      ResourceManager.lastUsed := used;
      ResourceManager.instanceId := "id-" ++ key;
      ResourceManager.resourceType := "connection";
      ResourceManager.cacheKey := key;
      ResourceManager.cleanupFn :=
        fun _ => if closes then Resolved tt else Rejected "busy" |}).

Definition threeConnections : ResourceManager.Resources nat :=
  [connection 1 1000 "alpha" true;
   connection 2 0 "beta" false;
   connection 3 0 "gamma" true].

(** A factory that always fails, and one that opens connection [7]. *)
Definition brokenFactory (key : string) : Promise nat := Rejected "refused".
Definition openSeven (key : string) : Promise nat := Resolved 7%nat.
Definition closing (n : nat) : Promise unit := Resolved tt.

(** A manager that holds the client of the key [k-1]. *)
Definition oneClient
  : ResourceManager.Resources EiaApiClient.EiaApiClient :=
  [("k-1",
    {| ResourceManager.resource :=
         {| EiaApiClient.apiKey := "k-1";
            EiaApiClient.baseURL := "https://api.eia.gov";
            EiaApiClient.timeout := 30000 |};
       ResourceManager.lastUsed := 0;
       ResourceManager.instanceId := "id-1";
       ResourceManager.resourceType := "EiaApiClient";
       ResourceManager.cacheKey := "k-1";
       ResourceManager.cleanupFn := fun _ => Resolved tt |})].

(** *** The repository *)

(** The fuel code of the plant, when it has one, begins with a capital
    letter, as the codes of the EIA do (NG, SUN, WND, ...): it is then
    neither the name of a property that an object inherits ([constructor],
    [toString], [__proto__], ...) nor an array index. *)
Definition capitalCode (p : OperatingCapacity) : Prop :=
  match oc_energy_source_code p with
  | EmptyString => True
  | String c _ =>
      (65 <= Ascii.nat_of_ascii c)%nat /\ (Ascii.nat_of_ascii c <= 90)%nat
  end.

(** The record of an entry carries the code the entry is filed under. *)
Definition filedUnderCode (entry : string * CapacityByFuelData) : Prop :=
  energy_source_code (snd entry) = fst entry.

(** Plants of two months: two gas units, a solar unit without a capacity,
    a unit without a code and a wind unit. *)
Definition sixPlants : list OperatingCapacity :=
  [generator "2024-06" "NG" (Some (Fin 60)) (Some (Fin 65));
   generator "2024-06" "SUN" None None;
   generator "2024-06" "" (Some (Fin 999)) None;
   generator "2024-05" "NG" (Some (Fin 60.5)) (Some (Fin 65));
   generator "2024-05" "WND" (Some (Fin 30)) (Some (Fin 30));
   generator "2024-05" "SUN" (Some (Fin 20)) None].

(** The requests of a client that answers for every state. *)
Definition plantsOf (stateId : string) : Promise (list OperatingCapacity) :=
  Resolved sixPlants.
Definition generationOf (stateId : string) : Promise (list GenerationData) :=
  Resolved someGeneration.
Definition pricesOf (stateId : string) : Promise (list RetailPriceData) :=
  Resolved pricesWithGap.
Definition demandOf (respondent type : string)
  : Promise (list RTODemandData) := Resolved fiveHours.

(** *** The price ranking *)

(** The results are in decreasing order of the average price. *)
Definition cheaperNext (a b : Compare.PriceResult) : Prop :=
  notAbove (Compare.avgPriceOf b) (Compare.avgPriceOf a).

(** The requests answer with prices that are [null] or finite, and fail
    with a message that is not empty. *)
Definition answersWithPrices
  (getRetailPrices : string -> Promise (list RetailPriceData)) : Prop :=
  forall reg,
    match getRetailPrices reg with
    | Rejected message => message <> ""
    | Resolved priceData => Forall finitePrice priceData
    end.

(** Prices of four states: one without data, one whose request fails. *)
Definition fourStates (reg : string) : Promise (list RetailPriceData) :=
  if String.eqb reg "AA" then Resolved threePrices
  else if String.eqb reg "BB" then Rejected capacityTimeout
  else if String.eqb reg "CC" then Resolved []
  else Resolved pricesWithGap.

(* ================================================================== *)
(** * The same code over binary64 *)
(* ================================================================== *)

(** Where rounding or overflow decides what the code returns, the numbers
    are the binary64 values themselves.  [float] is the type of Rocq's
    specification of IEEE 754 ([SpecFloat], the specification its
    primitive floats are checked against) at precision 53 and maximal
    exponent 1024: the two zeros, the two infinities, one [NaN] and the
    finite values [(-1)^s * m * 2^e].  Sums, differences, products and
    quotients are the correctly rounded ones (to nearest, ties to even),
    as ECMAScript requires of [+], [-], [*] and [/]. *)

Module Binary64.

Local Open Scope Z_scope.

Definition float : Type := SpecFloat.spec_float.

Definition prec : Z := 53.
Definition emax : Z := 1024.

Definition nan : float := SpecFloat.S754_nan.
Definition infinity : float := SpecFloat.S754_infinity false.
Definition negInfinity : float := SpecFloat.S754_infinity true.
Definition zero : float := SpecFloat.S754_zero false.

(** The binary64 value of an integer literal (the nearest one, for an
    integer beyond [2^53]). *)
Definition ofZ (n : Z) : float :=
  SpecFloat.binary_normalize prec emax n 0 false.

Definition one : float := ofZ 1.

(** [x + y], [x - y], [x * y], [x / y], [-x] *)
Definition add : float -> float -> float := SpecFloat.SFadd prec emax.
Definition sub : float -> float -> float := SpecFloat.SFsub prec emax.
Definition mul : float -> float -> float := SpecFloat.SFmul prec emax.
Definition div : float -> float -> float := SpecFloat.SFdiv prec emax.
Definition neg : float -> float := SpecFloat.SFopp.

(** The binary64 value of the decimal literal [n / 10^d]: the quotient of
    two integers that binary64 holds exactly is the value nearest to the
    decimal. *)
Definition decimal (n : Z) (d : nat) : float :=
  div (ofZ n) (ofZ (10 ^ Z.of_nat d)).

(** [x < y], [x > y], [x <= y], [x >= y], [x === y], [x !== y] *)
Definition lt : float -> float -> bool := SpecFloat.SFltb.
Definition gt (x y : float) : bool := lt y x.
Definition le : float -> float -> bool := SpecFloat.SFleb.
Definition ge (x y : float) : bool := le y x.
Definition eqb : float -> float -> bool := SpecFloat.SFeqb.
Definition neqb (x y : float) : bool := negb (eqb x y).

Definition isNaN (x : float) : bool :=
  match x with SpecFloat.S754_nan => true | _ => false end.

(** [Number.isFinite(x)] *)
Definition isFinite (x : float) : bool :=
  match x with
  | SpecFloat.S754_zero _ | SpecFloat.S754_finite _ _ _ => true
  | _ => false
  end.

(** The truth value of a number in a condition: the zeros and [NaN] are
    falsy. *)
Definition truthy (x : float) : bool :=
  match x with
  | SpecFloat.S754_zero _ | SpecFloat.S754_nan => false
  | _ => true
  end.

(** [x || d] where [x] is a number or [null]. *)
Definition orElse (x : option float) (d : float) : float :=
  match x with
  | Some v => if truthy v then v else d
  | None => d
  end.

(** [x ?? d] *)
Definition nullish (x : option float) (d : float) : float :=
  match x with
  | Some v => v
  | None => d
  end.

(** [Math.abs] *)
Definition abs : float -> float := SpecFloat.SFabs.

(** The correctly rounded square root, the [Math.sqrt] of the concrete
    runs. *)
Definition sqrt : float -> float := SpecFloat.SFsqrt prec emax.

(** [Math.max(x, y)]: [NaN] if either is, and [+0] is above [-0]. *)
Definition max (x y : float) : float :=
  match x, y with
  | SpecFloat.S754_nan, _ | _, SpecFloat.S754_nan => nan
  | _, _ =>
      if lt x y then y
      else if lt y x then x
      else match x with SpecFloat.S754_zero true => y | _ => x end
  end.

(** [Math.min(x, y)] *)
Definition min (x y : float) : float :=
  match x, y with
  | SpecFloat.S754_nan, _ | _, SpecFloat.S754_nan => nan
  | _, _ =>
      if lt y x then y
      else if lt x y then x
      else match x with SpecFloat.S754_zero false => y | _ => x end
  end.

(** [Math.max(...xs)] and [Math.min(...xs)] *)
Definition maxList (xs : list float) : float := fold_left max xs negInfinity.
Definition minList (xs : list float) : float := fold_left min xs infinity.

(** [Math.round]: the integer nearest to [x], the one towards [+Infinity]
    of two; an [x] in [[-0.5, -0]] gives [-0].  The result is computed on
    the exact value [(-1)^s * m * 2^e]. *)
Definition round (x : float) : float :=
  match x with
  | SpecFloat.S754_finite s m (Zneg k) =>
      let scaled := SpecFloat.cond_Zopp s (Zpos m) in
      SpecFloat.binary_normalize prec emax
        ((2 * scaled + 2 ^ Zpos k) / 2 ^ (Zpos k + 1)) 0 s
  | _ => x
  end.

(** [|x| >= 1e21] for a finite [x = m * 2^e] *)
Definition atLeast1e21 (m : positive) (e : Z) : bool :=
  match e with
  | Zneg k => 10 ^ 21 * 2 ^ Zpos k <=? Zpos m
  | _ => 10 ^ 21 <=? Zpos m * 2 ^ e
  end.

(** [parseFloat(x.toFixed(d))].  [toFixed] takes the integer [n] for which
    [n / 10^d] is nearest to the exact [|x|], the larger of two, and prints
    [n / 10^d] with the sign of [x]; [parseFloat] reads the decimal back as
    the nearest binary64 value.  A magnitude of [1e21] and more, and the
    special values, print as [String(x)] does, which [parseFloat] reads
    back unchanged. *)
Definition toFixed (d : nat) (x : float) : float :=
  match x with
  | SpecFloat.S754_finite s m e =>
      if atLeast1e21 m e then x
      else
        let scale := 10 ^ Z.of_nat d in
        let n :=
          match e with
          | Zneg k => (2 * Zpos m * scale + 2 ^ Zpos k) / 2 ^ (Zpos k + 1)
          | _ => Zpos m * 2 ^ e * scale
          end in
        match n with
        | Zpos p => div (SpecFloat.S754_finite s p 0) (ofZ scale)
        | _ => SpecFloat.S754_zero s
        end
  | SpecFloat.S754_zero _ => zero
  | _ => x
  end.

(** The number of elements of an array. *)
Definition ofNat (n : nat) : float := ofZ (Z.of_nat n).

(** [xs.reduce((a, b) => a + b, 0)] *)
Definition sum (xs : list float) : float := fold_left add xs zero.

End Binary64.

(* ================================================================== *)
(** ** The analyzer and the region ranker over binary64 *)
(* ================================================================== *)

(** [src/analysis/energyStorageAnalyzer.ts] and the tool
    [findHighPotentialEnergyStorageAreas] of [src/index.ts] once more,
    operation by operation and in the order of the source, on binary64
    numbers. *)

Module InBinary64.

Import Binary64.

Local Open Scope Z_scope.

(** *** Records of the data layer; [None] is [null] *)

Record GenerationData : Type := {
  period : string;
  generation : option float;
  total_consumption : option float
}.

Record RTODemandData : Type := {
  rto_period : string;
  respondent : string;
  value : option float
}.

Record CapacityByFuelData : Type := {
  cf_period : string;
  cf_stateid : string;
  energy_source_code : string;
  net_summer_capacity_mw : option float;
  net_winter_capacity_mw : option float
}.

Record RetailPriceData : Type := {
  rp_period : string;
  rp_stateid : string;
  sectorid : string;
  price : option float;
  sales : option float
}.

(** *** Metric records *)

Record GridCapacityMetrics : Type := {
  totalCapacityMW : float;
  renewableCapacityMW : float;
  fossilCapacityMW : float;
  renewablePenetration : float
}.

Record DemandSupplyMetrics : Type := {
  averageDemandMW : float;
  peakDemandMW : float;
  minimumDemandMW : float;
  loadFactor : float;
  demandVariabilityIndex : float
}.

Record RenewableIntegrationMetrics : Type := {
  solarCapacityMW : float;
  windCapacityMW : float;
  estimatedCurtailmentMWh : float;
  renewableVariabilityIndex : float;
  duckCurveSeverity : float
}.

Record GridStabilityMetrics : Type := {
  maxHourlyRampMW : float;
  rampingFrequency : float;
  frequencyRegulationNeed : float;
  spinningReserveRequirement : float
}.

Record EconomicMetrics : Type := {
  averageRetailPriceCentsPerKWh : float;
  priceVolatilityIndex : float;
  peakOffPeakSpread : float;
  estimatedArbitrageRevenue : float
}.

Record StorageOpportunityScore : Type := {
  overall : float;
  peakShavingScore : float;
  renewableIntegrationScore : float;
  gridServicesScore : float;
  economicScore : float
}.

Record EnergyStorageOpportunityMetrics : Type := {
  region : string;
  analysisDate : string;
  gridCapacity : GridCapacityMetrics;
  demandSupplyMetrics : DemandSupplyMetrics;
  renewableIntegration : RenewableIntegrationMetrics;
  gridStability : GridStabilityMetrics;
  economicOpportunity : EconomicMetrics;
  storageOpportunityScore : StorageOpportunityScore
}.

(** *** [calculateGridCapacityMetrics] *)

Definition renewableSources : list string :=
  ["SUN"; "WND"; "HYD"; "GEO"; "BIO"; "WAS"].

Definition fossilSources : list string := ["NG"; "COL"; "PET"; "OTH"].

(** The accumulators [totalCapacity], [renewableCapacity] and
    [fossilCapacity] of the loop. *)
Record CapacityAcc : Type := {
  accTotal : float;
  accRenewable : float;
  accFossil : float
}.

Definition capacityStep (acc : CapacityAcc) (record : CapacityByFuelData)
  : CapacityAcc :=
  let capacity := orElse (net_summer_capacity_mw record) zero in
  let total := add (accTotal acc) capacity in
  if includes renewableSources (energy_source_code record) then
    {| accTotal := total;
       accRenewable := add (accRenewable acc) capacity;
       accFossil := accFossil acc |}
  else if includes fossilSources (energy_source_code record) then
    {| accTotal := total;
       accRenewable := accRenewable acc;
       accFossil := add (accFossil acc) capacity |}
  else
    {| accTotal := total;
       accRenewable := accRenewable acc;
       accFossil := accFossil acc |}.

Definition capacityLoop (capacityData : list CapacityByFuelData) : CapacityAcc :=
  fold_left capacityStep capacityData
    {| accTotal := zero; accRenewable := zero; accFossil := zero |}.

Definition calculateGridCapacityMetrics (capacityData : list CapacityByFuelData)
  : GridCapacityMetrics :=
  let acc := capacityLoop capacityData in
  {| totalCapacityMW := round (accTotal acc);
     renewableCapacityMW := round (accRenewable acc);
     fossilCapacityMW := round (accFossil acc);
     renewablePenetration :=
       if gt (accTotal acc) zero
       then round (mul (div (accRenewable acc) (accTotal acc)) (ofZ 100))
       else zero |}.

(** *** [calculateDemandSupplyMetrics] *)

(** [typeof d.value === "number" && Number.isFinite(d.value) ? d.value : null] *)
Definition finiteOrNull (v : option float) : option float :=
  match v with
  | Some x => if isFinite x then Some x else None
  | None => None
  end.

(** [.filter((v) => v !== null)] *)
Fixpoint dropNulls (vs : list (option float)) : list float :=
  match vs with
  | [] => []
  | Some v :: rest => v :: dropNulls rest
  | None :: rest => dropNulls rest
  end.

Definition numericSeries (demandData : list RTODemandData) : list float :=
  dropNulls (map (fun d => finiteOrNull (value d)) demandData).

(** [xs.length || 1] *)
Definition lengthOrOne {A : Type} (xs : list A) : float :=
  match List.length xs with
  | O => one
  | n => ofNat n
  end.

(** The estimate from generation data that both fallback branches
    return. *)
Definition generationFallback (generationData : list GenerationData)
  : DemandSupplyMetrics :=
  let totalGen :=
    fold_left (fun sum g => add sum (orElse (generation g) zero))
      generationData zero in
  let denom := lengthOrOne generationData in
  let avgGen := div totalGen denom in
  {| averageDemandMW := round avgGen;
     peakDemandMW := round (mul avgGen (decimal 12 1));
     minimumDemandMW := round (mul avgGen (decimal 6 1));
     loadFactor := decimal 7 1;
     demandVariabilityIndex := decimal 15 2 |}.

Section MathLibrary.

(** ECMAScript leaves the precision of [Math.pow] and [Math.sqrt] to the
    implementation: what they return is a parameter of the functions that
    call them. *)
Variable pow : float -> float -> float.
Variable sqrt : float -> float.

(** [xs.reduce((sum, d) => sum + Math.pow(d - avg, 2), 0) / xs.length] *)
Definition varianceOf (xs : list float) (avg : float) : float :=
  div (fold_left (fun sum d => add sum (pow (sub d avg) (ofZ 2))) xs zero)
      (ofNat (List.length xs)).

Definition calculateDemandSupplyMetrics
  (demandData : list RTODemandData) (generationData : list GenerationData)
  : DemandSupplyMetrics :=
  match demandData with
  | [] => generationFallback generationData
  | _ :: _ =>
      let series := numericSeries demandData in
      match series with
      | [] => generationFallback generationData
      | _ :: _ =>
          let avgDemand := div (sum series) (ofNat (List.length series)) in
          let peakDemand := maxList series in
          let minDemand := minList series in
          let variance := varianceOf series avgDemand in
          let stdDev := sqrt variance in
          let coefficientOfVariation :=
            if neqb avgDemand zero then div stdDev avgDemand else zero in
          {| averageDemandMW := round avgDemand;
             peakDemandMW := round peakDemand;
             minimumDemandMW := round minDemand;
             loadFactor :=
               toFixed 3 (div avgDemand (orElse (Some peakDemand) one));
             demandVariabilityIndex := toFixed 3 coefficientOfVariation |}
      end
  end.

(** *** [calculateRenewableMetrics] *)

(** [capacityData.filter(d => d.energy_source_code === code)
       .reduce((sum, d) => sum + (d['net-summer-capacity-mw'] || 0), 0)] *)
Definition capacityOfFuel (code : string) (capacityData : list CapacityByFuelData)
  : float :=
  fold_left (fun sum d => add sum (orElse (net_summer_capacity_mw d) zero))
    (filter (fun d => String.eqb (energy_source_code d) code) capacityData)
    zero.

Definition calculateRenewableMetrics
  (capacityData : list CapacityByFuelData) (generationData : list GenerationData)
  : RenewableIntegrationMetrics :=
  let solarCapacity := capacityOfFuel "SUN" capacityData in
  let windCapacity := capacityOfFuel "WND" capacityData in
  let totalRenewableCapacity := add solarCapacity windCapacity in
  let estimatedCurtailmentRate := decimal 3 2 in
  let hoursPerYear := ofZ 8760 in
  let capacityFactor := decimal 35 2 in
  let estimatedCurtailment :=
    mul (mul (mul totalRenewableCapacity hoursPerYear) capacityFactor)
        estimatedCurtailmentRate in
  let solarPenetration :=
    div solarCapacity (add (add solarCapacity windCapacity) one) in
  let duckCurve := min (mul solarPenetration (ofZ 2)) one in
  {| solarCapacityMW := round solarCapacity;
     windCapacityMW := round windCapacity;
     estimatedCurtailmentMWh := round estimatedCurtailment;
     renewableVariabilityIndex :=
       toFixed 3 (add (decimal 4 1) (mul solarPenetration (decimal 3 1)));
     duckCurveSeverity := toFixed 3 duckCurve |}.

(** *** [calculateGridStabilityMetrics] *)

(** The loop [for (let i = 1; i < series.length; i++)
      ramps.push(Math.abs(series[i] - series[i - 1]))]. *)
Fixpoint rampsOf (series : list float) : list float :=
  match series with
  | prev :: (cur :: _) as rest => abs (sub cur prev) :: rampsOf rest
  | _ => []
  end.

Definition calculateGridStabilityMetrics (demandData : list RTODemandData)
  : GridStabilityMetrics :=
  let series := numericSeries demandData in
  if (List.length series <? 2)%nat then
    {| maxHourlyRampMW := ofZ 500;
       rampingFrequency := ofZ 4;
       frequencyRegulationNeed := ofZ 100;
       spinningReserveRequirement := ofZ 300 |}
  else
    let ramps := rampsOf series in
    let maxRamp := match ramps with [] => zero | _ => maxList ramps end in
    let avgDemand := div (sum series) (ofNat (List.length series)) in
    let significantRampThreshold := mul avgDemand (decimal 5 2) in
    let significantRamps :=
      List.length (filter (fun r => gt r significantRampThreshold) ramps) in
    let rampFrequency :=
      mul (div (ofNat significantRamps) (ofNat (List.length series)))
          (ofZ 24) in
    let frequencyRegulation := mul avgDemand (decimal 1 2) in
    let spinningReserve := mul maxRamp (decimal 5 1) in
    {| maxHourlyRampMW := round maxRamp;
       rampingFrequency := toFixed 1 rampFrequency;
       frequencyRegulationNeed := round frequencyRegulation;
       spinningReserveRequirement := round spinningReserve |}.

(** *** [calculateEconomicMetrics] *)

Definition calculateEconomicMetrics
  (priceData : list RetailPriceData) (demandSupply : DemandSupplyMetrics)
  : EconomicMetrics :=
  match priceData with
  | [] =>
      {| averageRetailPriceCentsPerKWh := ofZ 10;
         priceVolatilityIndex := decimal 15 2;
         peakOffPeakSpread := ofZ 50;
         estimatedArbitrageRevenue := ofZ 50000 |}
  | _ :: _ =>
      let prices := map (fun p => orElse (price p) zero) priceData in
      let avgPrice := div (sum prices) (ofNat (List.length prices)) in
      let priceVariance := varianceOf prices avgPrice in
      let priceStdDev := sqrt priceVariance in
      let priceVolatility := div priceStdDev avgPrice in
      let spread := mul (mul avgPrice (decimal 5 1)) (ofZ 10) in
      let storageHours := ofZ 4 in
      let cyclesPerYear := ofZ 300 in
      let efficiency := decimal 85 2 in
      let arbitrageRevenue :=
        mul (mul (mul spread storageHours) cyclesPerYear) efficiency in
      {| averageRetailPriceCentsPerKWh := toFixed 2 avgPrice;
         priceVolatilityIndex := toFixed 3 priceVolatility;
         peakOffPeakSpread := round spread;
         estimatedArbitrageRevenue := round arbitrageRevenue |}
  end.

End MathLibrary.

(** *** [calculateOpportunityScores] *)

(** [Math.min(Math.max(x, 0), 100)], the clamp of the return statement. *)
Definition clamp (x : float) : float := min (max x zero) (ofZ 100).

(** The weights of the overall score: the literals [0.25], [0.35], [0.20]
    and [0.20]. *)
Definition peakShavingWeight : float := decimal 25 2.
Definition renewableWeight : float := decimal 35 2.
Definition gridServicesWeight : float := decimal 20 2.
Definition economicWeight : float := decimal 20 2.

(** The local constant [peakShavingScore]: the rounded formula, before the
    clamp. *)
Definition peakShavingRaw (demandSupply : DemandSupplyMetrics) : float :=
  round (add (mul (sub one (loadFactor demandSupply)) (ofZ 50))
             (mul (demandVariabilityIndex demandSupply) (ofZ 200))).

(** The local constant [renewableScore]. *)
Definition renewableRaw (gridCap : GridCapacityMetrics)
  (renewable : RenewableIntegrationMetrics) : float :=
  round (add (add (mul (renewablePenetration gridCap) (decimal 5 1))
                  (mul (duckCurveSeverity renewable) (ofZ 30)))
             (mul (min (div (estimatedCurtailmentMWh renewable) (ofZ 10000))
                       one)
                  (ofZ 20))).

(** The local constant [gridServicesScore]. *)
Definition gridServicesRaw (stability : GridStabilityMetrics) : float :=
  round (add (add (mul (min (div (maxHourlyRampMW stability) (ofZ 1000)) one)
                       (ofZ 40))
                  (mul (min (div (rampingFrequency stability) (ofZ 10)) one)
                       (ofZ 30)))
             (mul (min (div (frequencyRegulationNeed stability) (ofZ 500)) one)
                  (ofZ 30))).

(** The local constant [economicScore]. *)
Definition economicRaw (economic : EconomicMetrics) : float :=
  round (add (add (mul (min (div (averageRetailPriceCentsPerKWh economic)
                                 (ofZ 20)) one)
                       (ofZ 30))
                  (mul (priceVolatilityIndex economic) (ofZ 100)))
             (mul (min (div (estimatedArbitrageRevenue economic) (ofZ 100000))
                       one)
                  (ofZ 40))).

(** The weighted sum inside the [Math.round] of [overallScore], added from
    left to right. *)
Definition weightedSum (ps rs gs es : float) : float :=
  add (add (add (mul ps peakShavingWeight)
                (mul rs renewableWeight))
           (mul gs gridServicesWeight))
      (mul es economicWeight).

(** The local constant [overallScore]. *)
Definition overallRaw (ps rs gs es : float) : float :=
  round (weightedSum ps rs gs es).

Definition calculateOpportunityScores
  (gridCap : GridCapacityMetrics)
  (demandSupply : DemandSupplyMetrics)
  (renewable : RenewableIntegrationMetrics)
  (stability : GridStabilityMetrics)
  (economic : EconomicMetrics) : StorageOpportunityScore :=
  let ps := peakShavingRaw demandSupply in
  let rs := renewableRaw gridCap renewable in
  let gs := gridServicesRaw stability in
  let es := economicRaw economic in
  let overallScore := overallRaw ps rs gs es in
  {| overall := clamp overallScore;
     peakShavingScore := clamp ps;
     renewableIntegrationScore := clamp rs;
     gridServicesScore := clamp gs;
     economicScore := clamp es |}.

(** [analyzeStorageOpportunity]; [now] is [new Date().toISOString()]. *)
Definition analyzeStorageOpportunity (pow : float -> float -> float)
  (sqrt : float -> float) (now : string) (reg : string)
  (capacityData : list CapacityByFuelData)
  (demandData : list RTODemandData)
  (generationData : list GenerationData)
  (priceData : list RetailPriceData) : EnergyStorageOpportunityMetrics :=
  let gridCap := calculateGridCapacityMetrics capacityData in
  let demandSupply :=
    calculateDemandSupplyMetrics pow sqrt demandData generationData in
  let renewable := calculateRenewableMetrics capacityData generationData in
  let stability := calculateGridStabilityMetrics demandData in
  let economic := calculateEconomicMetrics pow sqrt priceData demandSupply in
  let score :=
    calculateOpportunityScores gridCap demandSupply renewable stability
      economic in
  {| region := reg;
     analysisDate := now;
     gridCapacity := gridCap;
     demandSupplyMetrics := demandSupply;
     renewableIntegration := renewable;
     gridStability := stability;
     economicOpportunity := economic;
     storageOpportunityScore := score |}.

(** *** The tool [findHighPotentialEnergyStorageAreas] *)

(** A promise of the repository once settled: rejected with the [message]
    of the [Error] thrown, or resolved.  [settledAt] places the rejection
    in time among the promises of the same [Promise.all]. *)
Inductive Promise (A : Type) : Type :=
| Rejected (settledAt : nat) (message : string)
| Resolved (a : A).

Arguments Rejected {A} settledAt message.
Arguments Resolved {A} a.

Record ElectricityRepository : Type := {
  getCapacityByFuelType : string -> Promise (list CapacityByFuelData);
  getGenerationByFuelType : string -> Promise (list GenerationData);
  getRetailPrices : string -> Promise (list RetailPriceData);
  getRTODemandData : string -> Promise (list RTODemandData)
}.

Record RegionData : Type := {
  capacityData : list CapacityByFuelData;
  generationData : list GenerationData;
  priceData : list RetailPriceData;
  demandData : list RTODemandData
}.

(** When and with what message a promise rejects, if it does. *)
Definition rejection {A : Type} (p : Promise A) : option (nat * string) :=
  match p with
  | Rejected t m => Some (t, m)
  | Resolved _ => None
  end.

(** [Promise.all] rejects with the reason of the promise that rejects
    first in time: of a rejection at [t] and the promises after it in the
    array, the earliest. *)
Definition firstToReject {A : Type} (t : nat) (m : string)
  (later : list (option (nat * string))) : Promise A :=
  let first :=
    fold_left
      (fun best r =>
         match r with
         | Some (t', m') => if (t' <? fst best)%nat then (t', m') else best
         | None => best
         end)
      later (t, m) in
  Rejected (fst first) (snd first).

(** The inner [Promise.all] over the four fetches of a region. *)
Definition fetchRegion (repo : ElectricityRepository)
  (includeHourlyAnalysis : bool) (reg : string) : Promise RegionData :=
  let cap := getCapacityByFuelType repo reg in
  let gen := getGenerationByFuelType repo reg in
  let prices := getRetailPrices repo reg in
  let demand :=
    if includeHourlyAnalysis then getRTODemandData repo reg
    else Resolved [] in
  match cap with
  | Rejected t m =>
      firstToReject t m [rejection gen; rejection prices; rejection demand]
  | Resolved c =>
      match gen with
      | Rejected t m => firstToReject t m [rejection prices; rejection demand]
      | Resolved g =>
          match prices with
          | Rejected t m => firstToReject t m [rejection demand]
          | Resolved p =>
              match demand with
              | Rejected t m => Rejected t m
              | Resolved d =>
                  Resolved {| capacityData := c;
                              generationData := g;
                              priceData := p;
                              demandData := d |}
              end
          end
      end
  end.

(** [RegionalAnalysisResult]; an absent key is [None]. *)
Record RegionalAnalysisResult : Type := {
  resultRegion : string;
  metrics : option EnergyStorageOpportunityMetrics;
  error : option string
}.

Section Tool.

Variable pow : float -> float -> float.
Variable sqrt : float -> float.

(** The body of [args.regions.map(async (region) => ...)]: its [try] and its
    [catch]. *)
Definition analyzeRegion (now : string) (repo : ElectricityRepository)
  (includeHourlyAnalysis : bool) (reg : string) : RegionalAnalysisResult :=
  match fetchRegion repo includeHourlyAnalysis reg with
  | Rejected _ m =>
      {| resultRegion := reg; metrics := None; error := Some m |}
  | Resolved data =>
      match capacityData data with
      | [] =>
          {| resultRegion := reg; metrics := None;
             error := Some "No capacity data found" |}
      | _ :: _ =>
          {| resultRegion := reg;
             metrics :=
               Some (analyzeStorageOpportunity pow sqrt now reg
                       (capacityData data) (demandData data)
                       (generationData data) (priceData data));
             error := None |}
      end
  end.

(** [Array.prototype.sort] with a comparator: [b] goes before [a] when
    [cmp a b > 0], and the sort is stable.  That fixes the result when the
    comparator orders the elements consistently; ECMAScript leaves the
    order to the implementation otherwise, as with a comparator that
    returns [NaN]. *)
Fixpoint insertBy {A : Type} (cmp : A -> A -> float) (x : A) (l : list A)
  : list A :=
  match l with
  | [] => [x]
  | y :: rest =>
      if gt (cmp x y) zero then y :: insertBy cmp x rest else x :: l
  end.

Definition sortBy {A : Type} (cmp : A -> A -> float) (l : list A) : list A :=
  fold_right (insertBy cmp) [] l.

(** [(b.metrics?.storageOpportunityScore.overall ?? 0)
      - (a.metrics?.storageOpportunityScore.overall ?? 0)] on two metrics. *)
Definition byOverallDesc (a b : EnergyStorageOpportunityMetrics) : float :=
  sub (overall (storageOpportunityScore b))
      (overall (storageOpportunityScore a)).

Record Driver : Type := {
  name : string;
  score : float
}.

(** [drivers.reduce((prev, current) =>
      current.score > prev.score ? current : prev).name] *)
Definition identifyPrimaryDriver (scores : StorageOpportunityScore) : string :=
  let first := {| name := "Peak Shaving"; score := peakShavingScore scores |} in
  let rest :=
    [ {| name := "Renewable Integration";
         score := renewableIntegrationScore scores |};
      {| name := "Grid Services"; score := gridServicesScore scores |};
      {| name := "Economic Arbitrage"; score := economicScore scores |} ] in
  name (fold_left
          (fun prev current =>
             if gt (score current) (score prev) then current else prev)
          rest first).

Record Opportunity : Type := {
  opportunityRegion : string;
  overallScore : float;
  primaryDriver : string
}.

Record Summary : Type := {
  summaryDate : string;
  regionsAnalyzed : nat;
  successfulAnalyses : nat;
  topOpportunities : list Opportunity
}.

(** The object the tool serialises with [JSON.stringify]. *)
Record ToolOutput : Type := {
  summary : Summary;
  detailedResults : list EnergyStorageOpportunityMetrics;
  failedRegions : list RegionalAnalysisResult
}.

(** A call of the tool returns its output or throws a [UserError]. *)
Inductive ToolResult : Type :=
| Throws (message : string)
| Returns (output : ToolOutput).

(** [.filter(r => "metrics" in r && r.metrics !== undefined)], which the
    code then reads through [r.metrics]. *)
Fixpoint successfulOf (results : list RegionalAnalysisResult)
  : list EnergyStorageOpportunityMetrics :=
  match results with
  | [] => []
  | r :: rest =>
      match metrics r with
      | Some m => m :: successfulOf rest
      | None => successfulOf rest
      end
  end.

(** [.filter(r => "error" in r)] *)
Definition failedOf (results : list RegionalAnalysisResult)
  : list RegionalAnalysisResult :=
  filter (fun r => match error r with Some _ => true | None => false end)
    results.

(** [execute] of [findHighPotentialEnergyStorageAreas].  [extraArgsApiKey]
    and [configApiKey] are the two places a key can come from, [connect]
    stands for the repository built on the client of that key, and [now]
    for the clock. *)
Definition findHighPotentialEnergyStorageAreas
  (extraArgsApiKey configApiKey : option string)
  (connect : string -> ElectricityRepository) (now : string)
  (regions : list string) (includeHourlyAnalysis : bool) : ToolResult :=
  match Index.firstKey extraArgsApiKey configApiKey with
  | None => Throws Index.apiKeyErrorMessage
  | Some eiaApiKey =>
      if String.eqb eiaApiKey "" then Throws Index.apiKeyErrorMessage
      else
        let electricityRepo := connect eiaApiKey in
        let results :=
          map (analyzeRegion now electricityRepo includeHourlyAnalysis) regions in
        let successful := successfulOf results in
        let failedAnalyses := failedOf results in
        let sortedResults := sortBy byOverallDesc successful in
        Returns
          {| summary :=
               {| summaryDate := now;
                  regionsAnalyzed := List.length regions;
                  successfulAnalyses := List.length successful;
                  topOpportunities :=
                    map (fun r =>
                           {| opportunityRegion := region r;
                              overallScore :=
                                overall (storageOpportunityScore r);
                              primaryDriver :=
                                identifyPrimaryDriver
                                  (storageOpportunityScore r) |})
                        (firstn 3 sortedResults) |};
             detailedResults := sortedResults;
             failedRegions := failedAnalyses |}
  end.

End Tool.

(** *** [CapacityAnalyzer.calculateCapacityUtilization]
        ([src/analysis/capacityAnalyzer.ts]) *)

Module CapacityAnalyzer.

Record RegionalCapacityMetrics : Type := {
  region : string;
  latestPeriod : string;
  totalSummerCapacityMW : float;
  totalWinterCapacityMW : float
}.

(** The object returned; [None] is [null]. *)
Record CapacityUtilization : Type := {
  utilization : option float;
  totalGenerationGWh : float;
  totalConsumptionGWh : float
}.

(** [30.4375 * 24] *)
Definition totalHoursInMonth : float := mul (decimal 304375 4) (ofZ 24).

Definition calculateCapacityUtilization
  (capacityMetrics : RegionalCapacityMetrics)
  (generationData : list GenerationData) : CapacityUtilization :=
  match generationData with
  | [] =>
      {| utilization := None;
         totalGenerationGWh := zero; totalConsumptionGWh := zero |}
  | first :: _ =>
      if le (totalSummerCapacityMW capacityMetrics) zero then
        {| utilization := None;
           totalGenerationGWh := zero; totalConsumptionGWh := zero |}
      else
        let latestGenerationPeriod := period first in
        let latestGenerationData :=
          filter (fun d => String.eqb (period d) latestGenerationPeriod)
            generationData in
        let totalGenerationMWh :=
          fold_left (fun sum gen => add sum (nullish (generation gen) zero))
            latestGenerationData zero in
        let totalConsumptionMWh :=
          fold_left (fun sum gen => add sum (nullish (total_consumption gen) zero))
            latestGenerationData zero in
        let potentialGenerationMWh :=
          mul (totalSummerCapacityMW capacityMetrics) totalHoursInMonth in
        let util :=
          if gt potentialGenerationMWh zero
          then Some (div totalGenerationMWh potentialGenerationMWh)
          else None in
        {| utilization :=
             match util with
             | Some u => if truthy u then Some (toFixed 4 u) else None
             | None => None
             end;
           totalGenerationGWh :=
             toFixed 3 (div totalGenerationMWh (ofZ 1000));
           totalConsumptionGWh :=
             toFixed 3 (div totalConsumptionMWh (ofZ 1000)) |}
  end.

End CapacityAnalyzer.

End InBinary64.

(* ================================================================== *)
(** ** Vocabulary of the statements over binary64 *)
(* ================================================================== *)

Module Vocabulary64.

Import Binary64 InBinary64.

Local Open Scope Z_scope.

(** Two binary64 values are the same value, the sign of a zero
    included. *)
Definition same (x y : float) : bool :=
  match x, y with
  | SpecFloat.S754_zero a, SpecFloat.S754_zero b => Bool.eqb a b
  | SpecFloat.S754_infinity a, SpecFloat.S754_infinity b => Bool.eqb a b
  | SpecFloat.S754_nan, SpecFloat.S754_nan => true
  | SpecFloat.S754_finite a m e, SpecFloat.S754_finite b n f =>
      Bool.eqb a b && Pos.eqb m n && Z.eqb e f
  | _, _ => false
  end.

(** [0 <= x <= 100]: false of [NaN]. *)
Definition withinScoreRange (x : float) : Prop :=
  le zero x = true /\ le x (ofZ 100) = true.

(** One of the integers [0], [1], ..., [100]. *)
Definition wholeScore (x : float) : Prop :=
  exists n : Z, 0 <= n <= 100 /\ x = ofZ n.

(** The integers from [0] to [100] as binary64 values. *)
Definition scoreValues : list float :=
  map (fun n => ofZ (Z.of_nat n)) (seq 0 101).

(** [NaN], or one of the integers from [0] to [100]. *)
Definition scoreOrNaN (x : float) : Prop := x = nan \/ wholeScore x.

(** A finite number that is not negative. *)
Definition nonNegative (x : float) : Prop :=
  isFinite x = true /\ le zero x = true.







(** Each of the five scores is [NaN] or an integer from [0] to [100]. *)
Definition allScoreOrNaN (s : StorageOpportunityScore) : Prop :=
  scoreOrNaN (overall s) /\ scoreOrNaN (peakShavingScore s) /\
  scoreOrNaN (renewableIntegrationScore s) /\
  scoreOrNaN (gridServicesScore s) /\ scoreOrNaN (economicScore s).

(** *** Sample metric records *)

Definition sampleGridCapacity : GridCapacityMetrics :=
  {| totalCapacityMW := ofZ 20000; renewableCapacityMW := ofZ 8000;
     fossilCapacityMW := ofZ 12000; renewablePenetration := ofZ 40 |}.

Definition sampleDemandSupply : DemandSupplyMetrics :=
  {| averageDemandMW := ofZ 41000; peakDemandMW := ofZ 58000;
     minimumDemandMW := ofZ 30000; loadFactor := decimal 7 1;
     demandVariabilityIndex := decimal 15 2 |}.


(** A curtailment estimate of [1e9] MWh. *)
Definition hugeCurtailment : RenewableIntegrationMetrics :=
  {| solarCapacityMW := ofZ 8000; windCapacityMW := ofZ 0;
     estimatedCurtailmentMWh := ofZ (10 ^ 9);
     renewableVariabilityIndex := decimal 7 1; duckCurveSeverity := ofZ 1 |}.

Definition sampleStability : GridStabilityMetrics :=
  {| maxHourlyRampMW := ofZ 500; rampingFrequency := ofZ 4;
     frequencyRegulationNeed := ofZ 100;
     spinningReserveRequirement := ofZ 300 |}.

Definition sampleEconomic : EconomicMetrics :=
  {| averageRetailPriceCentsPerKWh := decimal 125 1;
     priceVolatilityIndex := decimal 4 2; peakOffPeakSpread := ofZ 63;
     estimatedArbitrageRevenue := ofZ 63750 |}.












(** *** The overall score as the specification words it *)


(** The clamp leaves the value as it is. *)
Definition unclamped (x : float) : Prop := clamp x = x.

(** *** An implementation of [Math.pow] and [Math.sqrt] *)

(** The implementation the concrete runs use: [Math.pow(x, y)] as the
    correctly rounded [x * x] (every call of the source has the exponent
    [2]) and [Math.sqrt] as the correctly rounded square root. *)
Definition squaring (x y : float) : float := mul x x.

(** *** Hourly demand and generation samples *)

Definition hourly (v : option float) : RTODemandData :=
  {| rto_period := "2024-06-01T00"; respondent := "ERCO"; value := v |}.

Definition monthly (g : option float) : GenerationData :=
  {| period := "2024-06"; generation := g; total_consumption := None |}.

(** No finite value at all. *)
Definition blankDemand : list RTODemandData :=
  [hourly None; hourly (Some nan); hourly (Some infinity)].

Definition someGeneration : list GenerationData :=
  [monthly (Some (ofZ 1000)); monthly None; monthly (Some (ofZ 500))].

(** Six months of generation: [165] MWh and five times [164] MWh. *)
Definition sixMonths : list GenerationData :=
  map (fun g => monthly (Some (ofZ g))) [165; 164; 164; 164; 164; 164].

(** [g.generation || 0] *)
Definition generationOrZero (g : GenerationData) : float :=
  orElse (generation g) zero.

(** The mean of the generation values as the code takes it: the values,
    a missing one counting as [0], added from left to right and divided by
    [max(count, 1)]. *)
Definition meanGeneration (generationData : list GenerationData) : float :=
  div (sum (map generationOrZero generationData))
      (ofNat (Nat.max (List.length generationData) 1)).

(** The record has no finite numeric value. *)
Definition notNumeric (d : RTODemandData) : Prop :=
  match value d with
  | Some x => isFinite x = false
  | None => True
  end.

(** *** Retail prices *)

Definition retail (p : option float) : RetailPriceData :=
  {| rp_period := "2024-06"; rp_stateid := "TX"; sectorid := "ALL";
     price := p; sales := None |}.

(** [p.price || 0] *)
Definition priceOrZero (p : RetailPriceData) : float :=
  orElse (price p) zero.

(** The arithmetic mean of the prices as the code takes it: the prices, a
    missing one counting as [0], added from left to right and divided by
    their number. *)
Definition meanPrice (priceData : list RetailPriceData) : float :=
  div (sum (map priceOrZero priceData)) (ofNat (List.length priceData)).

Definition threePrices : list RetailPriceData :=
  [retail (Some (ofZ 1)); retail (Some (ofZ 2)); retail (Some (ofZ 2))].

Definition pricesWithGap : list RetailPriceData :=
  [retail (Some (ofZ 12)); retail None; retail (Some (decimal 133 1))].

(** The prices [0.01] and [0.02]. *)
Definition twoCents : list RetailPriceData :=
  [retail (Some (decimal 1 2)); retail (Some (decimal 2 2))].

(** *** Capacity by fuel *)

Definition plant (code : string) (mw : Z) : CapacityByFuelData :=
  {| cf_period := "2024"; cf_stateid := "TX"; energy_source_code := code;
     net_summer_capacity_mw := Some (ofZ mw);
     net_winter_capacity_mw := None |}.

(** [record['net-summer-capacity-mw'] || 0] *)
Definition capacityOf (record : CapacityByFuelData) : float :=
  orElse (net_summer_capacity_mw record) zero.

(** The summed capacity of the records whose fuel code satisfies [keep],
    added in the order of the records. *)
Definition capacityWhere (keep : string -> bool)
  (capacityData : list CapacityByFuelData) : float :=
  sum (map capacityOf
         (filter (fun r => keep (energy_source_code r)) capacityData)).

Definition solarAndGas : list CapacityByFuelData :=
  [plant "SUN" 8000; plant "NG" 12000].

Definition oneToTwo : list CapacityByFuelData :=
  [plant "SUN" 1; plant "NG" 2].

Definition windAndCoal : list CapacityByFuelData :=
  [plant "WND" 23; plant "COL" 17].

(** *** Capacity utilization *)

(** A summer capacity of [40000] MW. *)
Definition fortyGW : CapacityAnalyzer.RegionalCapacityMetrics :=
  {| CapacityAnalyzer.region := "TX";
     CapacityAnalyzer.latestPeriod := "2024-06";
     CapacityAnalyzer.totalSummerCapacityMW := ofZ 40000;
     CapacityAnalyzer.totalWinterCapacityMW := ofZ 41000 |}.

(** A month of [4383] MWh, and an older one. *)
Definition slackMonth : list GenerationData :=
  [{| period := "2024-06"; generation := Some (ofZ 4383);
      total_consumption := Some (ofZ 1200) |};
   {| period := "2024-05"; generation := Some (ofZ 70000);
      total_consumption := None |}].

(** The generation of the latest period, in MWh: the generation of the
    records of the period of the first record, a missing one counting as
    [0], added in the order of the records. *)
Definition latestGenerationMWh (generationData : list GenerationData)
  : float :=
  match generationData with
  | [] => zero
  | first :: _ =>
      sum (map (fun gen => nullish (generation gen) zero)
             (filter (fun d => String.eqb (period d) (period first))
                generationData))
  end.

(** The output that a capacity delivers over a month of [30.4375] days. *)
Definition potentialMWh (cm : CapacityAnalyzer.RegionalCapacityMetrics)
  : float :=
  mul (CapacityAnalyzer.totalSummerCapacityMW cm) (mul (decimal 304375 4) (ofZ 24)).

(** *** The region ranker *)

(** [a] may stand before [b] in a ranking by decreasing overall score. *)
Definition descending (a b : EnergyStorageOpportunityMetrics) : Prop :=
  le (overall (storageOpportunityScore b))
     (overall (storageOpportunityScore a)) = true.

(** The overall score of a result is a number, not [NaN]. *)
Definition numericOverall (m : EnergyStorageOpportunityMetrics) : Prop :=
  isNaN (overall (storageOpportunityScore m)) = false.

(** The overall score of a result is one of the integers from [0] to
    [100]. *)
Definition wholeOverall (m : EnergyStorageOpportunityMetrics) : Prop :=
  wholeScore (overall (storageOpportunityScore m)).

(** The entry of a result in [topOpportunities]. *)
Definition opportunityOf (r : EnergyStorageOpportunityMetrics) : Opportunity :=
  {| opportunityRegion := region r;
     overallScore := overall (storageOpportunityScore r);
     primaryDriver := identifyPrimaryDriver (storageOpportunityScore r) |}.

(** The analysis of a region on the data fetched for it. *)
Definition analysisOf (pow : float -> float -> float) (sqrt : float -> float)
  (now reg : string) (data : RegionData) : EnergyStorageOpportunityMetrics :=
  analyzeStorageOpportunity pow sqrt now reg (capacityData data)
    (demandData data) (generationData data) (priceData data).

(** The fetch of the region resolves with at least one capacity record,
    and [m] is the analysis of the data fetched. *)
Definition analysed (pow : float -> float -> float) (sqrt : float -> float)
  (now : string) (repo : ElectricityRepository) (hourly : bool)
  (reg : string) (m : EnergyStorageOpportunityMetrics) : Prop :=
  exists data,
    fetchRegion repo hourly reg = Resolved data
    /\ capacityData data <> []
    /\ m = analysisOf pow sqrt now reg data.

(** The fetch of the region is rejected, with a message that is not
    empty. *)
Definition fetchFails (repo : ElectricityRepository) (hourly : bool)
  (reg : string) : Prop :=
  exists t m, fetchRegion repo hourly reg = Rejected t m /\ m <> "".

(** The fetch of the region resolves, with at least one capacity
    record. *)
Definition fetchDelivers (repo : ElectricityRepository) (hourly : bool)
  (reg : string) : Prop :=
  exists data,
    fetchRegion repo hourly reg = Resolved data /\ capacityData data <> [].

(** The message of a capacity request that timed out. *)
Definition capacityTimeout : string :=
  Errors.requestFailed "/v2/electricity/operating-generator-capacity/data"
    "timeout of 30000ms exceeded".

(** A repository whose capacity request fails for the region BB, and that
    knows more solar capacity in CC than elsewhere. *)
Definition failingForBB : ElectricityRepository :=
  {| getCapacityByFuelType := fun reg =>
       if String.eqb reg "BB" then Rejected 1 capacityTimeout
       else if String.eqb reg "CC"
            then Resolved [plant "SUN" 16000; plant "NG" 4000]
            else Resolved solarAndGas;
     getGenerationByFuelType := fun _ => Resolved someGeneration;
     getRetailPrices := fun _ => Resolved pricesWithGap;
     getRTODemandData := fun _ => Resolved [] |}.

(** A repository whose capacity request fails for BB and resolves without
    any record for AA. *)
Definition emptyForAA : ElectricityRepository :=
  {| getCapacityByFuelType := fun reg =>
       if String.eqb reg "BB" then Rejected 1 capacityTimeout
       else Resolved [];
     getGenerationByFuelType := fun _ => Resolved someGeneration;
     getRetailPrices := fun _ => Resolved pricesWithGap;
     getRTODemandData := fun _ => Resolved [] |}.

End Vocabulary64.

(* ================================================================== *)
(** * Properties *)
(* ================================================================== *)

(** ** Facts about numbers *)

Lemma Qltb_lt (a b : Q) : Qltb a b = true <-> a < b.
Proof.
  unfold Qltb. rewrite negb_true_iff. split; intro H.
  - apply Qnot_le_lt. intro Hle. apply Qle_bool_iff in Hle. congruence.
  - destruct (Qle_bool b a) eqn:E; [|reflexivity].
    apply Qle_bool_iff in E. exfalso. apply (Qlt_not_le _ _ H E).
Qed.

Lemma Qltb_ge (a b : Q) : Qltb a b = false <-> b <= a.
Proof.
  unfold Qltb. rewrite negb_false_iff. apply Qle_bool_iff.
Qed.



Lemma isFinite_Fin (x : number) : isFinite x = true -> exists q, x = Fin q.
Proof.
  destruct x; simpl; intro H; try discriminate. now exists q.
Qed.

Lemma isFinite_add (x y : number) :
  isFinite x = true -> isFinite y = true -> isFinite (add x y) = true.
Proof. destruct x, y; simpl; auto. Qed.

Lemma isFinite_sub (x y : number) :
  isFinite x = true -> isFinite y = true -> isFinite (sub x y) = true.
Proof. destruct x, y; simpl; auto. Qed.

Lemma isFinite_mul (x y : number) :
  isFinite x = true -> isFinite y = true -> isFinite (mul x y) = true.
Proof. destruct x, y; simpl; intros; try discriminate; auto. Qed.

Lemma isFinite_div (x : number) (c : Q) :
  isFinite x = true -> Qeq_bool c 0 = false -> isFinite (div x (Fin c)) = true.
Proof.
  destruct x; simpl; intros Hx Hc; try discriminate. now rewrite Hc.
Qed.

Lemma isFinite_min (x y : number) :
  isFinite x = true -> isFinite y = true -> isFinite (min x y) = true.
Proof.
  destruct x, y; simpl; auto. intros _ _. now destruct (Qltb _ _).
Qed.

Lemma isFinite_max (x y : number) :
  isFinite x = true -> isFinite y = true -> isFinite (max x y) = true.
Proof.
  destruct x, y; simpl; auto. intros _ _. now destruct (Qltb _ _).
Qed.

Lemma isFinite_round (x : number) :
  isFinite x = true -> isFinite (round x) = true.
Proof. destruct x; simpl; auto. Qed.

Create HintDb finite.

#[local] Hint Resolve isFinite_add isFinite_sub isFinite_mul isFinite_min
  isFinite_max isFinite_round : finite.

(** The clamp leaves a value of the range as it is. *)
Lemma clamp_id (x : number) : inScoreRange x -> clamp x = x.
Proof.
  destruct x as [q| | |]; simpl; try tauto. intros [H0 H1].
  unfold clamp, max, zero. simpl lt.
  assert (E0 : Qltb q 0 = false) by now apply Qltb_ge.
  rewrite E0. unfold min. simpl lt.
  assert (E1 : Qltb 100 q = false) by now apply Qltb_ge.
  now rewrite E1.
Qed.

Lemma inScoreRange_finite (x : number) : inScoreRange x -> isFinite x = true.
Proof. destruct x; simpl; tauto. Qed.

Lemma nonNegative_finite (x : number) : nonNegative x -> isFinite x = true.
Proof. destruct x; simpl; tauto. Qed.

#[local] Hint Resolve nonNegative_finite inScoreRange_finite : finite.

(** [Math.round] keeps a value of [0, 100] within [0, 100]. *)
Lemma round_in_range (q : Q) : 0 <= q <= 100 -> inScoreRange (round (Fin q)).
Proof.
  intros [H0 H1]. simpl.
  assert (Hlo : (0 <= Qfloor (q + (1 # 2)))%Z).
  { change 0%Z with (Qfloor 0). apply Qfloor_resp_le. lra. }
  assert (Hhi : (Qfloor (q + (1 # 2)) <= 100)%Z).
  { change 100%Z with (Qfloor (100 + (1 # 2))). apply Qfloor_resp_le. lra. }
  split.
  - change 0 with (inject_Z 0). now rewrite <- Zle_Qle.
  - change 100 with (inject_Z 100). now rewrite <- Zle_Qle.
Qed.

Ltac score_fields :=
  unfold calculateOpportunityScores;
  cbn [overall peakShavingScore renewableIntegrationScore gridServicesScore
       economicScore].

(* ------------------------------------------------------------------ *)
(** ** The trend classifier *)
(* ------------------------------------------------------------------ *)

Lemma Qabs_pos (p : Q) : 0 < Qabs p <-> ~ p == 0.
Proof.
  split.
  - intros H E. rewrite E in H. simpl in H. lra.
  - intro H. apply Qabs_case; intro Hp.
    + destruct (Qlt_le_dec 0 p) as [Hlt|Hle]; [exact Hlt|].
      exfalso. apply H. lra.
    + destruct (Qlt_le_dec p 0) as [Hlt|Hle]; [lra|].
      exfalso. apply H. lra.
Qed.

Lemma deadband_pos (p : Q) : 0 < deadband p.
Proof.
  unfold deadband. destruct (Qeq_bool p 0) eqn:E; [lra|].
  apply Qeq_bool_neq in E. apply Qabs_pos in E. lra.
Qed.

(** The threshold [getTrend] computes, on finite values. *)
Lemma getTrend_finite (l p : Q) :
  getTrend (Some (Fin l)) (Some (Fin p))
  = if Qltb (deadband p) (l - p) then up
    else if Qltb (l - p) (- deadband p) then down
    else flat.
Proof.
  unfold getTrend, numberOrZero, abs, gt, zero, one.
  cbn [lt]. unfold deadband.
  destruct (Qeq_bool p 0) eqn:E.
  - apply Qeq_bool_eq in E.
    assert (H0 : Qltb 0 (Qabs p) = false).
    { apply Qltb_ge. rewrite E. simpl. lra. }
    rewrite H0. cbn [sub neg add lt]. reflexivity.
  - apply Qeq_bool_neq in E. apply Qabs_pos in E.
    apply Qltb_lt in E. rewrite E. cbn [mul sub neg add lt]. reflexivity.
Qed.

(** C3, amended.  With [null] read as [0], [getTrend] compares
    [latest - previous] with the threshold [|previous| * 0.01] when
    [previous] is not zero and with [1] when it is: the result is [up]
    exactly when the difference exceeds the threshold, [down] exactly
    when it is below its negation, and [flat] otherwise.
    [getTrend(102, 100)] is [up] and [getTrend(100.5, 100)] is [flat]. *)
Theorem getTrend_deadband (latest previous : option Q) :
  let l := valueOrZero latest in
  let p := valueOrZero previous in
  let t := getTrend (ofOptionQ latest) (ofOptionQ previous) in
  (t = up <-> deadband p < l - p) /\
  (t = down <-> l - p < - deadband p) /\
  (t = flat <-> - deadband p <= l - p <= deadband p) /\
  getTrend (Some (Fin 102)) (Some (Fin 100)) = up /\
  getTrend (Some (Fin 100.5)) (Some (Fin 100)) = flat.
Proof.
  intros l p t.
  assert (Ht : t = if Qltb (deadband p) (l - p) then up
                   else if Qltb (l - p) (- deadband p) then down
                   else flat).
  { subst t l p. destruct latest as [a|], previous as [b|];
      apply getTrend_finite. }
  pose proof (deadband_pos p) as Hpos.
  rewrite Ht. clear Ht t.
  destruct (Qltb (deadband p) (l - p)) eqn:Eup.
  - apply Qltb_lt in Eup.
    repeat split; try (intros; first [reflexivity | discriminate | lra]).
  - apply Qltb_ge in Eup.
    destruct (Qltb (l - p) (- deadband p)) eqn:Edown.
    + apply Qltb_lt in Edown.
      repeat split; try (intros; first [reflexivity | discriminate | lra]).
    + apply Qltb_ge in Edown.
      repeat split; try (intros; first [reflexivity | discriminate | lra]).
Qed.

(** C3, counterexample.  From 50 to 50.7 the difference of [0.7] exceeds
    one percent of 50, so [getTrend] answers [up]; under a threshold of
    [max(|previous| * 0.01, 1) = 1] the answer would be [flat]. *)
Lemma getTrend_band_below_one :
  getTrend (Some (Fin 50.7)) (Some (Fin 50)) = up /\
  classifyTrendSpec (Some (Fin 50.7)) (Some (Fin 50)) = flat.
Proof. split; vm_compute; reflexivity. Qed.

(** Both classifiers agree once the previous value is zero or at least
    100 in magnitude. *)
Lemma getTrend_agrees_with_spec (l p : Q) :
  p == 0 \/ 100 <= Qabs p ->
  getTrend (Some (Fin l)) (Some (Fin p))
  = classifyTrendSpec (Some (Fin l)) (Some (Fin p)).
Proof.
  intro H. rewrite getTrend_finite.
  unfold classifyTrendSpec, numberOrZero, abs, gt, one.
  cbn [mul max lt]. unfold deadband.
  destruct H as [H|H].
  - assert (E : Qeq_bool p 0 = true) by now apply Qeq_bool_iff.
    rewrite E.
    assert (E1 : Qltb (Qabs p * 0.01) 1 = true).
    { apply Qltb_lt. rewrite H. simpl. lra. }
    rewrite E1. cbn [sub neg add lt]. reflexivity.
  - assert (E : Qeq_bool p 0 = false).
    { destruct (Qeq_bool p 0) eqn:E; [|reflexivity].
      apply Qeq_bool_eq in E. rewrite E in H. simpl in H. lra. }
    rewrite E.
    assert (E1 : Qltb (Qabs p * 0.01) 1 = false) by (apply Qltb_ge; lra).
    rewrite E1. cbn [sub neg add lt]. reflexivity.
Qed.

(* ------------------------------------------------------------------ *)
(** ** The numeric series and the fallback branches *)
(* ------------------------------------------------------------------ *)

(** The series keeps the finite values of the records, and only them. *)
Lemma numericSeries_In (demandData : list RTODemandData) (x : number) :
  In x (numericSeries demandData)
  <-> exists d, In d demandData /\ value d = Some x /\ isFinite x = true.
Proof.
  unfold numericSeries. induction demandData as [|d rest IH]; simpl.
  - split; [tauto | intros (d & [] & _)].
  - unfold finiteOrNull at 1. destruct (value d) as [v|] eqn:Ev.
    + destruct (isFinite v) eqn:Ef; simpl.
      * rewrite IH. split.
        -- intros [<-|(d' & Hin & Hv & Hf)].
           ++ exists d. auto.
           ++ exists d'. auto.
        -- intros (d' & [<-|Hin] & Hv & Hf).
           ++ left. congruence.
           ++ right. exists d'. auto.
      * rewrite IH. split.
        -- intros (d' & Hin & Hv & Hf). exists d'. auto.
        -- intros (d' & [<-|Hin] & Hv & Hf).
           ++ congruence.
           ++ exists d'. auto.
    + rewrite IH. split.
      * intros (d' & Hin & Hv & Hf). exists d'. auto.
      * intros (d' & [<-|Hin] & Hv & Hf).
        -- congruence.
        -- exists d'. auto.
Qed.

(** Every element of the series is finite. *)
Lemma numericSeries_finite (demandData : list RTODemandData) :
  Forall (fun x => isFinite x = true) (numericSeries demandData).
Proof.
  apply Forall_forall. intros x Hx.
  apply numericSeries_In in Hx. now destruct Hx as (d & _ & _ & Hf).
Qed.

(** C6.  When fewer than two finite values remain in the hourly series
    once the [null] and non-finite entries are dropped,
    [calculateGridStabilityMetrics] returns the constants
    [maxHourlyRampMW = 500], [rampingFrequency = 4],
    [frequencyRegulationNeed = 100], [spinningReserveRequirement = 300]. *)
Theorem stability_fallback_constants (demandData : list RTODemandData) :
  (List.length (numericSeries demandData) < 2)%nat ->
  calculateGridStabilityMetrics demandData
  = {| maxHourlyRampMW := Fin 500;
       rampingFrequency := Fin 4;
       frequencyRegulationNeed := Fin 100;
       spinningReserveRequirement := Fin 300 |}.
Proof.
  intro H. unfold calculateGridStabilityMetrics.
  apply Nat.ltb_lt in H. now rewrite H.
Qed.

(** The theorem at a series with a single finite value. *)
Lemma stability_fallback_constants_witness :
  (List.length (numericSeries sparseDemand) < 2)%nat /\
  calculateGridStabilityMetrics sparseDemand
  = {| maxHourlyRampMW := Fin 500;
       rampingFrequency := Fin 4;
       frequencyRegulationNeed := Fin 100;
       spinningReserveRequirement := Fin 300 |}.
Proof.
  assert (H : (List.length (numericSeries sparseDemand) < 2)%nat).
  { apply Nat.ltb_lt. reflexivity. }
  split; [exact H | exact (stability_fallback_constants sparseDemand H)].
Defined.

(** With two finite values the metrics are computed from the series. *)
Example stability_of_two_values :
  calculateGridStabilityMetrics
    [hourly (Some (Fin 41000)); hourly None; hourly (Some (Fin 45000))]
  = {| maxHourlyRampMW := Fin 4000;
       rampingFrequency := toFixed 1 (Fin 12);
       frequencyRegulationNeed := Fin 430;
       spinningReserveRequirement := Fin 2000 |}.
Proof. vm_compute. reflexivity. Qed.

Lemma fold_left_add_map {A : Type} (f : A -> number) (xs : list A)
  (acc : number) :
  fold_left (fun s x => add s (f x)) xs acc = fold_left add (map f xs) acc.
Proof.
  revert acc. induction xs as [|x rest IH]; intro acc; simpl; auto.
Qed.

(* ------------------------------------------------------------------ *)
(** ** Economic metrics *)
(* ------------------------------------------------------------------ *)

Lemma orElse_finitePrice (p : RetailPriceData) :
  finitePrice p ->
  exists q, orElse (price p) zero = Fin q /\ q == priceOrZero p.
Proof.
  unfold finitePrice, priceOrZero, orElse.
  destruct (price p) as [[q| | |]|]; try tauto; intros _.
  - unfold truthy. destruct (Qeq_bool q 0) eqn:E; simpl.
    + exists 0. split; [reflexivity|]. apply Qeq_bool_eq in E. now rewrite E.
    + exists q. split; reflexivity.
  - exists 0. split; reflexivity.
Qed.

(** The running sum of [reduce] over finite prices is the rational sum. *)
Lemma sum_finite_prices (priceData : list RetailPriceData) (acc : Q) :
  Forall finitePrice priceData ->
  exists s,
    fold_left add (map (fun p => orElse (price p) zero) priceData) (Fin acc)
    = Fin s
    /\ s == acc + Qsum (map priceOrZero priceData).
Proof.
  intro H. revert acc. induction H as [|p rest Hp Hrest IH]; intro acc.
  - exists acc. split; [reflexivity|]. simpl. lra.
  - destruct (orElse_finitePrice p Hp) as (q & Eq & Hq).
    cbn [map fold_left]. rewrite Eq. cbn [add].
    destruct (IH (acc + q)) as (s & Es & Hs).
    exists s. split; [exact Es|].
    rewrite Hs. cbn [map Qsum fold_right]. fold (Qsum (map priceOrZero rest)).
    rewrite Hq. lra.
Qed.

Lemma ofNat_S_nonzero (n : nat) :
  Qeq_bool (inject_Z (Z.of_nat (S n))) 0 = false.
Proof.
  destruct (Qeq_bool _ 0) eqn:E; [|reflexivity].
  apply Qeq_bool_eq in E. unfold Qeq in E. simpl in E. lia.
Qed.

(** The empty sequence has all-zero statistics. *)
Lemma basicStats_nil :
  basicStats [] = {| avg := zero; stddev := zero; cov := zero |}.
Proof. reflexivity. Qed.

(** [basicStats] guards the division: with a zero average the
    coefficient of variation is [0]. *)
Lemma basicStats_cov_zero_avg (values : list number) :
  sameNumber (avg (basicStats values)) zero -> cov (basicStats values) = zero.
Proof.
  destruct values as [|v rest]; [reflexivity|].
  unfold basicStats. cbn [avg cov].
  destruct (div _ _) as [q| | |]; simpl; try tauto.
  intro H. unfold neqb, eqb, zero.
  apply Qeq_bool_iff in H. now rewrite H.
Qed.

(** Otherwise it is the quotient of the deviation by the average. *)
Lemma basicStats_cov_quotient (values : list number) :
  values <> [] ->
  neqb (avg (basicStats values)) zero = true ->
  cov (basicStats values)
  = div (stddev (basicStats values)) (avg (basicStats values)).
Proof.
  destruct values as [|v rest]; [congruence|]. intros _.
  unfold basicStats. cbn [avg cov stddev]. now intros ->.
Qed.

Lemma squares_finite (xs : list number) (a acc : number) :
  Forall (fun x => isFinite x = true) xs ->
  isFinite a = true -> isFinite acc = true ->
  isFinite (fold_left (fun sum p => add sum (square (sub p a))) xs acc) = true.
Proof.
  intros Hxs Ha. revert acc.
  induction Hxs as [|x rest Hx Hrest IH]; intros acc Hacc; cbn [fold_left].
  - exact Hacc.
  - apply IH. unfold square. auto with finite.
Qed.

Lemma prices_finite (priceData : list RetailPriceData) :
  Forall finitePrice priceData ->
  Forall (fun x => isFinite x = true)
    (map (fun p => orElse (price p) zero) priceData).
Proof.
  intro H. apply Forall_map. eapply Forall_impl; [|exact H].
  intros p Hp. now destruct (orElse_finitePrice p Hp) as (q & -> & _).
Qed.

(** The division without a guard, in general: whenever the prices are
    [null] or finite and their average is zero, the volatility index that
    [calculateEconomicMetrics] returns is not a finite number (it is [NaN]
    when all prices are zero, an infinity otherwise), hence never [0]. *)
Lemma price_volatility_not_finite_for_zero_average
  (priceData : list RetailPriceData) (demandSupply : DemandSupplyMetrics) :
  priceData <> [] ->
  Forall finitePrice priceData ->
  Qmean (map priceOrZero priceData) == 0 ->
  isFinite (priceVolatilityIndex
              (calculateEconomicMetrics priceData demandSupply)) = false.
Proof.
  intros Hne Hfin Hmean. destruct priceData as [|p rest]; [congruence|].
  unfold calculateEconomicMetrics. cbn [priceVolatilityIndex].
  destruct (sum_finite_prices (p :: rest) 0 Hfin) as (s & Es & Hs).
  pose proof (prices_finite (p :: rest) Hfin) as Hall.
  fold zero in Es.
  set (prices := map (fun p0 => orElse (price p0) zero) (p :: rest)) in *.
  assert (Hlen : List.length prices = S (List.length rest))
    by (subst prices; now rewrite length_map).
  assert (Havg : exists a,
             div (sum prices) (ofNat (List.length prices)) = Fin a /\ a == 0).
  { unfold sum. rewrite Es, Hlen. unfold ofNat, div.
    rewrite ofNat_S_nonzero. eexists. split; [reflexivity|].
    rewrite Hs, Qplus_0_l. unfold Qmean in Hmean.
    rewrite length_map in Hmean. exact Hmean. }
  destruct Havg as (a & -> & Ha).
  assert (Hvar : isFinite (varianceOf prices (Fin a)) = true).
  { unfold varianceOf. rewrite Hlen. unfold ofNat.
    apply isFinite_div; [|apply ofNat_S_nonzero].
    now apply squares_finite. }
  destruct (isFinite_Fin _ Hvar) as (v & ->).
  assert (Ez : Qeq_bool a 0 = true) by now apply Qeq_bool_iff.
  unfold sqrt. destruct (Qltb v 0); [reflexivity|].
  unfold div. rewrite Ez.
  now destruct (Qsign (Qsqrt v)).
Qed.

(** C8, at the failing input.  A series whose only record has a [null]
    price has the average [0]: [basicStats] answers [0] for the
    coefficient of variation of these prices, and
    [calculateEconomicMetrics], which divides without the guard, answers
    [NaN]. *)
Theorem price_volatility_NaN_for_zero_average
  (demandSupply : DemandSupplyMetrics) :
  let prices := map (fun p => orElse (price p) zero) unpriced in
  let economic := calculateEconomicMetrics unpriced demandSupply in
  sameNumber (averageRetailPriceCentsPerKWh economic) zero
  /\ cov (basicStats prices) = zero
  /\ priceVolatilityIndex economic = NaN.
Proof.
  vm_compute. repeat split; reflexivity.
Qed.

(** The [NaN] reaches the economic score and the overall score of the
    region. *)
Example NaN_scores_for_unpriced_region :
  let s := storageOpportunityScore
             (analyzeStorageOpportunity "2024-07-01T00:00:00.000Z" "TX"
                solarAndGas [] [] unpriced) in
  economicScore s = NaN /\ overall s = NaN.
Proof. vm_compute. split; reflexivity. Qed.

(* ------------------------------------------------------------------ *)
(** ** Capacity utilization *)
(* ------------------------------------------------------------------ *)

(** The guard: without generation records, or with a summer capacity that
    is not positive, the result is [{null, 0, 0}]. *)
Lemma utilization_guard (cm : CapacityAnalyzer.RegionalCapacityMetrics)
  (generationData : list GenerationData) :
  generationData = []
  \/ le (CapacityAnalyzer.totalSummerCapacityMW cm) zero = true ->
  CapacityAnalyzer.calculateCapacityUtilization cm generationData
  = {| CapacityAnalyzer.utilization := None;
       CapacityAnalyzer.totalGenerationGWh := zero;
       CapacityAnalyzer.totalConsumptionGWh := zero |}.
Proof.
  unfold CapacityAnalyzer.calculateCapacityUtilization.
  intros [->|H]; [reflexivity|].
  destruct generationData; [reflexivity|]. now rewrite H.
Qed.

(** Past the guard the ratio is the generation of the latest period over
    [capacity * 30.4375 * 24], rounded to four decimals, when that
    generation is not zero, and [null] when it is zero. *)
Lemma utilization_past_guard (cm : CapacityAnalyzer.RegionalCapacityMetrics)
  (generationData : list GenerationData) (c s : Q) :
  generationData <> [] ->
  CapacityAnalyzer.totalSummerCapacityMW cm = Fin c -> 0 < c ->
  latestGenerationMWh generationData = Fin s ->
  CapacityAnalyzer.utilization
    (CapacityAnalyzer.calculateCapacityUtilization cm generationData)
  = if Qeq_bool s 0 then None
    else Some (toFixed 4 (Fin (s / (c * (30.4375 * 24))))).
Proof.
  intros Hne Hc Hpos Hs. destruct generationData as [|first rest];
    [congruence|].
  unfold CapacityAnalyzer.calculateCapacityUtilization.
  rewrite Hc. unfold le, zero.
  assert (E : Qle_bool c 0 = false).
  { destruct (Qle_bool c 0) eqn:E; [|reflexivity].
    apply Qle_bool_iff in E. lra. }
  rewrite E. cbn [CapacityAnalyzer.utilization].
  unfold latestGenerationMWh, sum in Hs.
  rewrite <- fold_left_add_map in Hs. unfold zero in Hs. rewrite Hs.
  unfold CapacityAnalyzer.totalHoursInMonth. cbn [mul]. unfold gt. cbn [lt].
  assert (Hpot : 0 < c * (30.4375 * 24)) by nra.
  assert (E1 : Qltb 0 (c * (30.4375 * 24)) = true) by now apply Qltb_lt.
  rewrite E1. unfold div.
  assert (E2 : Qeq_bool (c * (30.4375 * 24)) 0 = false).
  { destruct (Qeq_bool _ 0) eqn:E2; [|reflexivity].
    apply Qeq_bool_eq in E2. lra. }
  rewrite E2. unfold truthy.
  assert (E3 : Qeq_bool (s / (c * (30.4375 * 24))) 0 = Qeq_bool s 0).
  { destruct (Qeq_bool s 0) eqn:E3.
    - apply Qeq_bool_iff. apply Qeq_bool_eq in E3. rewrite E3.
      field. lra.
    - destruct (Qeq_bool (s / (c * (30.4375 * 24))) 0) eqn:E4;
        [|reflexivity].
      apply Qeq_bool_eq in E4. apply Qeq_bool_neq in E3. exfalso. apply E3.
      assert (Hm : s == s / (c * (30.4375 * 24)) * (c * (30.4375 * 24)))
        by (field; lra).
      rewrite Hm, E4. lra. }
  rewrite E3. now destruct (Qeq_bool s 0).
Qed.

(** At half of the potential output the ratio is [0.5]. *)
Example utilization_half_load :
  CapacityAnalyzer.calculateCapacityUtilization hundredMW halfLoadMonth
  = {| CapacityAnalyzer.utilization := Some (toFixed 4 (Fin 0.5));
       CapacityAnalyzer.totalGenerationGWh := toFixed 3 (Fin 36.525);
       CapacityAnalyzer.totalConsumptionGWh := toFixed 3 (Fin 1.2) |}.
Proof. vm_compute. reflexivity. Qed.

(** C4, at the failing input.  With one generation record reporting [0]
    and a summer capacity of 100 MW the list is not empty, the capacity and
    the potential output [100 * 30.4375 * 24] are positive and the quotient
    is [0]; the ratio returned is [null] and the result is the one of the
    guard. *)
Theorem utilization_null_for_zero_generation :
  let result :=
    CapacityAnalyzer.calculateCapacityUtilization hundredMW idleMonth in
  idleMonth <> []
  /\ gt (CapacityAnalyzer.totalSummerCapacityMW hundredMW) zero = true
  /\ gt (mul (CapacityAnalyzer.totalSummerCapacityMW hundredMW)
             CapacityAnalyzer.totalHoursInMonth) zero = true
  /\ sameNumber
       (div (latestGenerationMWh idleMonth)
            (mul (CapacityAnalyzer.totalSummerCapacityMW hundredMW)
                 CapacityAnalyzer.totalHoursInMonth))
       zero
  /\ CapacityAnalyzer.utilization result = None
  /\ sameNumber (CapacityAnalyzer.totalGenerationGWh result) zero
  /\ sameNumber (CapacityAnalyzer.totalConsumptionGWh result) zero.
Proof.
  vm_compute. repeat split; try reflexivity. discriminate.
Qed.

(* ------------------------------------------------------------------ *)
(** ** The region ranker *)
(* ------------------------------------------------------------------ *)

Section Sorting.

Context {A : Type} (cmp : A -> A -> number).

Lemma insertBy_Permutation (x : A) (l : list A) :
  Permutation (insertBy cmp x l) (x :: l).
Proof.
  induction l as [|y rest IH]; cbn [insertBy].
  - reflexivity.
  - destruct (gt (cmp x y) zero).
    + apply perm_trans with (y :: x :: rest).
      * apply perm_skip. exact IH.
      * apply perm_swap.
    + reflexivity.
Qed.

(** The sort keeps the elements. *)
Lemma sortBy_Permutation (l : list A) : Permutation (sortBy cmp l) l.
Proof.
  induction l as [|x rest IH]; cbn [sortBy fold_right].
  - reflexivity.
  - apply perm_trans with (x :: sortBy cmp rest).
    + apply insertBy_Permutation.
    + apply perm_skip. exact IH.
Qed.

End Sorting.

(** The errors the data layer builds have a message that is not empty. *)
Lemma requestFailed_nonempty (path errorMessage : string) :
  Errors.requestFailed path errorMessage <> "".
Proof. discriminate. Qed.

Lemma invalidStructure_nonempty (context : string) :
  Errors.invalidStructure context <> "".
Proof. discriminate. Qed.

(** A region is reported with metrics or with an error, never with both
    or with neither. *)
Lemma analyzeRegion_outcome (now : string) (repo : ElectricityRepository)
  (hourly : bool) (reg : string) :
  let r := analyzeRegion now repo hourly reg in
  (exists m, metrics r = Some m /\ error r = None)
  \/ (exists e, metrics r = None /\ error r = Some e).
Proof.
  unfold analyzeRegion. destruct (fetchRegion repo hourly reg) as [m|data].
  - right. now exists m.
  - destruct (capacityData data).
    + right. now eexists.
    + left. now eexists.
Qed.


(* ================================================================== *)
(** * Further properties *)
(* ================================================================== *)

(** ** Sums, extrema and rounding of finite numbers *)

Lemma fold_add_finite (xs : list number) (acc : Q) :
  Forall (fun x => isFinite x = true) xs ->
  exists s,
    fold_left add xs (Fin acc) = Fin s /\ s == acc + Qsum (map valueOf xs).
Proof.
  intro H. revert acc. induction H as [|x rest Hx Hrest IH]; intro acc.
  - exists acc. split; [reflexivity|]. simpl. lra.
  - destruct (isFinite_Fin x Hx) as (q & ->). cbn [fold_left add].
    destruct (IH (acc + q)) as (s & Es & Hs).
    exists s. split; [exact Es|].
    rewrite Hs. cbn [map Qsum fold_right valueOf].
    fold (Qsum (map valueOf rest)). lra.
Qed.

Lemma sum_finite (xs : list number) :
  Forall (fun x => isFinite x = true) xs ->
  exists s, sum xs = Fin s /\ s == Qsum (map valueOf xs).
Proof.
  intro H. destruct (fold_add_finite xs 0 H) as (s & Es & Hs).
  exists s. split; [exact Es|]. rewrite Hs. lra.
Qed.

Lemma Qsum_bounds (qs : list Q) (lo hi : Q) :
  Forall (fun q => lo <= q <= hi) qs ->
  inject_Z (Z.of_nat (List.length qs)) * lo <= Qsum qs
  /\ Qsum qs <= inject_Z (Z.of_nat (List.length qs)) * hi.
Proof.
  induction 1 as [|q rest Hq Hrest IH].
  - cbn [Qsum fold_right List.length Z.of_nat].
    change (inject_Z 0) with 0. split; lra.
  - cbn [Qsum fold_right List.length]. fold (Qsum rest).
    rewrite Nat2Z.inj_succ. unfold Z.succ. rewrite inject_Z_plus.
    destruct IH as [IH1 IH2]. destruct Hq as [Hq1 Hq2].
    change (inject_Z 1) with 1. split; nra.
Qed.

Lemma inject_nat_pos (n : nat) : 0 < inject_Z (Z.of_nat (S n)).
Proof.
  change 0 with (inject_Z 0). rewrite <- Zlt_Qlt. lia.
Qed.

(** [Math.round] is monotone. *)
Lemma round_monotone (a b : Q) :
  a <= b -> notAbove (round (Fin a)) (round (Fin b)).
Proof.
  intro H. cbn [round notAbove]. rewrite <- Zle_Qle.
  apply Qfloor_resp_le. lra.
Qed.

(** [Math.round] of a value that is not negative is not negative. *)
Lemma round_nonneg (a : Q) : 0 <= a -> nonNegative (round (Fin a)).
Proof.
  intro H. cbn [round nonNegative]. change 0 with (inject_Z 0).
  rewrite <- Zle_Qle. change 0%Z with (Qfloor 0). apply Qfloor_resp_le. lra.
Qed.

(* ------------------------------------------------------------------ *)
(** ** Rounding to decimals *)
(* ------------------------------------------------------------------ *)

Lemma within_ext (lo lo' hi hi' : Q) (x : number) :
  lo == lo' -> hi == hi' -> within lo hi x -> within lo' hi' x.
Proof.
  intros Hlo Hhi. destruct x; cbn [within]; try tauto.
  rewrite Hlo, Hhi. tauto.
Qed.

Lemma within_value (lo hi : Q) (x : number) :
  within lo hi x -> exists q, x = Fin q /\ lo <= q <= hi.
Proof.
  destruct x as [q| | |]; cbn [within]; try tauto. intro H. now exists q.
Qed.

(** [toFixed] keeps a value that is not negative between two decimals of
    its precision that enclose it. *)
Lemma toFixed_within (d : nat) (q : Q) (L H : Z) :
  (0 <= L)%Z ->
  inject_Z L / inject_Z (Z.pos (scale10 d)) <= q ->
  q <= inject_Z H / inject_Z (Z.pos (scale10 d)) ->
  inject_Z H / inject_Z (Z.pos (scale10 d)) < 1e21 ->
  within (inject_Z L / inject_Z (Z.pos (scale10 d)))
         (inject_Z H / inject_Z (Z.pos (scale10 d)))
         (toFixed d (Fin q)).
Proof.
  intros HL Hlo Hhi Hbig.
  set (S := inject_Z (Z.pos (scale10 d))) in *.
  assert (HS : 0 < S).
  { subst S. change 0 with (inject_Z 0). rewrite <- Zlt_Qlt. lia. }
  assert (HL' : 0 <= inject_Z L).
  { change 0 with (inject_Z 0). now rewrite <- Zle_Qle. }
  assert (Hq0 : 0 <= q).
  { apply Qle_trans with (inject_Z L / S); [|exact Hlo].
    apply Qle_shift_div_l; [exact HS | lra]. }
  assert (Habs : Qabs q == q) by now apply Qabs.Qabs_pos.
  unfold toFixed.
  assert (E1 : Qle_bool 1e21 (Qabs q) = false).
  { destruct (Qle_bool 1e21 (Qabs q)) eqn:E; [|reflexivity].
    apply Qle_bool_iff in E. rewrite Habs in E. lra. }
  rewrite E1.
  assert (E2 : Qltb q 0 = false) by now apply Qltb_ge.
  rewrite E2. cbn [within]. fold S.
  rewrite (Qfloor_comp (Qabs q * S + (1 # 2)) (q * S + (1 # 2)))
    by now rewrite Habs.
  assert (HqL : inject_Z L <= q * S).
  { setoid_replace (inject_Z L) with (inject_Z L / S * S) by (field; lra).
    apply Qmult_le_compat_r; [exact Hlo | lra]. }
  assert (HqH : q * S <= inject_Z H).
  { setoid_replace (inject_Z H) with (inject_Z H / S * S) by (field; lra).
    apply Qmult_le_compat_r; [exact Hhi | lra]. }
  assert (Hn1 : (L <= Qfloor (q * S + (1 # 2)))%Z).
  { rewrite <- (Qfloor_Z L). apply Qfloor_resp_le. lra. }
  assert (Hn2 : (Qfloor (q * S + (1 # 2)) <= H)%Z).
  { apply Z.lt_succ_r. rewrite Zlt_Qlt.
    apply Qle_lt_trans with (q * S + (1 # 2)); [apply Qfloor_le|].
    unfold Z.succ. rewrite inject_Z_plus. change (inject_Z 1) with 1. lra. }
  rewrite Qmake_Qdiv. fold S.
  split.
  - apply Qle_shift_div_l; [exact HS|].
    setoid_replace (inject_Z L / S * S) with (inject_Z L) by (field; lra).
    now rewrite <- Zle_Qle.
  - apply Qle_shift_div_r; [exact HS|].
    setoid_replace (inject_Z H / S * S) with (inject_Z H) by (field; lra).
    now rewrite <- Zle_Qle.
Qed.

(* ------------------------------------------------------------------ *)
(** ** Extrema of a finite series *)
(* ------------------------------------------------------------------ *)

Lemma fold_max_spec (xs : list number) (a : Q) :
  Forall (fun x => isFinite x = true) xs ->
  exists M,
    fold_left max xs (Fin a) = Fin M
    /\ (M = a \/ In (Fin M) xs)
    /\ a <= M
    /\ (forall q, In (Fin q) xs -> q <= M).
Proof.
  intro H. revert a. induction H as [|x rest Hx Hrest IH]; intro a.
  - exists a. repeat split; [now left | lra | intros q []].
  - destruct (isFinite_Fin x Hx) as (b & ->). cbn [fold_left].
    unfold max at 2. cbn [lt].
    destruct (Qltb a b) eqn:E.
    + apply Qltb_lt in E. destruct (IH b) as (M & EM & HM & Hb & Hall).
      exists M. split; [exact EM|]. split.
      * right. destruct HM as [->|HM]; [now left | now right].
      * split; [lra|]. intros q [Hq|Hq]; [injection Hq as <-; exact Hb|].
        now apply Hall.
    + apply Qltb_ge in E. destruct (IH a) as (M & EM & HM & Ha & Hall).
      exists M. split; [exact EM|]. split.
      * destruct HM as [->|HM]; [now left | right; now right].
      * split; [exact Ha|]. intros q [Hq|Hq]; [injection Hq as <-; lra|].
        now apply Hall.
Qed.

(** [Math.max(...xs)] of a non-empty finite series is one of its values,
    and none is above it. *)
Lemma maxList_spec (x : number) (rest : list number) :
  Forall (fun y => isFinite y = true) (x :: rest) ->
  exists M,
    maxList (x :: rest) = Fin M /\ In (Fin M) (x :: rest)
    /\ (forall q, In (Fin q) (x :: rest) -> q <= M).
Proof.
  intro H. inversion H as [|? ? Hx Hrest]; subst.
  destruct (isFinite_Fin x Hx) as (a & ->).
  unfold maxList. cbn [fold_left]. unfold max at 2. cbn [lt].
  destruct (fold_max_spec rest a Hrest) as (M & EM & HM & Ha & Hall).
  exists M. split; [exact EM|]. split.
  - destruct HM as [->|HM]; [now left | now right].
  - intros q [Hq|Hq]; [injection Hq as <-; exact Ha | now apply Hall].
Qed.

(* ------------------------------------------------------------------ *)
(** ** Bounds of the stability metrics *)
(* ------------------------------------------------------------------ *)

Lemma rampsOf_length (series : list number) :
  List.length (rampsOf series) = Nat.pred (List.length series).
Proof.
  induction series as [|prev [|cur rest] IH]; [reflexivity | reflexivity |].
  cbn [rampsOf List.length] in *. now rewrite IH.
Qed.

(** A ramp between finite values is finite and not negative. *)
Lemma rampsOf_nonNegative (series : list number) :
  Forall (fun x => isFinite x = true) series ->
  Forall nonNegative (rampsOf series).
Proof.
  induction series as [|prev [|cur rest] IH]; intro H;
    [constructor | constructor |].
  inversion H as [|? ? Hprev Hrest]; subst.
  inversion Hrest as [|? ? Hcur _]; subst.
  cbn [rampsOf]. constructor; [|now apply IH].
  destruct (isFinite_Fin prev Hprev) as (a & ->).
  destruct (isFinite_Fin cur Hcur) as (b & ->).
  cbn [sub neg add abs nonNegative]. apply Qabs_nonneg.
Qed.

Lemma ofNat_ratio (k n : nat) :
  (k <= n)%nat -> (0 < n)%nat ->
  exists q, div (ofNat k) (ofNat n) = Fin q /\ 0 <= q <= 1.
Proof.
  intros Hk Hn. destruct n as [|n]; [lia|].
  unfold ofNat, div. rewrite ofNat_S_nonzero.
  eexists. split; [reflexivity|].
  pose proof (inject_nat_pos n) as Hpos.
  assert (H0 : 0 <= inject_Z (Z.of_nat k)).
  { change 0 with (inject_Z 0). rewrite <- Zle_Qle. lia. }
  assert (H1 : inject_Z (Z.of_nat k) <= inject_Z (Z.of_nat (S n))).
  { rewrite <- Zle_Qle. lia. }
  split.
  - apply Qle_shift_div_l; [exact Hpos | lra].
  - apply Qle_shift_div_r; [exact Hpos | lra].
Qed.

(** The bounds of the stability metrics. *)
Lemma stability_metrics_range (demandData : list RTODemandData) :
  let m := calculateGridStabilityMetrics demandData in
  within 0 24 (rampingFrequency m)
  /\ nonNegative (maxHourlyRampMW m)
  /\ nonNegative (spinningReserveRequirement m)
  /\ notAbove (spinningReserveRequirement m) (maxHourlyRampMW m).
Proof.
  intro m. subst m. unfold calculateGridStabilityMetrics.
  pose proof (numericSeries_finite demandData) as Hfin.
  set (series := numericSeries demandData) in *.
  destruct (List.length series <? 2)%nat eqn:Elen.
  - cbn [rampingFrequency maxHourlyRampMW spinningReserveRequirement
         within nonNegative notAbove]. repeat split; lra.
  - apply Nat.ltb_ge in Elen.
    cbn [rampingFrequency maxHourlyRampMW spinningReserveRequirement].
    pose proof (rampsOf_nonNegative series Hfin) as Hramps.
    pose proof (rampsOf_length series) as Hlen.
    set (ramps := rampsOf series) in *.
    assert (Hmax : exists M,
               match ramps with [] => zero | _ :: _ => maxList ramps end
               = Fin M /\ 0 <= M).
    { destruct ramps as [|r rest]; [cbn [List.length] in Hlen; lia|].
      assert (Hf : Forall (fun y => isFinite y = true) (r :: rest)).
      { eapply Forall_impl; [|exact Hramps]. intros y Hy.
        now apply nonNegative_finite. }
      destruct (maxList_spec r rest Hf) as (M & EM & Hin & _).
      exists M. split; [exact EM|].
      rewrite Forall_forall in Hramps. exact (Hramps _ Hin). }
    destruct Hmax as (M & -> & HM).
    set (threshold := mul (div (sum series) (ofNat (List.length series)))
                          (Fin 0.05)).
    destruct (ofNat_ratio
                (List.length (filter (fun r => gt r threshold) ramps))
                (List.length series)) as (q & -> & Hq0 & Hq1).
    + pose proof (filter_length_le (fun r => gt r threshold) ramps). lia.
    + lia.
    + cbn [mul]. split.
      * apply (within_ext (inject_Z 0 / inject_Z (Z.pos (scale10 1))) 0
                          (inject_Z 240 / inject_Z (Z.pos (scale10 1))) 24);
          [reflexivity | reflexivity |].
        apply toFixed_within.
        -- lia.
        -- setoid_replace (inject_Z 0 / inject_Z (Z.pos (scale10 1)))
             with 0 by reflexivity. lra.
        -- setoid_replace (inject_Z 240 / inject_Z (Z.pos (scale10 1)))
             with 24 by reflexivity. lra.
        -- reflexivity.
      * split; [now apply round_nonneg|].
        split; [apply round_nonneg; lra|].
        apply round_monotone. lra.
Qed.

(** X3.  Whatever the hourly records are, [calculateGridStabilityMetrics]
    returns a ramping frequency within [0, 24] ramps per day, a maximum
    hourly ramp and a spinning reserve that are not negative, and a
    spinning reserve that does not exceed the maximum ramp. *)
Theorem stability_metrics_bounds (demandData : list RTODemandData) :
  let m := calculateGridStabilityMetrics demandData in
  within 0 24 (rampingFrequency m)
  /\ nonNegative (maxHourlyRampMW m)
  /\ nonNegative (spinningReserveRequirement m)
  /\ notAbove (spinningReserveRequirement m) (maxHourlyRampMW m).
Proof. exact (stability_metrics_range demandData). Qed.

(** Five hourly values, one missing: ramps of 3000, 1000 and 5000 MW, two
    of them above five percent of the mean. *)
Example stability_of_five_hours :
  calculateGridStabilityMetrics fiveHours
  = {| maxHourlyRampMW := Fin 5000;
       rampingFrequency := toFixed 1 (Fin 12);
       frequencyRegulationNeed := Fin 430;
       spinningReserveRequirement := Fin 2500 |}.
Proof. vm_compute. reflexivity. Qed.

(* ------------------------------------------------------------------ *)
(** ** Means of a finite series *)
(* ------------------------------------------------------------------ *)

(** The mean of a non-empty finite series lies between two bounds of its
    values. *)
Lemma mean_between (x : number) (rest : list number) (lo hi : Q) :
  Forall (fun y => isFinite y = true) (x :: rest) ->
  (forall q, In (Fin q) (x :: rest) -> lo <= q <= hi) ->
  exists a,
    div (sum (x :: rest)) (ofNat (List.length (x :: rest))) = Fin a
    /\ lo <= a <= hi.
Proof.
  intros Hfin Hall.
  destruct (sum_finite (x :: rest) Hfin) as (s & -> & Hs).
  unfold ofNat. cbn [List.length]. unfold div. rewrite ofNat_S_nonzero.
  eexists. split; [reflexivity|].
  assert (Hb : Forall (fun q => lo <= q <= hi) (map valueOf (x :: rest))).
  { apply Forall_map. apply Forall_forall. intros y Hy.
    rewrite Forall_forall in Hfin.
    destruct (isFinite_Fin y (Hfin y Hy)) as (q & ->).
    cbn [valueOf]. now apply Hall. }
  destruct (Qsum_bounds _ lo hi Hb) as [H1 H2].
  rewrite length_map in H1, H2. cbn [List.length] in H1, H2.
  pose proof (inject_nat_pos (List.length rest)) as Hn.
  rewrite <- Hs in H1, H2.
  split.
  - apply Qle_shift_div_l; [exact Hn | lra].
  - apply Qle_shift_div_r; [exact Hn | lra].
Qed.

Lemma toFixed_finite (d : nat) (x : number) :
  isFinite x = true -> isFinite (toFixed d x) = true.
Proof.
  destruct x as [q| | |]; cbn [isFinite]; try discriminate. intros _.
  unfold toFixed. destruct (Qle_bool 1e21 (Qabs q)); [reflexivity|].
  now destruct (Qltb q 0).
Qed.

(* ------------------------------------------------------------------ *)
(** ** The grid services score *)
(* ------------------------------------------------------------------ *)

Lemma capped_ratio (q c : Q) :
  0 <= q -> 0 < c ->
  exists u, min (div (Fin q) (Fin c)) one = Fin u /\ 0 <= u <= 1.
Proof.
  intros Hq Hc. unfold div.
  assert (Ez : Qeq_bool c 0 = false).
  { destruct (Qeq_bool c 0) eqn:Ez; [|reflexivity].
    apply Qeq_bool_eq in Ez. lra. }
  rewrite Ez. unfold min, one. cbn [lt].
  assert (H0 : 0 <= q / c) by (apply Qle_shift_div_l; lra).
  destruct (Qltb 1 (q / c)) eqn:E.
  - exists 1. split; [reflexivity | lra].
  - apply Qltb_ge in E. exists (q / c). split; [reflexivity | lra].
Qed.

(** The grid services formula stays within [0, 100] on metrics that are
    not negative. *)
Lemma gridServicesRaw_in_range (st : GridStabilityMetrics) :
  nonNegative (maxHourlyRampMW st) ->
  nonNegative (rampingFrequency st) ->
  nonNegative (frequencyRegulationNeed st) ->
  inScoreRange (gridServicesRaw st).
Proof.
  unfold gridServicesRaw.
  destruct (maxHourlyRampMW st) as [a| | |]; cbn [nonNegative]; try tauto.
  destruct (rampingFrequency st) as [b| | |]; cbn [nonNegative]; try tauto.
  destruct (frequencyRegulationNeed st) as [c| | |]; cbn [nonNegative];
    try tauto.
  intros Ha Hb Hc.
  destruct (capped_ratio a 1000 Ha) as (u & -> & Hu); [lra|].
  destruct (capped_ratio b 10 Hb) as (v & -> & Hv); [lra|].
  destruct (capped_ratio c 500 Hc) as (w & -> & Hw); [lra|].
  cbn [mul add]. apply round_in_range. split; lra.
Qed.

(** With hourly values that are not negative the regulation need is not
    negative. *)
Lemma regulation_nonNegative (demandData : list RTODemandData) :
  Forall noNegativeValue demandData ->
  nonNegative
    (frequencyRegulationNeed (calculateGridStabilityMetrics demandData)).
Proof.
  intro Hd. unfold calculateGridStabilityMetrics.
  pose proof (numericSeries_finite demandData) as Hfin.
  assert (Hpos : forall q, In (Fin q) (numericSeries demandData) -> 0 <= q).
  { intros q Hq. apply numericSeries_In in Hq.
    destruct Hq as (d & Hin & Hv & _).
    rewrite Forall_forall in Hd. exact (Hd d Hin q Hv). }
  destruct (List.length (numericSeries demandData) <? 2)%nat eqn:Elen.
  - cbn [frequencyRegulationNeed nonNegative]. lra.
  - apply Nat.ltb_ge in Elen. cbn [frequencyRegulationNeed].
    destruct (numericSeries demandData) as [|x rest];
      [cbn [List.length] in Elen; lia|].
    destruct (maxList_spec x rest Hfin) as (M & _ & _ & HM).
    destruct (mean_between x rest 0 M Hfin) as (a & -> & Ha & _).
    { intros q Hq. split; [now apply Hpos | now apply HM]. }
    cbn [mul]. apply round_nonneg. lra.
Qed.

(** X6.  For a region whose finite hourly values are not negative, the
    grid services score is within [0, 100] before the clamp: the value
    returned is the rounded formula itself. *)
Theorem grid_services_score_unclamped (now reg : string)
  (capacityData : list CapacityByFuelData) (demandData : list RTODemandData)
  (generationData : list GenerationData) (priceData : list RetailPriceData) :
  Forall noNegativeValue demandData ->
  let m := analyzeStorageOpportunity now reg capacityData demandData
             generationData priceData in
  gridServicesScore (storageOpportunityScore m)
  = gridServicesRaw (gridStability m)
  /\ inScoreRange (gridServicesScore (storageOpportunityScore m)).
Proof.
  intros Hd m. subst m. unfold analyzeStorageOpportunity.
  cbn [storageOpportunityScore gridStability].
  score_fields.
  destruct (stability_metrics_range demandData) as (Hfreq & Hramp & _).
  pose proof (regulation_nonNegative demandData Hd) as Hreg.
  assert (Hg : inScoreRange
                 (gridServicesRaw (calculateGridStabilityMetrics demandData))).
  { apply gridServicesRaw_in_range; [exact Hramp | | exact Hreg].
    destruct (within_value _ _ _ Hfreq) as (q & -> & Hq). cbn [nonNegative].
    lra. }
  rewrite (clamp_id _ Hg). now split.
Qed.

(** The theorem at the sample region: 96. *)
Lemma grid_services_score_unclamped_witness :
  Forall noNegativeValue fiveHours
  /\ gridServicesRaw (calculateGridStabilityMetrics fiveHours) = Fin 96
  /\ inScoreRange
       (gridServicesScore
          (storageOpportunityScore
             (analyzeStorageOpportunity "2024-07-01T00:00:00.000Z" "TX"
                mixedFleet fiveHours someGeneration pricesWithGap))).
Proof.
  assert (H : Forall noNegativeValue fiveHours).
  { repeat constructor; intros q E; try discriminate E;
      injection E as <-; apply Qle_bool_imp_le; reflexivity. }
  split; [exact H|]. split; [vm_compute; reflexivity|].
  exact (proj2
           (grid_services_score_unclamped "2024-07-01T00:00:00.000Z"
              "TX" mixedFleet fiveHours someGeneration pricesWithGap H)).
Defined.

(* ------------------------------------------------------------------ *)
(** ** The primary driver *)
(* ------------------------------------------------------------------ *)

(** X7.  On finite sub-scores [identifyPrimaryDriver] names a driver whose
    sub-score no other sub-score exceeds, and among equal maxima the one
    that comes first in the order Peak Shaving, Renewable Integration,
    Grid Services, Economic Arbitrage. *)
Theorem primary_driver_is_first_maximum (s : StorageOpportunityScore) :
  finiteSubScores s ->
  let w := identifyPrimaryDriver s in
  In w driverNames
  /\ (forall n, In n driverNames ->
        notAbove (driverScore s n) (driverScore s w))
  /\ (forall n, In n driverNames -> (driverRank n < driverRank w)%nat ->
        below (driverScore s n) (driverScore s w)).
Proof.
  intros (Hp & Hr & Hg & He) w. subst w.
  unfold identifyPrimaryDriver, driverScore, driverNames.
  destruct (isFinite_Fin _ Hp) as (p & ->).
  destruct (isFinite_Fin _ Hr) as (r & ->).
  destruct (isFinite_Fin _ Hg) as (g & ->).
  destruct (isFinite_Fin _ He) as (e & ->).
  cbn [fold_left score name gt lt].
  destruct (Qltb p r) eqn:E1; cbn [score name gt lt].
  - apply Qltb_lt in E1.
    destruct (Qltb r g) eqn:E2; cbn [score name gt lt].
    + apply Qltb_lt in E2.
      destruct (Qltb g e) eqn:E3; cbn [score name];
        [apply Qltb_lt in E3 | apply Qltb_ge in E3];
        (split; [cbn [In]; tauto|]);
        split; intros n [<-|[<-|[<-|[<-|[]]]]]; cbn; intros; lra || lia.
    + apply Qltb_ge in E2.
      destruct (Qltb r e) eqn:E3; cbn [score name];
        [apply Qltb_lt in E3 | apply Qltb_ge in E3];
        (split; [cbn [In]; tauto|]);
        split; intros n [<-|[<-|[<-|[<-|[]]]]]; cbn; intros; lra || lia.
  - apply Qltb_ge in E1.
    destruct (Qltb p g) eqn:E2; cbn [score name gt lt].
    + apply Qltb_lt in E2.
      destruct (Qltb g e) eqn:E3; cbn [score name];
        [apply Qltb_lt in E3 | apply Qltb_ge in E3];
        (split; [cbn [In]; tauto|]);
        split; intros n [<-|[<-|[<-|[<-|[]]]]]; cbn; intros; lra || lia.
    + apply Qltb_ge in E2.
      destruct (Qltb p e) eqn:E3; cbn [score name];
        [apply Qltb_lt in E3 | apply Qltb_ge in E3];
        (split; [cbn [In]; tauto|]);
        split; intros n [<-|[<-|[<-|[<-|[]]]]]; cbn; intros; lra || lia.
Qed.

(** The theorem at sub-scores 40, 75, 75, 50: the tie goes to Renewable
    Integration. *)
Lemma primary_driver_is_first_maximum_witness :
  finiteSubScores tiedScores
  /\ identifyPrimaryDriver tiedScores = "Renewable Integration"
  /\ In (identifyPrimaryDriver tiedScores) driverNames.
Proof.
  assert (H : finiteSubScores tiedScores) by (repeat split).
  split; [exact H|]. split; [reflexivity|].
  exact (proj1 (primary_driver_is_first_maximum tiedScores H)).
Defined.

(* ------------------------------------------------------------------ *)
(** ** The batch of regions *)
(* ------------------------------------------------------------------ *)

Lemma analyzeRegion_resultRegion (now : string) (repo : ElectricityRepository)
  (hourly : bool) (reg : string) :
  resultRegion (analyzeRegion now repo hourly reg) = reg.
Proof.
  unfold analyzeRegion. destruct (fetchRegion repo hourly reg) as [m|data];
    [reflexivity|].
  now destruct (capacityData data).
Qed.

(** The metrics of a region are those of its fetched data, under its
    name. *)
Lemma analyzeRegion_metrics (now : string) (repo : ElectricityRepository)
  (hourly : bool) (reg : string) (m : EnergyStorageOpportunityMetrics) :
  metrics (analyzeRegion now repo hourly reg) = Some m ->
  exists data,
    fetchRegion repo hourly reg = Resolved data
    /\ capacityData data <> []
    /\ m = analyzeStorageOpportunity now reg (capacityData data)
             (demandData data) (generationData data) (priceData data).
Proof.
  unfold analyzeRegion. destruct (fetchRegion repo hourly reg) as [e|data];
    [discriminate|].
  destruct (capacityData data) as [|c rest] eqn:Ec; [discriminate|].
  cbn [metrics]. intro H. injection H as <-.
  exists data. rewrite Ec. repeat split. discriminate.
Qed.

(** The regions of the successful and of the failed results are the
    regions of the batch. *)
Lemma results_account_for_regions (now : string)
  (repo : ElectricityRepository) (hourly : bool) (regions : list string) :
  Permutation regions
    (map region (successfulOf (map (analyzeRegion now repo hourly) regions))
     ++ map resultRegion
          (failedOf (map (analyzeRegion now repo hourly) regions))).
Proof.
  induction regions as [|reg rest IH]; [constructor|].
  cbn [map successfulOf failedOf filter].
  fold (failedOf (map (analyzeRegion now repo hourly) rest)).
  pose proof (analyzeRegion_resultRegion now repo hourly reg) as Hreg.
  destruct (analyzeRegion_outcome now repo hourly reg)
    as [(m & Em & Ee)|(e & Em & Ee)]; rewrite Em, Ee.
  - destruct (analyzeRegion_metrics now repo hourly reg m Em)
      as (data & _ & _ & ->).
    cbn [map app region]. now constructor.
  - cbn [map]. rewrite Hreg. now apply Permutation_cons_app.
Qed.

(** X8.  With a usable key the tool accounts for every region of the
    batch exactly once: the regions of [detailedResults] followed by those
    of [failedRegions] are a rearrangement of the regions asked for; the
    summary counts the regions asked for and the successful ones; and
    every failed entry carries an error and no metrics. *)
Theorem batch_regions_accounted_once
  (extraArgsApiKey configApiKey : option string) (key : string)
  (connect : string -> ElectricityRepository) (now : string)
  (regions : list string) (hourly : bool) :
  firstKey extraArgsApiKey configApiKey = Some key -> key <> "" ->
  exists out,
    findHighPotentialEnergyStorageAreas extraArgsApiKey configApiKey connect
      now regions hourly = Returns out
    /\ Permutation regions
         (map region (detailedResults out)
          ++ map resultRegion (failedRegions out))
    /\ regionsAnalyzed (summary out) = List.length regions
    /\ successfulAnalyses (summary out) = List.length (detailedResults out)
    /\ Forall (fun r => metrics r = None /\ error r <> None)
         (failedRegions out).
Proof.
  intros Hk Hne. unfold findHighPotentialEnergyStorageAreas. rewrite Hk.
  apply String.eqb_neq in Hne. rewrite Hne.
  eexists. split; [reflexivity|].
  cbn [detailedResults failedRegions summary regionsAnalyzed
       successfulAnalyses].
  split.
  - apply perm_trans with
      (map region
         (successfulOf (map (analyzeRegion now (connect key) hourly) regions))
       ++ map resultRegion
            (failedOf (map (analyzeRegion now (connect key) hourly) regions)))%list.
    + apply results_account_for_regions.
    + apply Permutation_app_tail. apply Permutation_map.
      apply Permutation_sym. apply sortBy_Permutation.
  - split; [reflexivity|]. split.
    + symmetry. apply Permutation_length. apply sortBy_Permutation.
    + apply Forall_forall. intros r Hr. unfold failedOf in Hr.
      apply filter_In in Hr. destruct Hr as [Hin He].
      apply in_map_iff in Hin. destruct Hin as (reg & <- & _).
      destruct (analyzeRegion_outcome now (connect key) hourly reg)
        as [(m & Em & Ee)|(e & Em & Ee)].
      * rewrite Ee in He. discriminate.
      * split; [exact Em | rewrite Ee; discriminate].
Qed.

(** The theorem at the batch AA, BB, CC with BB failing. *)
Lemma batch_regions_accounted_once_witness :
  exists out,
    findHighPotentialEnergyStorageAreas None (Some "k-123")
      (fun _ => threeRegions) "2024-07-01T00:00:00.000Z" ["AA"; "BB"; "CC"]
      true = Returns out
    /\ Permutation ["AA"; "BB"; "CC"]
         (map region (detailedResults out)
          ++ map resultRegion (failedRegions out))
    /\ map region (detailedResults out) = ["CC"; "AA"]
    /\ map resultRegion (failedRegions out) = ["BB"].
Proof.
  destruct (batch_regions_accounted_once None (Some "k-123") "k-123"
              (fun _ => threeRegions) "2024-07-01T00:00:00.000Z"
              ["AA"; "BB"; "CC"] true)
    as (out & Hout & Hperm & _).
  - reflexivity.
  - discriminate.
  - exists out. split; [exact Hout|]. split; [exact Hperm|].
    vm_compute in Hout. injection Hout as <-. split; reflexivity.
Defined.

(* ------------------------------------------------------------------ *)
(** ** The API key *)
(* ------------------------------------------------------------------ *)

Lemma usableKey_dec (k : option string) : usableKey k \/ ~ usableKey k.
Proof.
  destruct k as [s|].
  - destruct (String.eqb s "") eqn:E.
    + right. intros (s' & H & Hne). injection H as <-.
      apply String.eqb_eq in E. contradiction.
    + left. exists s. split; [reflexivity|]. now apply String.eqb_neq.
  - right. intros (s & H & _). discriminate.
Qed.

Lemma firstKey_usable (a b : option string) (s : string) :
  a = Some s -> s <> "" -> firstKey a b = Some s.
Proof.
  intros -> Hne. unfold firstKey. apply String.eqb_neq in Hne.
  now rewrite Hne.
Qed.

Lemma firstKey_fallback (a b : option string) :
  ~ usableKey a -> firstKey a b = b.
Proof.
  intro H. unfold firstKey. destruct a as [s|]; [|reflexivity].
  destruct (String.eqb s "") eqn:E; [reflexivity|].
  exfalso. apply H. exists s. split; [reflexivity|]. now apply String.eqb_neq.
Qed.

(** X10.  The tool returns exactly when the request or the configuration
    holds a key that is not empty, and throws the authentication message
    otherwise.  A usable key of the request takes precedence over the
    configured one, and a missing or empty key of the request falls back
    to the configured one. *)
Theorem api_key_resolution
  (extraArgsApiKey configApiKey : option string)
  (connect : string -> ElectricityRepository) (now : string)
  (regions : list string) (hourly : bool) :
  let call := fun extra config =>
    findHighPotentialEnergyStorageAreas extra config connect now regions
      hourly in
  ((usableKey extraArgsApiKey \/ usableKey configApiKey)
   <-> exists out, call extraArgsApiKey configApiKey = Returns out)
  /\ (call extraArgsApiKey configApiKey = Throws apiKeyErrorMessage
      <-> ~ (usableKey extraArgsApiKey \/ usableKey configApiKey))
  /\ (usableKey extraArgsApiKey ->
      call extraArgsApiKey configApiKey = call extraArgsApiKey None)
  /\ (~ usableKey extraArgsApiKey ->
      call extraArgsApiKey configApiKey = call None configApiKey).
Proof.
  intro call. subst call. cbv beta.
  unfold findHighPotentialEnergyStorageAreas.
  destruct (usableKey_dec extraArgsApiKey) as [(s & -> & Hs)|Hno].
  - rewrite !(firstKey_usable (Some s) _ s eq_refl Hs).
    pose proof Hs as Hs'. apply String.eqb_neq in Hs'. rewrite Hs'.
    split; [split; [intros _; now eexists | intros _; left; now exists s]|].
    split; [split; [discriminate | intros H; exfalso; apply H; left;
                                    now exists s]|].
    split; [reflexivity|].
    intro H. exfalso. apply H. now exists s.
  - rewrite (firstKey_fallback _ configApiKey Hno).
    rewrite (firstKey_fallback _ None Hno).
    split; [|split; [|split; [tauto | reflexivity]]].
    + destruct configApiKey as [c|].
      * destruct (String.eqb c "") eqn:E.
        -- split; [|intros (out & H); discriminate].
           intros [H|(c' & H & Hne)]; [contradiction|].
           injection H as <-. apply String.eqb_eq in E. contradiction.
        -- split; [intros _; now eexists|].
           intros _. right. exists c. split; [reflexivity|].
           now apply String.eqb_neq.
      * split; [|intros (out & H); discriminate].
        intros [H|(c' & H & _)]; [contradiction | discriminate].
    + destruct configApiKey as [c|].
      * destruct (String.eqb c "") eqn:E.
        -- split; [|reflexivity]. intros _ [H|(c' & H & Hne)];
             [contradiction|].
           injection H as <-. apply String.eqb_eq in E. contradiction.
        -- split; [discriminate|]. intro H. exfalso. apply H. right.
           exists c. split; [reflexivity|]. now apply String.eqb_neq.
      * split; [|reflexivity]. intros _ [H|(c' & H & _)];
          [contradiction | discriminate].
Qed.

(** An empty key in the request and none in the configuration: the tool
    throws, whatever the repository is. *)
Example empty_key_throws :
  findHighPotentialEnergyStorageAreas (Some "") None (fun _ => threeRegions)
    "2024-07-01T00:00:00.000Z" ["AA"] false
  = Throws apiKeyErrorMessage.
Proof. reflexivity. Qed.

(* ------------------------------------------------------------------ *)
(** ** The state profile summary *)
(* ------------------------------------------------------------------ *)

Lemma nullOrFinite_value (x : option number) :
  nullOrFinite x -> exists q, x = ofOptionQ q.
Proof.
  destruct x as [[q| | |]|]; cbn [nullOrFinite]; try tauto; intros _.
  - now exists (Some q).
  - now exists None.
Qed.

Lemma getTrend_nullable (latest previous : option Q) :
  getTrend (ofOptionQ latest) (ofOptionQ previous)
  = if Qltb (deadband (valueOrZero previous))
            (valueOrZero latest - valueOrZero previous) then up
    else if Qltb (valueOrZero latest - valueOrZero previous)
                 (- deadband (valueOrZero previous)) then down
    else flat.
Proof.
  destruct latest as [a|], previous as [b|]; apply getTrend_finite.
Qed.

(** X11.  In the state profile summary the trend of a metric never
    contradicts its year-over-year delta: the trend is [up] only when the
    delta is positive, [down] only when it is negative, and a delta of
    zero is always [flat]; a missing latest or previous value counts as
    [0] in both. *)
Theorem profile_trend_agrees_with_delta
  (field : Tools.StateProfileData -> option number)
  (data : list Tools.StateProfileData) :
  finiteProfile field data ->
  let m := Tools.profileMetric field data in
  (Tools.trend m = up -> below zero (Tools.yoyDelta m))
  /\ (Tools.trend m = down -> below (Tools.yoyDelta m) zero)
  /\ (sameNumber (Tools.yoyDelta m) zero -> Tools.trend m = flat).
Proof.
  intros Hfin m. subst m. unfold Tools.profileMetric.
  cbn [Tools.trend Tools.yoyDelta].
  assert (Ha : exists a, Tools.fieldOf field (nth_error data 0) = ofOptionQ a).
  { destruct data as [|d0 rest]; [now exists None|].
    apply nullOrFinite_value. apply Hfin. now left. }
  assert (Hb : exists b, Tools.fieldOf field (nth_error data 1) = ofOptionQ b).
  { destruct data as [|d0 [|d1 rest]]; [now exists None | now exists None|].
    apply nullOrFinite_value. apply Hfin. right. now left. }
  destruct Ha as (a & ->). destruct Hb as (b & ->).
  rewrite getTrend_nullable.
  assert (Hd : sub (nullish (ofOptionQ a) zero) (nullish (ofOptionQ b) zero)
               = Fin (valueOrZero a + - valueOrZero b)).
  { destruct a, b; reflexivity. }
  rewrite Hd. unfold zero. cbn [below sameNumber].
  pose proof (deadband_pos (valueOrZero b)) as Hpos.
  destruct (Qltb (deadband (valueOrZero b)) (valueOrZero a - valueOrZero b))
    eqn:E1.
  - apply Qltb_lt in E1.
    repeat split; intros; try discriminate; lra.
  - apply Qltb_ge in E1.
    destruct (Qltb (valueOrZero a - valueOrZero b)
                   (- deadband (valueOrZero b))) eqn:E2.
    + apply Qltb_lt in E2.
      repeat split; intros; try discriminate; lra.
    + repeat split; intros; try discriminate; reflexivity.
Qed.

(** The theorem at five years of net generation: from 525000 to 540000
    the delta is 15000 and the trend [up]. *)
Lemma profile_trend_agrees_with_delta_witness :
  finiteProfile Tools.net_generation fiveYears
  /\ Tools.profileMetric Tools.net_generation fiveYears
     = {| Tools.latestValue := Some (Fin 540000);
          Tools.yoyDelta := Fin (540000 + - 525000);
          Tools.trend := up |}
  /\ below zero
       (Tools.yoyDelta (Tools.profileMetric Tools.net_generation fiveYears)).
Proof.
  assert (H : finiteProfile Tools.net_generation fiveYears).
  { intros d [<-|[<-|[]]]; exact I. }
  split; [exact H|]. split; [reflexivity|].
  apply (proj1 (profile_trend_agrees_with_delta Tools.net_generation
                  fiveYears H)).
  reflexivity.
Defined.

(* ------------------------------------------------------------------ *)
(** ** Capacity and utilization of a state *)
(* ------------------------------------------------------------------ *)

Lemma filter_app_none {A : Type} (f : A -> bool) (l older : list A) :
  Forall (fun x => f x = false) older -> filter f (l ++ older) = filter f l.
Proof.
  intro H. rewrite filter_app.
  assert (E : filter f older = []).
  { induction H as [|x rest Hx Hrest IH]; [reflexivity|].
    cbn [filter]. now rewrite Hx. }
  rewrite E. apply app_nil_r.
Qed.

Lemma regionalMetrics_latest_only (reg : string) (first : OperatingCapacity)
  (rest older : list OperatingCapacity) :
  Forall (fun d => String.eqb (oc_period d) (oc_period first) = false) older ->
  CapacityAnalyzer.calculateRegionalMetrics reg ((first :: rest) ++ older)
  = CapacityAnalyzer.calculateRegionalMetrics reg (first :: rest).
Proof.
  intro H. unfold CapacityAnalyzer.calculateRegionalMetrics.
  cbn [app]. destruct (String.eqb (oc_period first) ""); [reflexivity|].
  change (first :: (rest ++ older)%list) with ((first :: rest) ++ older)%list.
  now rewrite filter_app_none.
Qed.

Lemma utilization_latest_only (cm : CapacityAnalyzer.RegionalCapacityMetrics)
  (first : GenerationData) (rest older : list GenerationData) :
  Forall (fun d => String.eqb (period d) (period first) = false) older ->
  CapacityAnalyzer.calculateCapacityUtilization cm ((first :: rest) ++ older)
  = CapacityAnalyzer.calculateCapacityUtilization cm (first :: rest).
Proof.
  intro H. unfold CapacityAnalyzer.calculateCapacityUtilization.
  cbn [app].
  destruct (le (CapacityAnalyzer.totalSummerCapacityMW cm) zero);
    [reflexivity|].
  change (first :: (rest ++ older)%list) with ((first :: rest) ++ older)%list.
  now rewrite filter_app_none.
Qed.

(** X12.  The capacity and utilization of a state use the records of the
    latest period only, the period of the first capacity record and the
    period of the first generation record: capacity and generation records
    of any other period that follow leave every field of the result
    unchanged. *)
Theorem capacity_and_utilization_latest_only (reg : string)
  (capacityData olderCapacity : list OperatingCapacity)
  (generationData olderGeneration : list GenerationData)
  (firstCapacity : OperatingCapacity) (firstGeneration : GenerationData) :
  nth_error capacityData 0 = Some firstCapacity ->
  nth_error generationData 0 = Some firstGeneration ->
  Forall (fun d => oc_period d <> oc_period firstCapacity) olderCapacity ->
  Forall (fun d => period d <> period firstGeneration) olderGeneration ->
  Tools.capacityAndUtilization reg (capacityData ++ olderCapacity)
    (generationData ++ olderGeneration)
  = Tools.capacityAndUtilization reg capacityData generationData.
Proof.
  intros Hc Hg Holdc Holdg.
  destruct capacityData as [|c crest]; [discriminate|].
  destruct generationData as [|g grest]; [discriminate|].
  cbn [nth_error] in Hc, Hg. injection Hc as <-. injection Hg as <-.
  unfold Tools.capacityAndUtilization.
  rewrite regionalMetrics_latest_only, utilization_latest_only.
  - reflexivity.
  - eapply Forall_impl; [|exact Holdg]. intros d Hd.
    now apply String.eqb_neq.
  - eapply Forall_impl; [|exact Holdc]. intros d Hd.
    now apply String.eqb_neq.
Qed.

(** The theorem at the June records followed by the May records: 100 MW
    and a ratio of [0.5]. *)
Lemma capacity_and_utilization_latest_only_witness :
  Tools.capacityAndUtilization "TX" (juneFleet ++ mayFleet)
    (juneGeneration ++ mayGeneration)
  = Tools.capacityAndUtilization "TX" juneFleet juneGeneration
  /\ Tools.cu_totalSummerCapacityMW
       (Tools.capacityAndUtilization "TX" (juneFleet ++ mayFleet)
          (juneGeneration ++ mayGeneration))
     = Fin (0 + 60 + 40)
  /\ CapacityAnalyzer.utilization
       (Tools.cu_utilization
          (Tools.capacityAndUtilization "TX" (juneFleet ++ mayFleet)
             (juneGeneration ++ mayGeneration)))
     = Some (toFixed 4 (Fin 0.5)).
Proof.
  split.
  - apply (capacity_and_utilization_latest_only "TX" juneFleet mayFleet
             juneGeneration mayGeneration
             (generator "2024-06" "NG" (Some (Fin 60)) (Some (Fin 65)))
             {| period := "2024-06"; generation := Some (Fin 36525);
                total_consumption := Some (Fin 1200) |});
      [reflexivity | reflexivity | |];
      repeat constructor; discriminate.
  - split; vm_compute; reflexivity.
Defined.

(* ------------------------------------------------------------------ *)
(** ** Price statistics: [basicStats] against [calculateEconomicMetrics] *)
(* ------------------------------------------------------------------ *)




















(* ------------------------------------------------------------------ *)
(** ** The resource manager *)
(* ------------------------------------------------------------------ *)

Lemma filter_twice {A : Type} (f g : A -> bool) (l : list A) :
  filter f (filter g l) = filter (fun x => g x && f x) l.
Proof.
  induction l as [|x rest IH]; cbn; [reflexivity|].
  destruct (g x); cbn; [|exact IH]. destruct (f x); now rewrite IH.
Qed.

Section ManagerFacts.

Context {T : Type}.

Implicit Types (resources : ResourceManager.Resources T).
Implicit Types (info : ResourceManager.ResourceInfo T).

Lemma mapGet_mapSet_same (key : string) info resources :
  ResourceManager.mapGet key (ResourceManager.mapSet key info resources)
  = Some info.
Proof.
  induction resources as [|[k i] rest IH]; cbn.
  - now rewrite String.eqb_refl.
  - destruct (String.eqb k key) eqn:E; cbn; rewrite E; [reflexivity|exact IH].
Qed.

Lemma mapGet_None (key : string) resources :
  ResourceManager.mapGet key resources = None <-> ~ In key (keysOf resources).
Proof.
  induction resources as [|[k i] rest IH]; cbn.
  - tauto.
  - destruct (String.eqb k key) eqn:E.
    + apply String.eqb_eq in E. split; [discriminate|]. intro H. tauto.
    + apply String.eqb_neq in E. rewrite IH. tauto.
Qed.

Lemma mapGet_In (key : string) info resources :
  ResourceManager.mapGet key resources = Some info -> In (key, info) resources.
Proof.
  induction resources as [|[k i] rest IH]; cbn; [discriminate|].
  destruct (String.eqb k key) eqn:E.
  - apply String.eqb_eq in E. intros [= <-]. left. now subst.
  - intro H. right. now apply IH.
Qed.

Lemma In_mapGet (key : string) info resources :
  distinctKeys resources -> In (key, info) resources ->
  ResourceManager.mapGet key resources = Some info.
Proof.
  unfold distinctKeys, keysOf.
  induction resources as [|[k i] rest IH]; cbn; [tauto|].
  intros Hnd [Hin|Hin].
  - injection Hin as -> ->. now rewrite String.eqb_refl.
  - inversion Hnd as [|? ? Hnot Hrest]; subst.
    destruct (String.eqb k key) eqn:E; [|now apply IH].
    apply String.eqb_eq in E. subst k. exfalso. apply Hnot.
    change key with (fst (key, info)). now apply in_map.
Qed.

Lemma keysOf_mapSet_present (key : string) info info' resources :
  ResourceManager.mapGet key resources = Some info' ->
  keysOf (ResourceManager.mapSet key info resources) = keysOf resources.
Proof.
  unfold keysOf.
  induction resources as [|[k i] rest IH]; cbn; [discriminate|].
  destruct (String.eqb k key) eqn:E; cbn; [reflexivity|].
  intro H. now rewrite IH.
Qed.

Lemma mapSet_absent (key : string) info resources :
  ResourceManager.mapGet key resources = None ->
  ResourceManager.mapSet key info resources = (resources ++ [(key, info)])%list.
Proof.
  induction resources as [|[k i] rest IH]; cbn; [reflexivity|].
  destruct (String.eqb k key) eqn:E; [discriminate|].
  intro H. now rewrite IH.
Qed.

Lemma mapSet_Forall_at (P : string * ResourceManager.ResourceInfo T -> Prop)
  (key : string) info resources :
  P (key, info) ->
  Forall P resources ->
  Forall P (ResourceManager.mapSet key info resources).
Proof.
  intros Hnew H. induction H as [|[k i] rest Hx Hrest IH]; cbn.
  - constructor; [exact Hnew|constructor].
  - destruct (String.eqb k key) eqn:E; constructor; auto.
    apply String.eqb_eq in E. now subst k.
Qed.

Lemma mapDelete_filter (key : string) resources :
  distinctKeys resources ->
  ResourceManager.mapDelete key resources
  = filter (fun entry => negb (String.eqb (fst entry) key)) resources.
Proof.
  unfold distinctKeys, keysOf.
  induction resources as [|[k i] rest IH]; cbn; [reflexivity|].
  intro Hnd. inversion Hnd as [|? ? Hnot Hrest]; subst.
  destruct (String.eqb k key) eqn:E; cbn.
  - apply String.eqb_eq in E. subst k.
    symmetry. apply forallb_filter_id. apply forallb_forall.
    intros [k' i'] Hin. cbn. apply negb_true_iff. apply String.eqb_neq.
    intros ->. apply Hnot. change key with (fst (key, i')). now apply in_map.
  - now rewrite IH.
Qed.

Lemma filter_distinctKeys
  (f : string * ResourceManager.ResourceInfo T -> bool) resources :
  distinctKeys resources -> distinctKeys (filter f resources).
Proof.
  unfold distinctKeys, keysOf.
  induction resources as [|[k i] rest IH]; cbn; [auto|].
  intro Hnd. inversion Hnd as [|? ? Hnot Hrest]; subst.
  destruct (f (k, i)); cbn; [|now apply IH].
  constructor; [|now apply IH].
  intro Hin. apply Hnot. apply in_map_iff in Hin.
  destruct Hin as (e & He & Hin). apply filter_In in Hin.
  apply in_map_iff. exists e. tauto.
Qed.

(** One turn of the cleanup loop removes the entry of the key when it is
    inactive and its cleanup succeeds. *)
Lemma cleanupKey_filter (now interval : Z) (key : string) resources :
  distinctKeys resources ->
  ResourceManager.cleanupKey now interval resources key
  = filter (fun entry =>
              negb (String.eqb (fst entry) key) || keptBy now interval entry)
      resources.
Proof.
  intro Hnd. unfold ResourceManager.cleanupKey.
  destruct (ResourceManager.mapGet key resources) as [info|] eqn:Eget.
  - pose proof (mapGet_In _ _ _ Eget) as Hin.
    assert (Hkey : forall e, In e resources ->
              String.eqb (fst e) key = true -> e = (key, info)).
    { intros [k i] He Hk. cbn in Hk. apply String.eqb_eq in Hk. subst k.
      pose proof (In_mapGet _ _ _ Hnd He) as E. rewrite Eget in E.
      now injection E as ->. }
    destruct (ResourceManager.inactive now interval info
              && ResourceManager.cleaned info) eqn:Egone.
    + apply andb_true_iff in Egone. destruct Egone as [E1 E2].
      rewrite E1, E2. rewrite (mapDelete_filter _ _ Hnd).
      apply filter_ext_in. intros e He.
      destruct (String.eqb (fst e) key) eqn:Ek; cbn; [|reflexivity].
      rewrite (Hkey e He Ek). unfold keptBy. cbn. now rewrite E1, E2.
    + assert (Hsame : (if ResourceManager.inactive now interval info
                       then if ResourceManager.cleaned info
                            then ResourceManager.mapDelete key resources
                            else resources
                       else resources) = resources).
      { destruct (ResourceManager.inactive now interval info); [|reflexivity].
        cbn in Egone. now rewrite Egone. }
      rewrite Hsame. symmetry. apply forallb_filter_id. apply forallb_forall.
      intros e He.
      destruct (String.eqb (fst e) key) eqn:Ek; cbn; [|reflexivity].
      rewrite (Hkey e He Ek). unfold keptBy. cbn. now rewrite Egone.
  - symmetry. apply forallb_filter_id. apply forallb_forall.
    intros [k i] He. cbn.
    destruct (String.eqb k key) eqn:Ek; cbn; [|reflexivity].
    apply String.eqb_eq in Ek. subst k. exfalso.
    apply mapGet_None in Eget. apply Eget.
    change key with (fst (key, i)). unfold keysOf. now apply in_map.
Qed.

Lemma cleanup_loop_filter (now interval : Z) (keys : list string) :
  forall resources,
  distinctKeys resources ->
  fold_left (ResourceManager.cleanupKey now interval) keys resources
  = filter (fun entry =>
              negb (existsb (String.eqb (fst entry)) keys)
              || keptBy now interval entry)
      resources.
Proof.
  induction keys as [|key rest IH]; intros resources Hnd; cbn [fold_left].
  - symmetry. apply forallb_filter_id. apply forallb_forall. reflexivity.
  - rewrite (cleanupKey_filter _ _ _ _ Hnd).
    rewrite IH by now apply filter_distinctKeys.
    rewrite filter_twice. apply filter_ext. intros e. cbn [existsb].
    destruct (String.eqb (fst e) key), (existsb (String.eqb (fst e)) rest),
      (keptBy now interval e); reflexivity.
Qed.

Lemma cleanup_is_filter (now interval : Z) resources :
  distinctKeys resources ->
  ResourceManager.cleanupInactiveResources now interval resources
  = filter (keptBy now interval) resources.
Proof.
  intro Hnd. unfold ResourceManager.cleanupInactiveResources.
  rewrite (cleanup_loop_filter _ _ _ _ Hnd).
  apply filter_ext_in. intros e He.
  destruct (keptBy now interval e) eqn:Ek; [apply orb_true_r|].
  rewrite orb_false_r. apply negb_false_iff. apply existsb_exists.
  exists (fst e). split; [|apply String.eqb_refl].
  unfold ResourceManager.keysToRemove. apply in_map. apply filter_In.
  split; [exact He|]. unfold keptBy in Ek. apply negb_false_iff in Ek.
  now apply andb_true_iff in Ek.
Qed.

(** What [getResource] leaves in the map for the key it resolved. *)
Lemma getResource_cached (now : Z) (uuid key type : string)
  (factoryFn : string -> Promise T) (cleanup : T -> Promise unit)
  resources resources' (r : T) :
  ResourceManager.getResource now uuid key type factoryFn cleanup resources
  = (resources', Resolved r) ->
  exists info,
    ResourceManager.mapGet key resources' = Some info
    /\ ResourceManager.resource info = r
    /\ ResourceManager.lastUsed info = now.
Proof.
  unfold ResourceManager.getResource.
  destruct (ResourceManager.mapGet key resources) as [existing|] eqn:Eget.
  - intros [= <- <-]. eexists. split; [apply mapGet_mapSet_same|].
    split; reflexivity.
  - destruct (factoryFn key) as [message|newResource]; [discriminate|].
    intros [= <- <-]. eexists. split; [apply mapGet_mapSet_same|].
    split; reflexivity.
Qed.

Lemma getResource_keys (now : Z) (uuid key type : string)
  (factoryFn : string -> Promise T) (cleanup : T -> Promise unit) resources :
  let after :=
    fst (ResourceManager.getResource now uuid key type factoryFn cleanup
           resources) in
  (In key (keysOf resources) -> keysOf after = keysOf resources)
  /\ (~ In key (keysOf resources) ->
      keysOf after = keysOf resources
      \/ keysOf after = (keysOf resources ++ [key])%list).
Proof.
  cbv zeta. unfold ResourceManager.getResource.
  destruct (ResourceManager.mapGet key resources) as [existing|] eqn:Eget.
  - cbn [fst]. rewrite (keysOf_mapSet_present _ _ _ _ Eget). tauto.
  - apply mapGet_None in Eget as Hnot. split; [tauto|]. intros _.
    destruct (factoryFn key) as [message|newResource]; cbn [fst].
    + now left.
    + right. rewrite (mapSet_absent _ _ _ Eget). unfold keysOf.
      now rewrite map_app.
Qed.

Lemma getResource_distinctKeys (now : Z) (uuid key type : string)
  (factoryFn : string -> Promise T) (cleanup : T -> Promise unit) resources :
  distinctKeys resources ->
  distinctKeys
    (fst (ResourceManager.getResource now uuid key type factoryFn cleanup
            resources)).
Proof.
  intro Hnd. unfold distinctKeys in *.
  destruct (getResource_keys now uuid key type factoryFn cleanup resources)
    as [Hin Hout].
  destruct (in_dec string_dec key (keysOf resources)) as [H|H].
  - now rewrite (Hin H).
  - destruct (Hout H) as [E|E]; rewrite E; [exact Hnd|].
    apply NoDup_app; [exact Hnd | repeat constructor; intros [] |].
    intros x Hx [<-|[]]. contradiction.
Qed.

End ManagerFacts.

(** X15.  Once [getResource] has resolved with a resource for a key, a
    later request for that key resolves with the same resource, whatever
    type, factory and cleanup function it passes, a factory that fails
    included, and it adds no entry to the map. *)
Theorem cached_resource_is_reused {T : Type}
  (now : Z) (uuid key type : string)
  (factoryFn : string -> Promise T) (cleanup : T -> Promise unit)
  (resources resources' : ResourceManager.Resources T) (r : T) :
  ResourceManager.getResource now uuid key type factoryFn cleanup resources
  = (resources', Resolved r) ->
  forall (now2 : Z) (uuid2 type2 : string)
         (factory2 : string -> Promise T) (cleanup2 : T -> Promise unit),
    snd (ResourceManager.getResource now2 uuid2 key type2 factory2 cleanup2
           resources')
    = Resolved r
    /\ keysOf (fst (ResourceManager.getResource now2 uuid2 key type2 factory2
                      cleanup2 resources'))
       = keysOf resources'.
Proof.
  intros H now2 uuid2 type2 factory2 cleanup2.
  destruct (getResource_cached _ _ _ _ _ _ _ _ _ H) as (info & Eget & Er & _).
  unfold ResourceManager.getResource. rewrite Eget. cbn [fst snd].
  split; [now rewrite Er|].
  now apply keysOf_mapSet_present with (info' := info).
Qed.

(** The theorem at a manager of three connections: a first request for
    [delta] opens connection 7, a second one with a failing factory and
    another type gets connection 7 again. *)
Lemma cached_resource_is_reused_witness :
  snd (ResourceManager.getResource 9 "u2" "delta" "socket" brokenFactory
         closing
         (fst (ResourceManager.getResource 5 "u1" "delta" "connection"
                 openSeven closing threeConnections)))
  = Resolved 7%nat
  /\ keysOf (fst (ResourceManager.getResource 9 "u2" "delta" "socket"
                    brokenFactory closing
                    (fst (ResourceManager.getResource 5 "u1" "delta"
                            "connection" openSeven closing
                            threeConnections))))
     = ["alpha"; "beta"; "gamma"; "delta"].
Proof.
  apply (cached_resource_is_reused 5 "u1" "delta" "connection" openSeven
           closing threeConnections
           (fst (ResourceManager.getResource 5 "u1" "delta" "connection"
                   openSeven closing threeConnections))
           7%nat eq_refl 9 "u2" "socket" brokenFactory closing).
Defined.

(** X16.  The map of the manager keeps one entry for a key, and every
    entry records the key it is stored under: both hold after
    [getResource] and after [cleanupInactiveResources] when they hold
    before.  [getResource] leaves the keys as they are or puts its key
    last, and a cleanup never adds an entry. *)
Theorem manager_keeps_one_entry_per_key {T : Type}
  (now interval : Z) (uuid key type : string)
  (factoryFn : string -> Promise T) (cleanup : T -> Promise unit)
  (resources : ResourceManager.Resources T) :
  distinctKeys resources -> keyedByCacheKey resources ->
  let requested :=
    fst (ResourceManager.getResource now uuid key type factoryFn cleanup
           resources) in
  let swept := ResourceManager.cleanupInactiveResources now interval resources in
  distinctKeys requested /\ keyedByCacheKey requested
  /\ (keysOf requested = keysOf resources
      \/ keysOf requested = (keysOf resources ++ [key])%list)
  /\ distinctKeys swept /\ keyedByCacheKey swept
  /\ (List.length swept <= List.length resources)%nat.
Proof.
  intros Hnd Hkeyed requested swept.
  split; [now apply getResource_distinctKeys|].
  split.
  { subst requested. unfold ResourceManager.getResource.
    destruct (ResourceManager.mapGet key resources) as [existing|] eqn:Eget.
    - cbn [fst]. apply mapSet_Forall_at; [|exact Hkeyed].
      cbn. apply mapGet_In in Eget.
      unfold keyedByCacheKey in Hkeyed.
      rewrite Forall_forall in Hkeyed. exact (Hkeyed _ Eget).
    - destruct (factoryFn key) as [message|newResource]; cbn [fst];
        [exact Hkeyed|].
      apply mapSet_Forall_at; [reflexivity|exact Hkeyed]. }
  split.
  { destruct (getResource_keys now uuid key type factoryFn cleanup resources)
      as [Hin Hout].
    destruct (in_dec string_dec key (keysOf resources)) as [H|H];
      [left; exact (Hin H) | exact (Hout H)]. }
  subst swept. rewrite (cleanup_is_filter _ _ _ Hnd).
  split; [now apply filter_distinctKeys|].
  split; [|apply filter_length_le].
  unfold keyedByCacheKey in *. rewrite Forall_forall in *.
  intros e He. apply filter_In in He. now apply Hkeyed.
Qed.

Lemma threeConnections_distinct : distinctKeys threeConnections.
Proof.
  unfold distinctKeys. cbn.
  repeat constructor; cbn; intuition discriminate.
Qed.

(** The theorem at the three connections, a request for [delta] at time
    2000 and a cleanup at time 2000 with an interval of 1500. *)
Lemma manager_keeps_one_entry_per_key_witness :
  distinctKeys
    (fst (ResourceManager.getResource 2000 "u1" "delta" "connection"
            openSeven closing threeConnections))
  /\ keyedByCacheKey
       (fst (ResourceManager.getResource 2000 "u1" "delta" "connection"
               openSeven closing threeConnections))
  /\ (keysOf (fst (ResourceManager.getResource 2000 "u1" "delta" "connection"
                     openSeven closing threeConnections))
      = keysOf threeConnections
      \/ keysOf (fst (ResourceManager.getResource 2000 "u1" "delta"
                        "connection" openSeven closing threeConnections))
         = (keysOf threeConnections ++ ["delta"])%list)
  /\ distinctKeys
       (ResourceManager.cleanupInactiveResources 2000 1500 threeConnections)
  /\ keyedByCacheKey
       (ResourceManager.cleanupInactiveResources 2000 1500 threeConnections)
  /\ (List.length
        (ResourceManager.cleanupInactiveResources 2000 1500 threeConnections)
      <= List.length threeConnections)%nat.
Proof.
  apply (manager_keeps_one_entry_per_key 2000 1500 "u1" "delta" "connection"
           openSeven closing threeConnections).
  - exact threeConnections_distinct.
  - repeat constructor.
Defined.

(** X17.  A cleanup removes the entries that have been idle for more than
    the interval and whose cleanup function succeeds, and only those: what
    stays is every other entry, unchanged and in the order it had. *)
Theorem cleanup_removes_idle_cleaned_only {T : Type}
  (now interval : Z) (resources : ResourceManager.Resources T) :
  distinctKeys resources ->
  ResourceManager.cleanupInactiveResources now interval resources
  = filter (keptBy now interval) resources.
Proof. exact (cleanup_is_filter now interval resources). Qed.

(** The theorem at the three connections, at time 2000 with an interval of
    1500: [alpha] was used 1000 ago and stays, [beta] is idle but its
    cleanup fails and it stays, [gamma] goes. *)
Lemma cleanup_removes_idle_cleaned_only_witness :
  ResourceManager.cleanupInactiveResources 2000 1500 threeConnections
  = filter (keptBy 2000 1500) threeConnections
  /\ keysOf (ResourceManager.cleanupInactiveResources 2000 1500
               threeConnections)
     = ["alpha"; "beta"].
Proof.
  split.
  - apply (cleanup_removes_idle_cleaned_only 2000 1500 threeConnections).
    exact threeConnections_distinct.
  - reflexivity.
Defined.

(** X18.  A resource that [getResource] has handed out at time [used] is
    still cached after a cleanup at a time [now] no more than the interval
    later: the cleanup leaves the entry of its key in place, with the same
    resource. *)
Theorem recently_used_resource_survives_cleanup {T : Type}
  (used now interval : Z) (uuid key type : string)
  (factoryFn : string -> Promise T) (cleanup : T -> Promise unit)
  (resources resources' : ResourceManager.Resources T) (r : T) :
  distinctKeys resources ->
  ResourceManager.getResource used uuid key type factoryFn cleanup resources
  = (resources', Resolved r) ->
  (now - used <= interval)%Z ->
  exists info,
    ResourceManager.mapGet key
      (ResourceManager.cleanupInactiveResources now interval resources')
    = Some info
    /\ ResourceManager.resource info = r
    /\ ResourceManager.lastUsed info = used.
Proof.
  intros Hnd H Hrecent.
  assert (Hnd' : distinctKeys resources').
  { pose proof (getResource_distinctKeys used uuid key type factoryFn cleanup
                  resources Hnd) as Hd.
    now rewrite H in Hd. }
  destruct (getResource_cached _ _ _ _ _ _ _ _ _ H) as (info & Eget & Er & Eu).
  exists info. split; [|split; assumption].
  rewrite (cleanup_is_filter _ _ _ Hnd').
  apply In_mapGet; [now apply filter_distinctKeys|].
  apply filter_In. split; [now apply mapGet_In|].
  unfold keptBy, ResourceManager.inactive. cbn [snd]. rewrite Eu.
  assert (E : (interval <? now - used)%Z = false) by (apply Z.ltb_ge; lia).
  now rewrite E.
Qed.

(** The theorem at the three connections: [gamma], idle since time 0, is
    requested at time 1800 and survives the cleanup at time 2000. *)
Lemma recently_used_resource_survives_cleanup_witness :
  exists info,
    ResourceManager.mapGet "gamma"
      (ResourceManager.cleanupInactiveResources 2000 1500
         (fst (ResourceManager.getResource 1800 "u1" "gamma" "connection"
                 brokenFactory closing threeConnections)))
    = Some info
    /\ ResourceManager.resource info = 3%nat
    /\ ResourceManager.lastUsed info = 1800%Z.
Proof.
  apply (recently_used_resource_survives_cleanup 1800 2000 1500 "u1" "gamma"
           "connection" brokenFactory closing threeConnections
           (fst (ResourceManager.getResource 1800 "u1" "gamma" "connection"
                   brokenFactory closing threeConnections))
           3%nat threeConnections_distinct eq_refl).
  lia.
Defined.

(** X19.  When the request or the configuration holds a key that is not
    empty, [getElectricityRepository] resolves, and the client it builds
    the repository on sends exactly that key, whether the client is new or
    comes from the cache; the cached clients keep sending the key they are
    cached under. *)
Theorem repository_client_carries_resolved_key
  (extraArgsApiKey configApiKey : option string) (eiaApiTimeout now : Z)
  (uuid key : string)
  (resources : ResourceManager.Resources EiaApiClient.EiaApiClient) :
  holdsOwnKey resources ->
  firstKey extraArgsApiKey configApiKey = Some key -> key <> "" ->
  exists client,
    snd (Access.getElectricityRepository extraArgsApiKey configApiKey
           eiaApiTimeout now uuid resources)
    = Resolved client
    /\ EiaApiClient.apiKey client = key
    /\ holdsOwnKey
         (fst (Access.getElectricityRepository extraArgsApiKey configApiKey
                 eiaApiTimeout now uuid resources)).
Proof.
  intros Hown Hkey Hne. unfold Access.getElectricityRepository.
  rewrite Hkey. pose proof Hne as Hne'. apply String.eqb_neq in Hne'.
  rewrite Hne'. unfold ResourceManager.getResource.
  destruct (ResourceManager.mapGet key resources) as [existing|] eqn:Eget.
  - apply mapGet_In in Eget.
    assert (E : EiaApiClient.apiKey (ResourceManager.resource existing) = key).
    { unfold holdsOwnKey in Hown. rewrite Forall_forall in Hown.
      exact (Hown _ Eget). }
    eexists. cbn [fst snd]. split; [reflexivity|]. split; [exact E|].
    apply mapSet_Forall_at; [exact E|exact Hown].
  - unfold EiaApiClient.new. rewrite Hne'.
    eexists. cbn [fst snd]. split; [reflexivity|]. split; [reflexivity|].
    apply mapSet_Forall_at; [reflexivity|exact Hown].
Qed.

(** The theorem at a manager that holds the client of [k-1], for a request
    without a key and the configured key [k-2]. *)
Lemma repository_client_carries_resolved_key_witness :
  exists client,
    snd (Access.getElectricityRepository (Some "") (Some "k-2") 30000 50 "u"
           oneClient)
    = Resolved client
    /\ EiaApiClient.apiKey client = "k-2"
    /\ holdsOwnKey
         (fst (Access.getElectricityRepository (Some "") (Some "k-2") 30000
                 50 "u" oneClient)).
Proof.
  apply (repository_client_carries_resolved_key (Some "") (Some "k-2") 30000
           50 "u" "k-2" oneClient).
  - repeat constructor.
  - reflexivity.
  - discriminate.
Defined.

(* ------------------------------------------------------------------ *)
(** ** The repository: capacity grouped by fuel *)
(* ------------------------------------------------------------------ *)

Section ObjectFacts.

Context {V : Type}.

Implicit Types (o : JsObject.object V).

Lemma lookup_None (key : string) o :
  JsObject.lookup key o = None <-> ~ In key (JsObject.keys o).
Proof.
  induction o as [|[k w] rest IH]; cbn.
  - tauto.
  - destruct (String.eqb k key) eqn:E.
    + apply String.eqb_eq in E. split; [discriminate|]. intro H. tauto.
    + apply String.eqb_neq in E. rewrite IH. tauto.
Qed.

Lemma lookup_In (key : string) (w : V) o :
  JsObject.lookup key o = Some w -> In (key, w) o.
Proof.
  induction o as [|[k w'] rest IH]; cbn; [discriminate|].
  destruct (String.eqb k key) eqn:E.
  - apply String.eqb_eq in E. intros [= <-]. left. now subst.
  - intro H. right. now apply IH.
Qed.

Lemma assign_absent (key : string) (v : V) o :
  JsObject.lookup key o = None ->
  JsObject.assign key v o = (o ++ [(key, v)])%list.
Proof.
  induction o as [|[k w] rest IH]; cbn; [reflexivity|].
  destruct (String.eqb k key) eqn:E; [discriminate|].
  intro H. now rewrite IH.
Qed.

Lemma keys_assign_present (key : string) (v w : V) o :
  JsObject.lookup key o = Some w ->
  JsObject.keys (JsObject.assign key v o) = JsObject.keys o.
Proof.
  unfold JsObject.keys.
  induction o as [|[k w'] rest IH]; cbn; [discriminate|].
  destruct (String.eqb k key) eqn:E; cbn; [reflexivity|].
  intro H. now rewrite IH.
Qed.

Lemma assign_Forall (P : string * V -> Prop) (key : string) (v : V) o :
  P (key, v) -> Forall P o -> Forall P (JsObject.assign key v o).
Proof.
  intros Hnew H. induction H as [|[k w] rest Hx Hrest IH]; cbn.
  - constructor; [exact Hnew|constructor].
  - destruct (String.eqb k key) eqn:E; constructor; auto.
    apply String.eqb_eq in E. now subst k.
Qed.

End ObjectFacts.

Lemma keys_capacityByFuelStep
  (o : JsObject.object CapacityByFuelData) (p : OperatingCapacity) :
  JsObject.keys (Repository.capacityByFuelStep o p)
  = if String.eqb (oc_energy_source_code p) ""
    then JsObject.keys o
    else if in_dec string_dec (oc_energy_source_code p) (JsObject.keys o)
         then JsObject.keys o
         else (JsObject.keys o ++ [oc_energy_source_code p])%list.
Proof.
  unfold Repository.capacityByFuelStep.
  destruct (String.eqb (oc_energy_source_code p) ""); [reflexivity|].
  destruct (JsObject.lookup (oc_energy_source_code p) o) as [existing|]
    eqn:Elook.
  - rewrite (keys_assign_present _ _ _ _ Elook).
    destruct (in_dec string_dec _ _) as [Hin|Hnot]; [reflexivity|].
    exfalso. apply Hnot. apply lookup_In in Elook.
    change (oc_energy_source_code p)
      with (fst (oc_energy_source_code p, existing)).
    unfold JsObject.keys. now apply in_map.
  - rewrite (assign_absent _ _ _ Elook).
    destruct (in_dec string_dec _ _) as [Hin|Hnot].
    + apply lookup_None in Elook. contradiction.
    + unfold JsObject.keys. now rewrite map_app.
Qed.

Lemma keys_capacityByFuel_loop (plantData : list OperatingCapacity) :
  forall o : JsObject.object CapacityByFuelData,
  NoDup (JsObject.keys o) ->
  NoDup (JsObject.keys (fold_left Repository.capacityByFuelStep plantData o))
  /\ forall code,
       In code
         (JsObject.keys (fold_left Repository.capacityByFuelStep plantData o))
       <-> In code (JsObject.keys o)
           \/ (code <> "" /\ In code (map oc_energy_source_code plantData)).
Proof.
  induction plantData as [|p rest IH]; intros o Hnd.
  - cbn. split; [exact Hnd|]. intro code. tauto.
  - cbn [fold_left map].
    assert (Hnd' : NoDup (JsObject.keys (Repository.capacityByFuelStep o p))).
    { rewrite keys_capacityByFuelStep.
      destruct (String.eqb (oc_energy_source_code p) ""); [exact Hnd|].
      destruct (in_dec string_dec _ _) as [Hin|Hnot]; [exact Hnd|].
      apply NoDup_app; [exact Hnd | repeat constructor; intros [] |].
      intros x Hx [<-|[]]. contradiction. }
    destruct (IH _ Hnd') as [Hnd'' Hkeys].
    split; [exact Hnd''|]. intro code. rewrite Hkeys.
    rewrite keys_capacityByFuelStep.
    destruct (String.eqb (oc_energy_source_code p) "") eqn:Ecode.
    + apply String.eqb_eq in Ecode. cbn [In]. split.
      * intros [H|[H1 H2]]; [now left | right; split; [exact H1 | now right]].
      * intros [H|[H1 [H2|H2]]]; [now left | congruence | right; now split].
    + apply String.eqb_neq in Ecode.
      destruct (in_dec string_dec _ _) as [Hin|Hnot]; cbn [In].
      * split.
        -- intros [H|[H1 H2]]; [now left | right; split; [exact H1|now right]].
        -- intros [H|[H1 [H2|H2]]];
             [now left | left; now subst code | right; now split].
      * rewrite in_app_iff. cbn [In]. split.
        -- intros [[H|[H|[]]]|[H1 H2]].
           ++ now left.
           ++ right. split; [now subst code | now left].
           ++ right. split; [exact H1 | now right].
        -- intros [H|[H1 [H2|H2]]].
           ++ left. now left.
           ++ left. right. now left.
           ++ right. now split.
Qed.

(** The records of the object carry the code they are filed under. *)
Lemma capacityByFuel_filed (plantData : list OperatingCapacity) :
  forall o : JsObject.object CapacityByFuelData,
  Forall filedUnderCode o ->
  Forall filedUnderCode (fold_left Repository.capacityByFuelStep plantData o).
Proof.
  induction plantData as [|p rest IH]; intros o Ho; [exact Ho|].
  cbn [fold_left]. apply IH. unfold Repository.capacityByFuelStep.
  destruct (String.eqb (oc_energy_source_code p) ""); [exact Ho|].
  apply assign_Forall; [|exact Ho].
  unfold filedUnderCode. cbn [fst snd energy_source_code].
  destruct (JsObject.lookup (oc_energy_source_code p) o) as [existing|]
    eqn:Elook; [|reflexivity].
  apply lookup_In in Elook. rewrite Forall_forall in Ho.
  exact (Ho _ Elook).
Qed.

Lemma filed_codes (o : JsObject.object CapacityByFuelData) :
  Forall filedUnderCode o ->
  map energy_source_code (JsObject.values o) = JsObject.keys o.
Proof.
  unfold JsObject.values, JsObject.keys.
  induction 1 as [|[k r] rest Hk Hrest IH]; cbn; [reflexivity|].
  unfold filedUnderCode in Hk. cbn in Hk. now rewrite Hk, IH.
Qed.

(** X20.  For plants whose fuel code, when they have one, begins with a
    capital letter, [getCapacityByFuelType] returns one record for every
    fuel code that is not empty: the codes of its records are distinct and
    are those of the plants of the response, the plants of every period
    alike. *)
Theorem grouping_by_fuel_one_record_per_code
  (plantData : list OperatingCapacity) :
  Forall capitalCode plantData ->
  let grouped := Repository.capacityByFuelType plantData in
  NoDup (map energy_source_code grouped)
  /\ (forall code,
        In code (map energy_source_code grouped)
        <-> code <> "" /\ In code (map oc_energy_source_code plantData)).
Proof.
  intros _ grouped. subst grouped. unfold Repository.capacityByFuelType.
  destruct (keys_capacityByFuel_loop plantData [] (NoDup_nil _))
    as [Hnd Hkeys].
  rewrite (filed_codes _ (capacityByFuel_filed plantData [] (Forall_nil _))).
  split; [exact Hnd|].
  intro code. rewrite Hkeys. cbn [JsObject.keys map In]. tauto.
Qed.

(** The theorem at six plants of two months: the grouped records are those
    of NG, SUN and WND. *)
Lemma grouping_by_fuel_one_record_per_code_witness :
  Forall capitalCode sixPlants
  /\ (NoDup (map energy_source_code (Repository.capacityByFuelType sixPlants))
      /\ (forall code,
            In code
              (map energy_source_code
                 (Repository.capacityByFuelType sixPlants))
            <-> code <> "" /\ In code (map oc_energy_source_code sixPlants)))
  /\ map energy_source_code (Repository.capacityByFuelType sixPlants)
     = ["NG"; "SUN"; "WND"].
Proof.
  assert (H : Forall capitalCode sixPlants).
  { repeat constructor. }
  split; [exact H|]. split.
  - exact (grouping_by_fuel_one_record_per_code sixPlants H).
  - reflexivity.
Defined.

(* ------------------------------------------------------------------ *)
(** ** The repository: hourly demand of a state *)
(* ------------------------------------------------------------------ *)

Lemma unmapped_state_has_no_demand
  (fetch : string -> string -> Promise (list RTODemandData))
  (stateId type : string) :
  Repository.mapStateToRTO stateId = None ->
  Repository.getRTODemandData fetch stateId None type = Resolved [].
Proof. intro H. unfold Repository.getRTODemandData. now rewrite H. Qed.

(** X21.  For a state that [mapStateToRTO] does not map to a respondent,
    the repository resolves the hourly demand to no record without a
    request, so the analysis of the state with the hourly analysis is the
    one without it, and its grid stability metrics are the fallback
    constants. *)
Theorem hourly_analysis_needs_mapped_state
  (plants : string -> Promise (list OperatingCapacity))
  (generation : string -> Promise (list GenerationData))
  (prices : string -> Promise (list RetailPriceData))
  (fetch : string -> string -> Promise (list RTODemandData))
  (now reg : string) :
  Repository.mapStateToRTO reg = None ->
  let repo := Repository.over plants generation prices fetch in
  analyzeRegion now repo true reg = analyzeRegion now repo false reg
  /\ forall m,
       metrics (analyzeRegion now repo true reg) = Some m ->
       gridStability m
       = {| maxHourlyRampMW := Fin 500;
            rampingFrequency := Fin 4;
            frequencyRegulationNeed := Fin 100;
            spinningReserveRequirement := Fin 300 |}.
Proof.
  intros H repo.
  assert (E : fetchRegion repo true reg = fetchRegion repo false reg).
  { unfold fetchRegion, repo, Repository.over.
    cbn [Index.getCapacityByFuelType Index.getGenerationByFuelType
         Index.getRetailPrices Index.getRTODemandData].
    now rewrite (unmapped_state_has_no_demand fetch reg "D" H). }
  split.
  - unfold analyzeRegion. now rewrite E.
  - intros m. unfold analyzeRegion. rewrite E.
    unfold fetchRegion, repo, Repository.over.
    cbn [Index.getCapacityByFuelType Index.getGenerationByFuelType
         Index.getRetailPrices Index.getRTODemandData].
    destruct (plants reg) as [e|thePlants]; [discriminate|].
    destruct (generation reg) as [e|theGeneration]; [discriminate|].
    destruct (prices reg) as [e|thePrices]; [discriminate|].
    cbn [capacityData generationData priceData demandData].
    destruct (Repository.capacityByFuelType thePlants); [discriminate|].
    cbn [metrics]. intros [= <-]. reflexivity.
Qed.

(** The theorem at Florida, which the table does not hold. *)
Lemma hourly_analysis_needs_mapped_state_witness :
  analyzeRegion "2024-07-01T00:00:00.000Z"
    (Repository.over plantsOf generationOf pricesOf demandOf) true "FL"
  = analyzeRegion "2024-07-01T00:00:00.000Z"
      (Repository.over plantsOf generationOf pricesOf demandOf) false "FL"
  /\ forall m,
       metrics
         (analyzeRegion "2024-07-01T00:00:00.000Z"
            (Repository.over plantsOf generationOf pricesOf demandOf) true
            "FL")
       = Some m ->
       gridStability m
       = {| maxHourlyRampMW := Fin 500;
            rampingFrequency := Fin 4;
            frequencyRegulationNeed := Fin 100;
            spinningReserveRequirement := Fin 300 |}.
Proof.
  apply (hourly_analysis_needs_mapped_state plantsOf generationOf pricesOf
           demandOf "2024-07-01T00:00:00.000Z" "FL").
  reflexivity.
Defined.

(* ------------------------------------------------------------------ *)
(** ** The price ranking *)
(* ------------------------------------------------------------------ *)

Section SortingByKey.

Context {A : Type} (key : A -> number).

Lemma insertBy_key_descending (x : A) (l : list A) :
  isFinite (key x) = true ->
  Forall (fun a => isFinite (key a) = true) l ->
  Sorted (fun a b => notAbove (key b) (key a)) l ->
  Sorted (fun a b => notAbove (key b) (key a))
    (insertBy (fun a b => sub (key b) (key a)) x l).
Proof.
  intros Hx Hl Hs. induction l as [|y rest IH]; cbn [insertBy].
  - repeat constructor.
  - inversion Hl as [|? ? Hy Hrest]; subst.
    inversion Hs as [|? ? Hsorted Hhd]; subst.
    destruct (isFinite_Fin _ Hx) as (kx & Ekx).
    destruct (isFinite_Fin _ Hy) as (ky & Eky).
    assert (Hcmp : gt (sub (key y) (key x)) zero = Qltb 0 (ky + - kx)).
    { rewrite Ekx, Eky. reflexivity. }
    rewrite Hcmp.
    destruct (Qltb 0 (ky + - kx)) eqn:E.
    + apply Qltb_lt in E.
      assert (Hyx : notAbove (key x) (key y)).
      { rewrite Ekx, Eky. cbn. lra. }
      constructor; [now apply IH|].
      destruct rest as [|z rest']; cbn [insertBy].
      * now constructor.
      * destruct (gt (sub (key z) (key x)) zero); constructor;
          [now inversion Hhd | exact Hyx].
    + apply Qltb_ge in E.
      constructor; [exact Hs|]. constructor.
      rewrite Ekx, Eky. cbn. lra.
Qed.

Lemma sortBy_key_descending (l : list A) :
  Forall (fun a => isFinite (key a) = true) l ->
  Sorted (fun a b => notAbove (key b) (key a))
    (sortBy (fun a b => sub (key b) (key a)) l).
Proof.
  induction 1 as [|x rest Hx Hrest IH]; cbn [sortBy fold_right].
  - constructor.
  - apply insertBy_key_descending; [exact Hx| |exact IH].
    apply Forall_forall. intros y Hy.
    rewrite Forall_forall in Hrest. apply Hrest.
    now apply (Permutation_in _
                 (sortBy_Permutation (fun a b => sub (key b) (key a)) rest)).
Qed.

End SortingByKey.

Lemma firstn_subset {A : Type} (n : nat) (l : list A) (x : A) :
  In x (firstn n l) -> In x l.
Proof.
  revert l. induction n as [|n IH]; intros [|y rest]; cbn; try tauto.
  intros [H|H]; [now left | right; now apply IH].
Qed.

Lemma filter_partition_Permutation {A : Type} (f : A -> bool) (l : list A) :
  Permutation l (filter (fun x => negb (f x)) l ++ filter f l).
Proof.
  induction l as [|x rest IH]; cbn [filter app]; [constructor|].
  destruct (f x); cbn [negb app].
  - apply Permutation_cons_app. exact IH.
  - now constructor.
Qed.

(** The average price of a series of prices that are [null] or finite is
    finite. *)
Lemma comparePrices_finite (months : nat) (priceData : list RetailPriceData)
  (comparison : Tools.PriceComparison) :
  Forall finitePrice priceData ->
  Tools.comparePrices months priceData = inr comparison ->
  isFinite (Tools.avgPriceCentsPerKWh comparison) = true.
Proof.
  intros Hfin. unfold Tools.comparePrices, Tools.slice0.
  assert (Hsl : Forall finitePrice (firstn months priceData)).
  { apply Forall_forall. intros p Hp. rewrite Forall_forall in Hfin.
    apply Hfin. now apply firstn_subset in Hp. }
  destruct (firstn months priceData) as [|p rest]; [discriminate|].
  intros [= <-]. cbn [Tools.avgPriceCentsPerKWh].
  apply toFixed_finite. unfold basicStats. cbn [map avg].
  assert (Hall : Forall (fun x => isFinite x = true)
                   (map (fun p => nullish (price p) zero) (p :: rest))).
  { apply Forall_map. eapply Forall_impl; [|exact Hsl].
    intros r Hr. unfold finitePrice in Hr. unfold nullish.
    destruct (price r) as [[q| | |]|]; tauto || reflexivity. }
  destruct (sum_finite _ Hall) as (s & Es & _). cbn [map] in Es.
  rewrite Es. cbn [List.length]. unfold ofNat.
  apply isFinite_div; [reflexivity | apply ofNat_S_nonzero].
Qed.

Lemma compared_regions
  (getRetailPrices : string -> Promise (list RetailPriceData))
  (months : nat) (regions : list string) :
  map Compare.priceRegion
    (map (Compare.compareRegion getRetailPrices months) regions)
  = regions.
Proof.
  induction regions as [|reg rest IH]; [reflexivity|].
  cbn [map]. rewrite IH. unfold Compare.compareRegion.
  now destruct (getRetailPrices reg).
Qed.

(** X24.  When the price requests answer with prices that are [null] or
    finite and fail with a message that is not empty, every region of
    [compareRetailElectricityPrices] is once in [rankings] or in
    [failedRegions]; [rankings] holds the regions with a comparison, in
    decreasing order of the average price, and [top5] its first five;
    [failedRegions] holds the regions without price data and those whose
    request failed, with their message. *)
Theorem price_ranking_sorted_and_partitioned
  (getRetailPrices : string -> Promise (list RetailPriceData))
  (now : string) (regions : list string) (months : nat) :
  answersWithPrices getRetailPrices ->
  let out :=
    Compare.compareRetailElectricityPrices getRetailPrices now regions months in
  Permutation regions
    (map Compare.priceRegion (Compare.rankings out)
     ++ map Compare.priceRegion (Compare.failedRegions out))
  /\ Sorted cheaperNext (Compare.rankings out)
  /\ Compare.top5 out = firstn 5 (Compare.rankings out)
  /\ Forall (fun r => exists comparison, Compare.outcome r = inr comparison)
       (Compare.rankings out)
  /\ Forall (fun r => exists message,
                 Compare.outcome r = inl message /\ message <> "")
       (Compare.failedRegions out).
Proof.
  intros Hrepo out. subst out. unfold Compare.compareRetailElectricityPrices.
  cbn [Compare.rankings Compare.top5 Compare.failedRegions].
  set (results := map (Compare.compareRegion getRetailPrices months) regions).
  assert (Hres : Forall (fun r =>
            match Compare.outcome r with
            | inl message => message <> ""
            | inr comparison =>
                isFinite (Tools.avgPriceCentsPerKWh comparison) = true
            end) results).
  { subst results. apply Forall_map. apply Forall_forall. intros reg _.
    unfold Compare.compareRegion. specialize (Hrepo reg).
    destruct (getRetailPrices reg) as [message|priceData];
      cbn [Compare.outcome]; [exact Hrepo|].
    destruct (Tools.comparePrices months priceData) as [message|comparison]
      eqn:Ecmp.
    - unfold Tools.comparePrices in Ecmp.
      destruct (Tools.slice0 months priceData); [|discriminate].
      injection Ecmp as <-. discriminate.
    - exact (comparePrices_finite months priceData comparison Hrepo Ecmp). }
  assert (Hok : Forall (fun r => isFinite (Compare.avgPriceOf r) = true
                                 /\ exists comparison,
                                      Compare.outcome r = inr comparison)
                  (filter (fun r => negb (Compare.hasError r)) results)).
  { apply Forall_forall. intros r Hr. apply filter_In in Hr.
    destruct Hr as [Hin Hno]. rewrite Forall_forall in Hres.
    specialize (Hres r Hin). unfold Compare.hasError in Hno.
    unfold Compare.avgPriceOf.
    destruct (Compare.outcome r) as [message|comparison].
    - apply negb_true_iff, negb_false_iff, String.eqb_eq in Hno. contradiction.
    - split; [exact Hres | now exists comparison]. }
  split.
  { apply perm_trans
      with (map Compare.priceRegion
              (filter (fun r => negb (Compare.hasError r)) results
               ++ filter Compare.hasError results)%list).
    - assert (E : regions = map Compare.priceRegion results)
        by (symmetry; apply compared_regions).
      rewrite E at 1. apply Permutation_map.
      apply filter_partition_Permutation.
    - rewrite map_app. apply Permutation_app_tail. apply Permutation_map.
      apply Permutation_sym. apply sortBy_Permutation. }
  split.
  { apply (sortBy_key_descending Compare.avgPriceOf).
    eapply Forall_impl; [|exact Hok]. now intros r [H _]. }
  split; [reflexivity|].
  split.
  { apply Forall_forall. intros r Hr.
    apply (Permutation_in _ (sortBy_Permutation Compare.byAvgPriceDesc _))
      in Hr.
    rewrite Forall_forall in Hok. now destruct (Hok r Hr). }
  apply Forall_forall. intros r Hr. apply filter_In in Hr.
  destruct Hr as [_ Herr]. unfold Compare.hasError in Herr.
  destruct (Compare.outcome r) as [message|comparison]; [|discriminate].
  exists message. split; [reflexivity|].
  now apply negb_true_iff, String.eqb_neq in Herr.
Qed.

Lemma fourStates_answers : answersWithPrices fourStates.
Proof.
  intro reg. unfold fourStates.
  destruct (String.eqb reg "AA"); [repeat constructor|].
  destruct (String.eqb reg "BB"); [discriminate|].
  destruct (String.eqb reg "CC"); repeat constructor.
Qed.

(** The theorem at four states over twelve months: DD, with an average of
    8.43 cents, comes before AA with 1.67; BB and CC are failed. *)
Lemma price_ranking_sorted_and_partitioned_witness :
  (Permutation ["AA"; "BB"; "CC"; "DD"]
     (map Compare.priceRegion
        (Compare.rankings
           (Compare.compareRetailElectricityPrices fourStates "now"
              ["AA"; "BB"; "CC"; "DD"] 12))
      ++ map Compare.priceRegion
           (Compare.failedRegions
              (Compare.compareRetailElectricityPrices fourStates "now"
                 ["AA"; "BB"; "CC"; "DD"] 12)))
   /\ Sorted cheaperNext
        (Compare.rankings
           (Compare.compareRetailElectricityPrices fourStates "now"
              ["AA"; "BB"; "CC"; "DD"] 12))
   /\ Compare.top5
        (Compare.compareRetailElectricityPrices fourStates "now"
           ["AA"; "BB"; "CC"; "DD"] 12)
      = firstn 5
          (Compare.rankings
             (Compare.compareRetailElectricityPrices fourStates "now"
                ["AA"; "BB"; "CC"; "DD"] 12))
   /\ Forall (fun r => exists comparison, Compare.outcome r = inr comparison)
        (Compare.rankings
           (Compare.compareRetailElectricityPrices fourStates "now"
              ["AA"; "BB"; "CC"; "DD"] 12))
   /\ Forall (fun r => exists message,
                  Compare.outcome r = inl message /\ message <> "")
        (Compare.failedRegions
           (Compare.compareRetailElectricityPrices fourStates "now"
              ["AA"; "BB"; "CC"; "DD"] 12)))
  /\ map Compare.priceRegion
       (Compare.rankings
          (Compare.compareRetailElectricityPrices fourStates "now"
             ["AA"; "BB"; "CC"; "DD"] 12))
     = ["DD"; "AA"]
  /\ map Compare.priceRegion
       (Compare.failedRegions
          (Compare.compareRetailElectricityPrices fourStates "now"
             ["AA"; "BB"; "CC"; "DD"] 12))
     = ["BB"; "CC"].
Proof.
  split.
  - apply (price_ranking_sorted_and_partitioned fourStates "now"
             ["AA"; "BB"; "CC"; "DD"] 12).
    exact fourStates_answers.
  - split; vm_compute; reflexivity.
Defined.

(* ================================================================== *)
(** * Properties of the code over binary64 *)
(* ================================================================== *)

Section OverBinary64.

Import Binary64 InBinary64 Vocabulary64.

Local Open Scope Z_scope.

(* ------------------------------------------------------------------ *)
(** ** Rounding to binary64 *)
(* ------------------------------------------------------------------ *)

Lemma same_eq (x y : float) : same x y = true <-> x = y.
Proof.
  split.
  - destruct x as [a|a| |a m e], y as [b|b| |b n f]; cbn [same];
      try discriminate; try reflexivity.
    + intro H. apply Bool.eqb_prop in H. now subst.
    + intro H. apply Bool.eqb_prop in H. now subst.
    + rewrite !andb_true_iff. intros [[Hs Hm] He].
      apply Bool.eqb_prop in Hs. apply Pos.eqb_eq in Hm.
      apply Z.eqb_eq in He. now subst.
  - intros <-. destruct x as [a|a| |a m e]; cbn [same];
      rewrite ?Bool.eqb_reflx, ?Pos.eqb_refl, ?Z.eqb_refl; reflexivity.
Qed.

(** A property of the integers from [0] to [bound - 1] that a run over
    them confirms. *)
Lemma below_bound (bound : nat) (P : Z -> bool) :
  forallb (fun k => P (Z.of_nat k)) (seq 0 bound) = true ->
  forall n, 0 <= n < Z.of_nat bound -> P n = true.
Proof.
  intros H n Hn. rewrite forallb_forall in H.
  rewrite <- (Z2Nat.id n) by lia. apply H. apply in_seq. lia.
Qed.

(** Shifting to the right does not lower the exponent. *)
Lemma shr_fexp_exponent (m e : Z) (l : SpecFloat.location) :
  e <= snd (SpecFloat.shr_fexp prec emax m e l).
Proof.
  unfold SpecFloat.shr_fexp, SpecFloat.shr.
  destruct (SpecFloat.fexp prec emax (SpecFloat.Zdigits2 m + e) - e);
    cbn [snd]; lia.
Qed.

(** What rounding can give: a zero, an infinity, [NaN], or a finite value
    whose exponent is not below the one given, each of the sign given. *)
Lemma binary_round_aux_cases (s : bool) (m e : Z) (l : SpecFloat.location) :
  let r := SpecFloat.binary_round_aux prec emax s m e l in
  r = SpecFloat.S754_zero s \/ r = SpecFloat.S754_infinity s \/ r = nan
  \/ exists m' e', r = SpecFloat.S754_finite s m' e' /\ e <= e'.
Proof.
  unfold SpecFloat.binary_round_aux.
  pose proof (shr_fexp_exponent m e l) as H1.
  destruct (SpecFloat.shr_fexp prec emax m e l) as [mrs' e']. cbn [snd] in H1.
  pose proof (shr_fexp_exponent
                (SpecFloat.round_nearest_even (SpecFloat.shr_m mrs')
                   (SpecFloat.loc_of_shr_record mrs'))
                e' SpecFloat.loc_Exact) as H2.
  destruct (SpecFloat.shr_fexp prec emax _ e' SpecFloat.loc_Exact)
    as [mrs'' e''].
  cbn [snd] in H2. cbn zeta.
  destruct (SpecFloat.shr_m mrs'') as [|p|p].
  - now left.
  - destruct (e'' <=? emax - prec).
    + right. right. right. exists p, e''. split; [reflexivity | lia].
    + right. now left.
  - right. right. now left.
Qed.

Lemma digits2_pos_size (p : positive) : SpecFloat.digits2_pos p = Pos.size p.
Proof. induction p; cbn; now rewrite ?IHp. Qed.

(** An integer of [128] and more has eight binary digits at least. *)
Lemma digits2_pos_large (p : positive) :
  128 <= Zpos p -> 8 <= Zpos (SpecFloat.digits2_pos p).
Proof.
  intro H. rewrite digits2_pos_size.
  pose proof (Pos.size_gt p) as Hs.
  destruct (Z_lt_le_dec (Zpos (Pos.size p)) 8) as [Hlt|]; [|assumption].
  exfalso.
  assert (Hpow : 2 ^ Zpos (Pos.size p) <= 2 ^ 7).
  { apply Z.pow_le_mono_r; lia. }
  apply Pos2Z.pos_lt_pos in Hs. rewrite Pos2Z.inj_pow in Hs.
  change (2 ^ 7) with 128 in Hpow. lia.
Qed.

(** The binary64 value of a positive integer. *)
Lemma binary_round_cases (s : bool) (p : positive) :
  let r := SpecFloat.binary_round prec emax s p 0 in
  r = SpecFloat.S754_zero s \/ r = SpecFloat.S754_infinity s \/ r = nan
  \/ exists m' e',
       r = SpecFloat.S754_finite s m' e'
       /\ Z.min 0 (Zpos (SpecFloat.digits2_pos p) - 53) <= e'.
Proof.
  unfold SpecFloat.binary_round, SpecFloat.shl_align.
  set (ex' := SpecFloat.fexp prec emax (Zpos (SpecFloat.digits2_pos p) + 0)).
  assert (Hex : Zpos (SpecFloat.digits2_pos p) - 53 <= ex').
  { unfold ex', SpecFloat.fexp, prec. lia. }
  destruct (ex' - 0) as [|d|d] eqn:E;
    match goal with
    | |- context [SpecFloat.binary_round_aux ?a ?b ?c ?m ?e ?l] =>
        destruct (binary_round_aux_cases c m e l)
          as [H|[H|[H|(m' & e' & H & He)]]]
    end; rewrite H; auto;
    right; right; right; exists m', e'; (split; [reflexivity | lia]).
Qed.

(* ------------------------------------------------------------------ *)
(** ** The clamp *)
(* ------------------------------------------------------------------ *)

Lemma hundred : ofZ 100 = SpecFloat.S754_finite false 7036874417766400 (-46).
Proof. reflexivity. Qed.

Lemma wholeScore_zero : wholeScore zero.
Proof. exists 0. split; [lia | reflexivity]. Qed.

Lemma wholeScore_hundred : wholeScore (ofZ 100).
Proof. exists 100. split; [lia | reflexivity]. Qed.

(** The clamp takes a negative value to [0]. *)
Lemma clamp_negative (x : float) :
  x = SpecFloat.S754_zero true \/ x = SpecFloat.S754_infinity true
  \/ (exists m e, x = SpecFloat.S754_finite true m e) ->
  clamp x = zero.
Proof.
  intros [->|[->|(m & e & ->)]]; reflexivity.
Qed.

(** The clamp takes a positive value with an exponent above [-46], that of
    [100], to [100]. *)
Lemma clamp_large (m : positive) (e : Z) :
  -46 < e -> clamp (SpecFloat.S754_finite false m e) = ofZ 100.
Proof.
  intro He. unfold clamp. rewrite hundred.
  change (max (SpecFloat.S754_finite false m e) zero)
    with (SpecFloat.S754_finite false m e).
  unfold min, lt, SpecFloat.SFltb, SpecFloat.SFcompare.
  assert (H : (-46 ?= e) = Lt) by now apply Z.compare_lt_iff.
  now rewrite H.
Qed.

(** The clamp of the binary64 value of an integer is [NaN] or one of the
    integers from [0] to [100]. *)
Lemma clamp_of_integer (n : Z) (s : bool) :
  scoreOrNaN (clamp (SpecFloat.binary_normalize prec emax n 0 s)).
Proof.
  destruct n as [|p|p]; cbn [SpecFloat.binary_normalize].
  - right. destruct s; exact wholeScore_zero.
  - destruct (Z_le_gt_dec (Zpos p) 127) as [Hsmall|Hlarge].
    + right.
      pose proof (below_bound 128
                    (fun n => existsb (same (clamp (ofZ n))) scoreValues)
                    ltac:(vm_compute; reflexivity) (Zpos p) ltac:(lia)) as H.
      cbn beta in H. apply existsb_exists in H.
      destruct H as (v & Hin & Hsame). apply same_eq in Hsame.
      change (SpecFloat.binary_round prec emax false p 0) with (ofZ (Zpos p)).
      rewrite Hsame. unfold scoreValues in Hin. apply in_map_iff in Hin.
      destruct Hin as (k & <- & Hk). apply in_seq in Hk.
      exists (Z.of_nat k). split; [lia | reflexivity].
    + pose proof (digits2_pos_large p ltac:(lia)) as Hd.
      destruct (binary_round_cases false p)
        as [H|[H|[H|(m' & e' & H & He)]]]; rewrite H.
      * right. exact wholeScore_zero.
      * right. exact wholeScore_hundred.
      * now left.
      * right. rewrite clamp_large by lia. exact wholeScore_hundred.
  - destruct (binary_round_cases true p)
      as [H|[H|[H|(m' & e' & H & He)]]]; rewrite H.
    + right. exact wholeScore_zero.
    + right. exact wholeScore_zero.
    + now left.
    + right. rewrite clamp_negative; [exact wholeScore_zero|]. right. right.
      now exists m', e'.
Qed.

(** The clamp of a rounded value is [NaN] or one of the integers from [0]
    to [100], whatever the value. *)
Lemma clamp_round (x : float) : scoreOrNaN (clamp (round x)).
Proof.
  destruct x as [s|s| |s m e].
  - right. destruct s; exact wholeScore_zero.
  - right. destruct s; [exact wholeScore_zero | exact wholeScore_hundred].
  - now left.
  - destruct e as [|k|k]; cbn [round].
    + right. destruct s.
      * rewrite clamp_negative; [exact wholeScore_zero|]. right. right.
        now exists m, 0.
      * rewrite clamp_large by lia. exact wholeScore_hundred.
    + right. destruct s.
      * rewrite clamp_negative; [exact wholeScore_zero|]. right. right.
        now exists m, (Zpos k).
      * rewrite clamp_large by lia. exact wholeScore_hundred.
    + apply clamp_of_integer.
Qed.

(** An integer from [0] to [100] is within the score range, and the clamp
    leaves it as it is. *)
Lemma wholeScore_facts (x : float) :
  wholeScore x -> withinScoreRange x /\ unclamped x /\ isNaN x = false.
Proof.
  intros (n & Hn & ->).
  pose proof (below_bound 101
                (fun n =>
                   le zero (ofZ n) && le (ofZ n) (ofZ 100)
                   && same (clamp (ofZ n)) (ofZ n) && negb (isNaN (ofZ n)))
                ltac:(vm_compute; reflexivity) n ltac:(lia)) as H.
  cbn beta in H. rewrite !andb_true_iff in H.
  destruct H as [[[H1 H2] H3] H4]. apply same_eq in H3.
  apply negb_true_iff in H4. repeat split; assumption.
Qed.

Lemma scoreOrNaN_numeric (x : float) :
  scoreOrNaN x -> isNaN x = false -> wholeScore x.
Proof. intros [->|H] Hn; [discriminate | exact H]. Qed.


(* ------------------------------------------------------------------ *)
(** ** The opportunity scores *)
(* ------------------------------------------------------------------ *)

(** Whatever the metrics, each of the five scores returned is [NaN] or one
    of the integers from [0] to [100]. *)
Lemma scores_NaN_or_whole
  (gc : GridCapacityMetrics) (ds : DemandSupplyMetrics)
  (rn : RenewableIntegrationMetrics) (st : GridStabilityMetrics)
  (ec : EconomicMetrics) :
  allScoreOrNaN (calculateOpportunityScores gc ds rn st ec).
Proof.
  unfold allScoreOrNaN, calculateOpportunityScores, overallRaw,
    peakShavingRaw, renewableRaw, gridServicesRaw, economicRaw.
  cbn [overall peakShavingScore renewableIntegrationScore gridServicesScore
       economicScore].
  repeat split; apply clamp_round.
Qed.


(** With a curtailment estimate of [1e9] MWh and the sample metrics, the
    scores are within [0, 100]. *)
Example scores_huge_curtailment :
  calculateOpportunityScores sampleGridCapacity sampleDemandSupply
    hugeCurtailment sampleStability sampleEconomic
  = {| overall := ofZ 53; peakShavingScore := ofZ 45;
       renewableIntegrationScore := ofZ 70; gridServicesScore := ofZ 38;
       economicScore := ofZ 48 |}.
Proof. vm_compute. reflexivity. Qed.

(* ------------------------------------------------------------------ *)
(** ** The overall score *)
(* ------------------------------------------------------------------ *)





(* ------------------------------------------------------------------ *)
(** ** The fallback of the demand metrics *)
(* ------------------------------------------------------------------ *)

Lemma fold_add_map {A : Type} (f : A -> float) (xs : list A) (acc : float) :
  fold_left (fun s x => add s (f x)) xs acc = fold_left add (map f xs) acc.
Proof.
  revert acc. induction xs as [|x rest IH]; intro acc; cbn [fold_left map].
  - reflexivity.
  - apply IH.
Qed.

Lemma lengthOrOne_is_max {A : Type} (xs : list A) :
  lengthOrOne xs = ofNat (Nat.max (List.length xs) 1).
Proof.
  unfold lengthOrOne. destruct xs as [|x rest]; cbn [List.length].
  - reflexivity.
  - now rewrite Nat.max_l by lia.
Qed.

Lemma generationFallback_of_mean (generationData : list GenerationData) :
  generationFallback generationData
  = {| averageDemandMW := round (meanGeneration generationData);
       peakDemandMW :=
         round (mul (meanGeneration generationData) (decimal 12 1));
       minimumDemandMW :=
         round (mul (meanGeneration generationData) (decimal 6 1));
       loadFactor := decimal 7 1;
       demandVariabilityIndex := decimal 15 2 |}.
Proof.
  unfold generationFallback, meanGeneration, sum, generationOrZero.
  now rewrite fold_add_map, lengthOrOne_is_max.
Qed.

(** Records without a finite value leave the numeric series empty. *)
Lemma numericSeries_of_blank (demandData : list RTODemandData) :
  Forall notNumeric demandData -> numericSeries demandData = [].
Proof.
  unfold numericSeries.
  induction 1 as [|d rest Hd _ IH]; cbn [map dropNulls]; [reflexivity|].
  unfold notNumeric in Hd. unfold finiteOrNull.
  destruct (value d) as [x|]; [rewrite Hd|]; exact IH.
Qed.

(** C10.  When the hourly demand series is empty or has no finite numeric
    value, the demand-supply metrics are estimated from the generation
    records, whatever [Math.pow] and [Math.sqrt] compute: [averageDemandMW]
    is the rounded mean of the generation values (a missing value counting
    as [0], the divisor being [max(count, 1)]), [peakDemandMW] that mean
    times [1.2], rounded, [minimumDemandMW] that mean times [0.6], rounded,
    and [loadFactor] and [demandVariabilityIndex] are the constants [0.7]
    and [0.15].  The sum, the quotient and the products are those of
    binary64. *)
Theorem demand_fallback_to_generation
  (pow : float -> float -> float) (sqrt : float -> float)
  (demandData : list RTODemandData) (generationData : list GenerationData) :
  Forall notNumeric demandData ->
  calculateDemandSupplyMetrics pow sqrt demandData generationData
  = {| averageDemandMW := round (meanGeneration generationData);
       peakDemandMW :=
         round (mul (meanGeneration generationData) (decimal 12 1));
       minimumDemandMW :=
         round (mul (meanGeneration generationData) (decimal 6 1));
       loadFactor := decimal 7 1;
       demandVariabilityIndex := decimal 15 2 |}.
Proof.
  intro H. apply numericSeries_of_blank in H.
  unfold calculateDemandSupplyMetrics.
  destruct demandData as [|d rest].
  - apply generationFallback_of_mean.
  - rewrite H. apply generationFallback_of_mean.
Qed.

(** The theorem at a demand series without finite values and six months of
    generation, [165] MWh and five times [164] MWh: the mean times [0.6]
    is [98.49999999999999], and the minimum demand is [98]. *)
Lemma demand_fallback_to_generation_witness :
  Forall notNumeric blankDemand /\
  calculateDemandSupplyMetrics squaring Binary64.sqrt blankDemand sixMonths
  = {| averageDemandMW := ofZ 164;
       peakDemandMW := ofZ 197;
       minimumDemandMW := ofZ 98;
       loadFactor := decimal 7 1;
       demandVariabilityIndex := decimal 15 2 |}.
Proof.
  assert (H : Forall notNumeric blankDemand).
  { repeat constructor. }
  split; [exact H|].
  rewrite (demand_fallback_to_generation squaring Binary64.sqrt blankDemand
             sixMonths H).
  vm_compute. reflexivity.
Defined.

(** The peak-shaving score of the fallback is the constant [45]. *)
Lemma fallback_peak_shaving_score (generationData : list GenerationData) :
  peakShavingRaw (generationFallback generationData) = ofZ 45.
Proof. vm_compute. reflexivity. Qed.

(* ------------------------------------------------------------------ *)
(** ** The average retail price *)
(* ------------------------------------------------------------------ *)

(** C7, amended.  For a price series of length 1 and more, whatever
    [Math.pow] and [Math.sqrt] compute, [averageRetailPriceCentsPerKWh] is
    the arithmetic mean of the prices (a missing price counting as [0],
    the prices added from left to right and divided by their number, in
    binary64) rounded to two decimals: [parseFloat(avgPrice.toFixed(2))]. *)
Theorem average_price_is_rounded_mean
  (pow : float -> float -> float) (sqrt : float -> float)
  (priceData : list RetailPriceData) (demandSupply : DemandSupplyMetrics) :
  (1 <= List.length priceData)%nat ->
  averageRetailPriceCentsPerKWh
    (calculateEconomicMetrics pow sqrt priceData demandSupply)
  = toFixed 2 (meanPrice priceData).
Proof.
  intro Hlen. destruct priceData as [|p rest]; [cbn in Hlen; lia|].
  unfold calculateEconomicMetrics, meanPrice.
  cbn [averageRetailPriceCentsPerKWh]. now rewrite length_map.
Qed.

(** The theorem at the prices [0.01] and [0.02]: the mean in binary64 is
    just below [0.015], and the average returned is [0.01]. *)
Lemma average_price_is_rounded_mean_witness :
  (1 <= List.length twoCents)%nat /\
  averageRetailPriceCentsPerKWh
    (calculateEconomicMetrics squaring Binary64.sqrt twoCents
       sampleDemandSupply)
  = decimal 1 2.
Proof.
  split; [cbn; lia|].
  rewrite (average_price_is_rounded_mean squaring Binary64.sqrt twoCents
             sampleDemandSupply) by (cbn; lia).
  vm_compute. reflexivity.
Defined.

(** C7, counterexample.  The prices [1], [2] and [2] have the mean
    [1.6666666666666667]; the average returned is [1.67]. *)
Lemma average_price_not_exact_mean :
  let m := calculateEconomicMetrics squaring Binary64.sqrt threePrices
             sampleDemandSupply in
  averageRetailPriceCentsPerKWh m = decimal 167 2
  /\ meanPrice threePrices = div (ofZ 5) (ofZ 3)
  /\ averageRetailPriceCentsPerKWh m <> meanPrice threePrices.
Proof.
  cbv zeta. repeat split; try (vm_compute; reflexivity).
  vm_compute. discriminate.
Qed.

(** A missing price counts as [0] in the mean. *)
Example average_price_with_gap :
  averageRetailPriceCentsPerKWh
    (calculateEconomicMetrics squaring Binary64.sqrt pricesWithGap
       sampleDemandSupply)
  = decimal 843 2.
Proof. vm_compute. reflexivity. Qed.

(* ------------------------------------------------------------------ *)
(** ** Renewable penetration *)
(* ------------------------------------------------------------------ *)

(** No fuel code is both renewable and fossil. *)
Lemma renewable_is_not_fossil (code : string) :
  includes renewableSources code = true ->
  includes fossilSources code = false.
Proof.
  unfold includes, renewableSources. cbn [existsb].
  rewrite !orb_true_iff.
  intros [H|[H|[H|[H|[H|[H|H]]]]]]; try discriminate;
    apply String.eqb_eq in H; subst code; reflexivity.
Qed.

(** The three accumulators of the loop are the sum over all records, over
    the records of a renewable code and over those of a fossil code, each
    added in the order of the records. *)
Lemma capacityLoop_is_sums (capacityData : list CapacityByFuelData)
  (acc : CapacityAcc) :
  fold_left capacityStep capacityData acc
  = {| accTotal := fold_left add (map capacityOf capacityData) (accTotal acc);
       accRenewable :=
         fold_left add
           (map capacityOf
              (filter (fun r => includes renewableSources (energy_source_code r))
                 capacityData))
           (accRenewable acc);
       accFossil :=
         fold_left add
           (map capacityOf
              (filter (fun r => includes fossilSources (energy_source_code r))
                 capacityData))
           (accFossil acc) |}.
Proof.
  revert acc. induction capacityData as [|r rest IH]; intro acc.
  - now destruct acc.
  - cbn [fold_left map filter]. rewrite IH. unfold capacityStep.
    fold (capacityOf r).
    destruct (includes renewableSources (energy_source_code r)) eqn:Er.
    + rewrite (renewable_is_not_fossil _ Er). reflexivity.
    + destruct (includes fossilSources (energy_source_code r)); reflexivity.
Qed.

(** C9, amended.  [renewablePenetration] is
    [Math.round(renewable / total * 100)] when the total is positive and
    [0] otherwise, where [total] sums the summer capacity of every record
    (a missing capacity counting as [0]), [renewable] that of the records
    whose code is one of SUN, WND, HYD, GEO, BIO, WAS, and the fossil
    subtotal that of the codes NG, COL, PET, OTH; a record of any other
    code counts in the total only.  The sums are taken in the order of the
    records, and sums, quotient and product are those of binary64.  The
    three capacities are returned rounded, the ratio is taken before their
    rounding.  For SUN = 8000 MW and NG = 12000 MW the penetration is
    [40]. *)
Theorem renewable_penetration_rounded_ratio
  (capacityData : list CapacityByFuelData) :
  let total := sum (map capacityOf capacityData) in
  let renewable := capacityWhere (includes renewableSources) capacityData in
  let fossil := capacityWhere (includes fossilSources) capacityData in
  let m := calculateGridCapacityMetrics capacityData in
  renewableSources = ["SUN"; "WND"; "HYD"; "GEO"; "BIO"; "WAS"]
  /\ fossilSources = ["NG"; "COL"; "PET"; "OTH"]
  /\ totalCapacityMW m = round total
  /\ renewableCapacityMW m = round renewable
  /\ fossilCapacityMW m = round fossil
  /\ renewablePenetration m
     = (if gt total zero
        then round (mul (div renewable total) (ofZ 100))
        else zero)
  /\ renewablePenetration (calculateGridCapacityMetrics solarAndGas) = ofZ 40.
Proof.
  intros total renewable fossil m.
  subst m total renewable fossil.
  unfold calculateGridCapacityMetrics, capacityLoop, capacityWhere, sum.
  rewrite capacityLoop_is_sums.
  cbn [accTotal accRenewable accFossil totalCapacityMW renewableCapacityMW
       fossilCapacityMW renewablePenetration].
  repeat split; reflexivity.
Qed.

(** C9, counterexample.  For SUN = 1 MW and NG = 2 MW the ratio
    [1 / 3 * 100] is [33.33333333333333]; the penetration returned is
    [33]. *)
Lemma renewable_penetration_not_exact_ratio :
  let m := calculateGridCapacityMetrics oneToTwo in
  renewableCapacityMW m = ofZ 1 /\ totalCapacityMW m = ofZ 3
  /\ renewablePenetration m = ofZ 33
  /\ renewablePenetration m
     <> mul (div (renewableCapacityMW m) (totalCapacityMW m)) (ofZ 100).
Proof.
  cbv zeta. repeat split; try (vm_compute; reflexivity).
  vm_compute. discriminate.
Qed.

(** For WND = 23 MW and COL = 17 MW the ratio [23 / 40 * 100] is
    [57.49999999999999] in binary64, and the penetration is [57]. *)
Example penetration_of_23_in_40 :
  renewablePenetration (calculateGridCapacityMetrics windAndCoal) = ofZ 57.
Proof. vm_compute. reflexivity. Qed.

(** A code outside both lists counts in the total only. *)
Example nuclear_counts_in_total_only :
  calculateGridCapacityMetrics [plant "SUN" 1; plant "NUC" 3]
  = {| totalCapacityMW := ofZ 4; renewableCapacityMW := ofZ 1;
       fossilCapacityMW := ofZ 0; renewablePenetration := ofZ 25 |}.
Proof. vm_compute. reflexivity. Qed.

(** Without capacity the penetration is [0]. *)
Example no_capacity_no_penetration :
  renewablePenetration (calculateGridCapacityMetrics []) = zero.
Proof. reflexivity. Qed.


(* ------------------------------------------------------------------ *)
(** ** The region ranker *)
(* ------------------------------------------------------------------ *)

(** [Promise.all] rejects with the message of one of its promises, and no
    promise rejects before the one it reports. *)
Lemma firstToReject_earliest {A : Type} (t : nat) (m : string)
  (later : list (option (nat * string))) (t' : nat) (m' : string) :
  @firstToReject A t m later = Rejected t' m' ->
  In (Some (t', m')) (Some (t, m) :: later)
  /\ forall t'' m'', In (Some (t'', m'')) (Some (t, m) :: later) ->
                     (t' <= t'')%nat.
Proof.
  unfold firstToReject. intro H. injection H as <- <-.
  revert t m. induction later as [|r rest IH]; intros t m; cbn [fold_left].
  - cbn [fst snd]. split; [now left|].
    intros t'' m'' [E|[]]. injection E as <- <-. lia.
  - destruct r as [[t1 m1]|]; cbn [fst].
    + destruct (t1 <? t)%nat eqn:E.
      * apply Nat.ltb_lt in E. destruct (IH t1 m1) as [Hin Hmin]. split.
        -- destruct Hin as [Hin|Hin]; [right; left; exact Hin|].
           right. right. exact Hin.
        -- intros t'' m'' [H|[H|H]].
           ++ injection H as <- <-.
              specialize (Hmin t1 m1 (or_introl eq_refl)). lia.
           ++ apply (Hmin t'' m''). left. exact H.
           ++ apply (Hmin t'' m''). right. exact H.
      * apply Nat.ltb_ge in E. destruct (IH t m) as [Hin Hmin]. split.
        -- destruct Hin as [Hin|Hin]; [left; exact Hin|].
           right. right. exact Hin.
        -- intros t'' m'' [H|[H|H]].
           ++ apply (Hmin t'' m''). left. exact H.
           ++ injection H as <- <-.
              specialize (Hmin t m (or_introl eq_refl)). lia.
           ++ apply (Hmin t'' m''). right. exact H.
    + destruct (IH t m) as [Hin Hmin]. split.
      * destruct Hin as [Hin|Hin]; [left; exact Hin|].
        right. right. exact Hin.
      * intros t'' m'' [H|[H|H]]; [|discriminate H|].
        -- apply (Hmin t'' m''). left. exact H.
        -- apply (Hmin t'' m''). right. exact H.
Qed.

Section Ranking.

Context {A : Type} (cmp : A -> A -> float).

Lemma ranking_insert_Permutation (x : A) (l : list A) :
  Permutation (insertBy cmp x l) (x :: l).
Proof.
  induction l as [|y rest IH]; cbn [insertBy].
  - reflexivity.
  - destruct (gt (cmp x y) zero).
    + apply perm_trans with (y :: x :: rest).
      * apply perm_skip. exact IH.
      * apply perm_swap.
    + reflexivity.
Qed.

(** The sort keeps the elements. *)
Lemma ranking_Permutation (l : list A) : Permutation (sortBy cmp l) l.
Proof.
  induction l as [|x rest IH]; cbn [sortBy fold_right].
  - reflexivity.
  - apply perm_trans with (x :: sortBy cmp rest).
    + apply ranking_insert_Permutation.
    + apply perm_skip. exact IH.
Qed.

End Ranking.

(** Between two overall scores that are integers from [0] to [100] the
    comparator of the sort is positive exactly when the second is the
    larger. *)
Lemma byOverallDesc_whole (a b : EnergyStorageOpportunityMetrics) :
  wholeOverall a -> wholeOverall b ->
  if gt (byOverallDesc a b) zero then descending b a else descending a b.
Proof.
  unfold wholeOverall, descending, byOverallDesc.
  intros (n & Hn & ->) (k & Hk & ->).
  pose proof (below_bound 101
                (fun n =>
                   forallb
                     (fun j =>
                        let x := ofZ n in
                        let y := ofZ (Z.of_nat j) in
                        if gt (sub y x) zero then le x y else le y x)
                     (seq 0 101))
                ltac:(vm_compute; reflexivity) n ltac:(lia)) as H.
  cbn beta in H. rewrite forallb_forall in H.
  specialize (H (Z.to_nat k)). rewrite Z2Nat.id in H by lia.
  cbv zeta in H.
  destruct (gt (sub (ofZ k) (ofZ n)) zero); apply H; apply in_seq; lia.
Qed.

Lemma ranking_insert_descending (x : EnergyStorageOpportunityMetrics)
  (l : list EnergyStorageOpportunityMetrics) :
  wholeOverall x -> Forall wholeOverall l ->
  Sorted descending l -> Sorted descending (insertBy byOverallDesc x l).
Proof.
  intros Hx Hl Hs. induction l as [|y rest IH]; cbn [insertBy].
  - repeat constructor.
  - inversion Hl as [|? ? Hy Hrest]; subst.
    inversion Hs as [|? ? Hsorted Hhd]; subst.
    pose proof (byOverallDesc_whole x y Hx Hy) as Hcmp.
    destruct (gt (byOverallDesc x y) zero) eqn:E.
    + constructor; [now apply IH|].
      destruct rest as [|z rest']; cbn [insertBy].
      * now constructor.
      * destruct (gt (byOverallDesc x z) zero); constructor;
          [now inversion Hhd | exact Hcmp].
    + constructor; [exact Hs | now constructor].
Qed.

(** Results whose overall scores are integers from [0] to [100] come out
    in decreasing order of the overall score. *)
Lemma ranking_descending (l : list EnergyStorageOpportunityMetrics) :
  Forall wholeOverall l -> Sorted descending (sortBy byOverallDesc l).
Proof.
  induction 1 as [|x rest Hx Hrest IH]; cbn [sortBy fold_right].
  - constructor.
  - apply ranking_insert_descending; [exact Hx| |exact IH].
    apply Forall_forall. intros y Hy.
    rewrite Forall_forall in Hrest. apply Hrest.
    now apply (Permutation_in _ (ranking_Permutation byOverallDesc rest)).
Qed.

Section Batch.

Variable pow : float -> float -> float.
Variable sqrt : float -> float.
Variable now : string.
Variable repo : ElectricityRepository.
Variable hourly : bool.

(** The overall score of an analysis is [NaN] or an integer from [0] to
    [100]. *)
Lemma analysis_overall (reg : string) (data : RegionData) :
  scoreOrNaN
    (overall (storageOpportunityScore (analysisOf pow sqrt now reg data))).
Proof.
  unfold analysisOf, analyzeStorageOpportunity.
  cbn [storageOpportunityScore]. apply scores_NaN_or_whole.
Qed.

(** What [analyzeRegion] answers for a region whose data arrive with
    capacity records, for one whose data arrive without, and for one whose
    fetch is rejected. *)
Lemma region_analysed (reg : string) (data : RegionData) :
  fetchRegion repo hourly reg = Resolved data ->
  capacityData data <> [] ->
  analyzeRegion pow sqrt now repo hourly reg
  = {| resultRegion := reg;
       metrics := Some (analysisOf pow sqrt now reg data);
       error := None |}.
Proof.
  intros Hf Hc. unfold analyzeRegion. rewrite Hf.
  destruct (capacityData data) eqn:E; [congruence|].
  unfold analysisOf. now rewrite E.
Qed.

Lemma region_without_capacity (reg : string) (data : RegionData) :
  fetchRegion repo hourly reg = Resolved data ->
  capacityData data = [] ->
  analyzeRegion pow sqrt now repo hourly reg
  = {| resultRegion := reg; metrics := None;
       error := Some "No capacity data found" |}.
Proof.
  intros Hf Hc. unfold analyzeRegion. now rewrite Hf, Hc.
Qed.

Lemma region_rejected (reg : string) (t : nat) (message : string) :
  fetchRegion repo hourly reg = Rejected t message ->
  analyzeRegion pow sqrt now repo hourly reg
  = {| resultRegion := reg; metrics := None; error := Some message |}.
Proof.
  intro Hf. unfold analyzeRegion. now rewrite Hf.
Qed.

Lemma successfulOf_app (l1 l2 : list RegionalAnalysisResult) :
  successfulOf (l1 ++ l2) = (successfulOf l1 ++ successfulOf l2)%list.
Proof.
  induction l1 as [|r rest IH]; cbn [successfulOf app]; [reflexivity|].
  destruct (metrics r); cbn [app]; now rewrite IH.
Qed.

Lemma failedOf_app (l1 l2 : list RegionalAnalysisResult) :
  failedOf (l1 ++ l2) = (failedOf l1 ++ failedOf l2)%list.
Proof. unfold failedOf. apply filter_app. Qed.

(** Regions whose data arrive with capacity records all succeed, in the
    order of the batch. *)
Lemma delivering_regions (regions : list string) :
  Forall (fetchDelivers repo hourly) regions ->
  exists analyses,
    Forall2 (analysed pow sqrt now repo hourly) regions analyses
    /\ successfulOf (map (analyzeRegion pow sqrt now repo hourly) regions)
       = analyses
    /\ failedOf (map (analyzeRegion pow sqrt now repo hourly) regions) = [].
Proof.
  induction 1 as [|reg rest (data & Hf & Hc) _ (analyses & IH1 & IH2 & IH3)].
  - exists []. repeat split. constructor.
  - exists (analysisOf pow sqrt now reg data :: analyses).
    cbn [map]. rewrite (region_analysed reg data Hf Hc).
    cbn [successfulOf metrics]. unfold failedOf in *.
    cbn [filter error]. rewrite IH2, IH3. repeat split.
    constructor; [|exact IH1]. now exists data.
Qed.

(** Every successful result of a batch is the analysis of the data fetched
    for its region. *)
Lemma successful_are_analyses (regions : list string)
  (m : EnergyStorageOpportunityMetrics) :
  In m (successfulOf (map (analyzeRegion pow sqrt now repo hourly) regions)) ->
  exists reg, In reg regions /\ analysed pow sqrt now repo hourly reg m.
Proof.
  induction regions as [|reg rest IH]; cbn [map successfulOf]; [intros []|].
  unfold analyzeRegion at 1.
  destruct (fetchRegion repo hourly reg) as [t msg|data] eqn:Hf;
    cbn [metrics].
  - intro H. destruct (IH H) as (r & Hr & Ha). exists r. split; [now right|].
    exact Ha.
  - destruct (capacityData data) eqn:Hc; cbn [metrics].
    + intro H. destruct (IH H) as (r & Hr & Ha). exists r.
      split; [now right | exact Ha].
    + intros [<-|H].
      * exists reg. split; [now left|]. exists data.
        split; [exact Hf|]. split; [congruence|].
        unfold analysisOf. now rewrite Hc.
      * destruct (IH H) as (r & Hr & Ha). exists r.
        split; [now right | exact Ha].
Qed.

Lemma analysed_overall (reg : string) (m : EnergyStorageOpportunityMetrics) :
  analysed pow sqrt now repo hourly reg m ->
  numericOverall m -> wholeOverall m.
Proof.
  intros (data & _ & _ & ->) Hn.
  apply scoreOrNaN_numeric; [apply analysis_overall | exact Hn].
Qed.

(** The successful results of a batch, none of them with a [NaN] overall
    score, come out of the sort in decreasing order of the overall score. *)
Lemma batch_ranking_descending (regions : list string) :
  let successful :=
    successfulOf (map (analyzeRegion pow sqrt now repo hourly) regions) in
  Forall numericOverall (sortBy byOverallDesc successful) ->
  Sorted descending (sortBy byOverallDesc successful).
Proof.
  intros successful Hn. apply ranking_descending.
  apply Forall_forall. intros m Hm. rewrite Forall_forall in Hn.
  destruct (successful_are_analyses regions m Hm) as (reg & _ & Ha).
  apply (analysed_overall reg m Ha). apply Hn.
  apply (Permutation_in _
           (Permutation_sym (ranking_Permutation byOverallDesc successful))).
  exact Hm.
Qed.

End Batch.

(** A batch in which one region has its fetch rejected and every other
    one has its data arrive with capacity records. *)
Lemma batch_with_one_failure
  (pow : float -> float -> float) (sqrt : float -> float)
  (extraArgsApiKey configApiKey : option string) (key : string)
  (connect : string -> ElectricityRepository) (now : string) (hourly : bool)
  (before after : list string) (bad : string) :
  Index.firstKey extraArgsApiKey configApiKey = Some key -> key <> "" ->
  fetchFails (connect key) hourly bad ->
  Forall (fetchDelivers (connect key) hourly) (before ++ after) ->
  exists out,
    findHighPotentialEnergyStorageAreas pow sqrt extraArgsApiKey configApiKey
      connect now (before ++ bad :: after) hourly = Returns out
    /\ (exists analyses,
          Forall2 (analysed pow sqrt now (connect key) hourly)
            (before ++ after) analyses
          /\ Permutation (detailedResults out) analyses)
    /\ (exists e,
          failedRegions out
          = [{| resultRegion := bad; metrics := None; error := Some e |}]
          /\ e <> "")
    /\ (Forall numericOverall (detailedResults out) ->
        Sorted descending (detailedResults out)).
Proof.
  intros Hk Hne (t & msg & Hbad & Hmsg) Hgood.
  unfold findHighPotentialEnergyStorageAreas. rewrite Hk.
  apply String.eqb_neq in Hne. rewrite Hne.
  eexists. split; [reflexivity|].
  cbn [detailedResults failedRegions].
  split; [|split].
  - apply Forall_app in Hgood. destruct Hgood as [Hb Ha].
    destruct (delivering_regions pow sqrt now (connect key) hourly before Hb)
      as (xs & Fx & Sx & _).
    destruct (delivering_regions pow sqrt now (connect key) hourly after Ha)
      as (ys & Fy & Sy & _).
    exists (xs ++ ys)%list. split; [now apply Forall2_app|].
    rewrite map_app, successfulOf_app. cbn [map successfulOf].
    rewrite (region_rejected pow sqrt now (connect key) hourly bad t msg Hbad).
    cbn [metrics]. rewrite Sx, Sy. apply ranking_Permutation.
  - exists msg. split; [|exact Hmsg].
    apply Forall_app in Hgood. destruct Hgood as [Hb Ha].
    destruct (delivering_regions pow sqrt now (connect key) hourly before Hb)
      as (xs & _ & _ & Zx).
    destruct (delivering_regions pow sqrt now (connect key) hourly after Ha)
      as (ys & _ & _ & Zy).
    rewrite map_app, failedOf_app. cbn [map].
    rewrite Zx.
    rewrite (region_rejected pow sqrt now (connect key) hourly bad t msg Hbad).
    unfold failedOf in *. cbn [filter error app]. now rewrite Zy.
  - apply batch_ranking_descending.
Qed.

(** C5, amended.  In a batch of regions of which one has its fetch
    rejected, with a message that is not empty, and every other one has
    its data arrive with at least one capacity record, the tool returns
    without throwing, whatever [Math.pow] and [Math.sqrt] compute:
    [detailedResults] holds exactly the analyses of the other regions, one
    entry for each, [failedRegions] exactly one entry, that of the region
    that failed with its error string, which is not empty, and, unless an
    overall score is [NaN], the detailed results are in decreasing order of
    the overall score.  A batch of two regions is the case of one other
    region, before or after the one that fails. *)
Theorem one_failed_region_of_batch
  (pow : float -> float -> float) (sqrt : float -> float)
  (extraArgsApiKey configApiKey : option string) (key : string)
  (connect : string -> ElectricityRepository) (now : string) (hourly : bool)
  (before after : list string) (bad : string) :
  Index.firstKey extraArgsApiKey configApiKey = Some key -> key <> "" ->
  fetchFails (connect key) hourly bad ->
  Forall (fetchDelivers (connect key) hourly) (before ++ after) ->
  exists out,
    findHighPotentialEnergyStorageAreas pow sqrt extraArgsApiKey configApiKey
      connect now (before ++ bad :: after) hourly = Returns out
    /\ (exists analyses,
          Forall2 (analysed pow sqrt now (connect key) hourly)
            (before ++ after) analyses
          /\ Permutation (detailedResults out) analyses)
    /\ (exists e,
          failedRegions out
          = [{| resultRegion := bad; metrics := None; error := Some e |}]
          /\ e <> "")
    /\ (Forall numericOverall (detailedResults out) ->
        Sorted descending (detailedResults out)).
Proof.
  exact (batch_with_one_failure pow sqrt extraArgsApiKey configApiKey key
           connect now hourly before after bad).
Qed.

(** The theorem at the batch AA, BB, CC with a repository whose capacity
    request fails for BB. *)
Lemma one_failed_region_of_batch_witness :
  exists out,
    findHighPotentialEnergyStorageAreas squaring Binary64.sqrt
      (Some "k-123") None (fun _ => failingForBB) "2024-07-01T00:00:00.000Z"
      ["AA"; "BB"; "CC"] false
    = Returns out
    /\ (exists analyses,
          Forall2 (analysed squaring Binary64.sqrt "2024-07-01T00:00:00.000Z"
                     failingForBB false)
            ["AA"; "CC"] analyses
          /\ Permutation (detailedResults out) analyses)
    /\ (exists e,
          failedRegions out
          = [{| resultRegion := "BB"; metrics := None; error := Some e |}]
          /\ e <> "")
    /\ (Forall numericOverall (detailedResults out) ->
        Sorted descending (detailedResults out)).
Proof.
  apply (one_failed_region_of_batch squaring Binary64.sqrt (Some "k-123") None
           "k-123" (fun _ => failingForBB) "2024-07-01T00:00:00.000Z" false
           ["AA"] ["CC"] "BB").
  - reflexivity.
  - discriminate.
  - exists 1%nat, capacityTimeout. split; [reflexivity | discriminate].
  - repeat constructor; eexists; (split; [reflexivity | discriminate]).
Defined.

(** In that batch the region CC, analysed after AA, has the higher overall
    score and is ranked first. *)
Example ranking_of_three_regions :
  match findHighPotentialEnergyStorageAreas squaring Binary64.sqrt
          (Some "k-123") None (fun _ => failingForBB)
          "2024-07-01T00:00:00.000Z" ["AA"; "BB"; "CC"] false with
  | Returns out =>
      map (fun m => (region m, overall (storageOpportunityScore m)))
        (detailedResults out)
      = [("CC", ofZ 71); ("AA", ofZ 64)]
      /\ map resultRegion (failedRegions out) = ["BB"]
  | Throws _ => False
  end.
Proof. vm_compute. split; reflexivity. Qed.

(** In a batch of two regions, detailed results and failed regions have
    one entry each. *)
Corollary one_failed_region_of_two
  (pow : float -> float -> float) (sqrt : float -> float)
  (extraArgsApiKey configApiKey : option string) (key : string)
  (connect : string -> ElectricityRepository) (now : string) (hourly : bool)
  (good bad : string) (regions : list string) :
  Index.firstKey extraArgsApiKey configApiKey = Some key -> key <> "" ->
  fetchFails (connect key) hourly bad ->
  fetchDelivers (connect key) hourly good ->
  regions = [good; bad] \/ regions = [bad; good] ->
  exists out m e,
    findHighPotentialEnergyStorageAreas pow sqrt extraArgsApiKey configApiKey
      connect now regions hourly = Returns out
    /\ detailedResults out = [m]
    /\ analysed pow sqrt now (connect key) hourly good m
    /\ failedRegions out
       = [{| resultRegion := bad; metrics := None; error := Some e |}]
    /\ e <> "".
Proof.
  intros Hk Hne Hbad Hgood Hregions.
  assert (H : exists before after,
             regions = (before ++ bad :: after)%list
             /\ (before ++ after)%list = [good]).
  { destruct Hregions as [-> | ->].
    - now exists [good], [].
    - now exists [], [good]. }
  destruct H as (before & after & -> & Hrest).
  destruct (batch_with_one_failure pow sqrt extraArgsApiKey
              configApiKey key connect now hourly before after bad Hk Hne
              Hbad)
    as (out & Hout & (analyses & HF & HP) & (e & Hf & He) & _).
  { rewrite Hrest. now constructor. }
  rewrite Hrest in HF.
  inversion HF as [|? m ? ms Hm Hnil]; subst. inversion Hnil; subst.
  exists out, m, e. repeat split; try assumption.
  now apply Permutation_length_1_inv, Permutation_sym.
Qed.

(** C5, counterexample.  In the batch AA, BB the fetch fails for BB only:
    the requests for AA all resolve, the capacity request without any
    record.  AA is then reported in [failedRegions] with the message
    [No capacity data found], next to BB, and [detailedResults] is
    empty. *)
Lemma region_without_capacity_is_reported_failed :
  (exists data, fetchRegion emptyForAA false "AA" = Resolved data)
  /\ fetchRegion emptyForAA false "BB" = Rejected 1 capacityTimeout
  /\ exists out,
       findHighPotentialEnergyStorageAreas squaring Binary64.sqrt
         (Some "k-123") None (fun _ => emptyForAA) "2024-07-01T00:00:00.000Z"
         ["AA"; "BB"] false
       = Returns out
       /\ detailedResults out = []
       /\ failedRegions out
          = [{| resultRegion := "AA"; metrics := None;
                error := Some "No capacity data found" |};
             {| resultRegion := "BB"; metrics := None;
                error := Some capacityTimeout |}].
Proof.
  split; [eexists; reflexivity|]. split; [reflexivity|].
  eexists. split; [reflexivity|]. split; reflexivity.
Qed.


(* ------------------------------------------------------------------ *)
(** ** The scores and the ranking of any batch *)
(* ------------------------------------------------------------------ *)

(** X5.  Whatever the capacity, hourly, generation and price records of a
    region are, and whatever [Math.pow] and [Math.sqrt] compute, each of
    the five scores of [analyzeStorageOpportunity] is [NaN] or one of the
    integers from [0] to [100]; a score that is not [NaN] is within
    [0, 100] and the clamp has left it as it is. *)
Theorem region_scores_NaN_or_within_0_100
  (pow : float -> float -> float) (sqrt : float -> float) (now reg : string)
  (capacityData : list CapacityByFuelData) (demandData : list RTODemandData)
  (generationData : list GenerationData) (priceData : list RetailPriceData) :
  let s := storageOpportunityScore
             (analyzeStorageOpportunity pow sqrt now reg capacityData
                demandData generationData priceData) in
  allScoreOrNaN s
  /\ forall x,
       In x [overall s; peakShavingScore s; renewableIntegrationScore s;
             gridServicesScore s; economicScore s] ->
       isNaN x = false -> withinScoreRange x /\ unclamped x.
Proof.
  intro s.
  assert (H : allScoreOrNaN s).
  { subst s. unfold analyzeStorageOpportunity.
    cbn [storageOpportunityScore]. apply scores_NaN_or_whole. }
  split; [exact H|].
  destruct H as (H1 & H2 & H3 & H4 & H5).
  intros x [<-|[<-|[<-|[<-|[<-|[]]]]]] Hn;
    match goal with
    | Hs : scoreOrNaN ?v |- withinScoreRange ?v /\ _ =>
        destruct (wholeScore_facts v (scoreOrNaN_numeric v Hs Hn))
          as (Hw & Hu & _); now split
    end.
Qed.

(** X9.  With a usable key the tool returns, whatever the repository
    answers and whatever [Math.pow] and [Math.sqrt] compute:
    [detailedResults] holds the successful analyses of the batch, each
    once; [topOpportunities] holds the first three of the detailed
    results, in that order, with their overall score and primary driver;
    and, unless an overall score is [NaN], the detailed results are in
    decreasing order of the overall score, each overall score within
    [0, 100]. *)
Theorem ranking_sorted_unless_NaN
  (pow : float -> float -> float) (sqrt : float -> float)
  (extraArgsApiKey configApiKey : option string) (key : string)
  (connect : string -> ElectricityRepository) (now : string)
  (regions : list string) (hourly : bool) :
  Index.firstKey extraArgsApiKey configApiKey = Some key -> key <> "" ->
  exists out,
    findHighPotentialEnergyStorageAreas pow sqrt extraArgsApiKey configApiKey
      connect now regions hourly = Returns out
    /\ Permutation (detailedResults out)
         (successfulOf
            (map (analyzeRegion pow sqrt now (connect key) hourly) regions))
    /\ topOpportunities (summary out)
       = map opportunityOf (firstn 3 (detailedResults out))
    /\ (List.length (topOpportunities (summary out)) <= 3)%nat
    /\ (Forall numericOverall (detailedResults out) ->
        Sorted descending (detailedResults out)
        /\ Forall (fun m =>
                     withinScoreRange (overall (storageOpportunityScore m)))
             (detailedResults out)).
Proof.
  intros Hk Hne. unfold findHighPotentialEnergyStorageAreas.
  rewrite Hk. apply String.eqb_neq in Hne. rewrite Hne.
  eexists. split; [reflexivity|].
  cbn [detailedResults summary topOpportunities].
  set (successful :=
         successfulOf
           (map (analyzeRegion pow sqrt now (connect key) hourly) regions)).
  split; [apply ranking_Permutation|]. split; [reflexivity|].
  split; [rewrite length_map; apply firstn_le_length|].
  intro Hn. split.
  - now apply batch_ranking_descending.
  - apply Forall_forall. intros m Hm.
    rewrite Forall_forall in Hn. specialize (Hn m Hm).
    apply (Permutation_in _ (ranking_Permutation byOverallDesc successful))
      in Hm.
    destruct (successful_are_analyses pow sqrt now (connect key) hourly
                regions m Hm) as (reg & _ & Ha).
    apply wholeScore_facts.
    exact (analysed_overall pow sqrt now (connect key) hourly reg m Ha Hn).
Qed.

(** The theorem at the batch AA, BB, CC with a repository whose capacity
    request fails for BB: CC (overall 71) goes before AA (overall 64). *)
Lemma ranking_sorted_unless_NaN_witness :
  exists out,
    findHighPotentialEnergyStorageAreas squaring Binary64.sqrt None
      (Some "k-123") (fun _ => failingForBB) "2024-07-01T00:00:00.000Z"
      ["AA"; "BB"; "CC"] false = Returns out
    /\ Sorted descending (detailedResults out)
    /\ map (fun o => (opportunityRegion o, overallScore o, primaryDriver o))
         (topOpportunities (summary out))
       = [("CC", ofZ 71, "Economic Arbitrage");
          ("AA", ofZ 64, "Economic Arbitrage")].
Proof.
  destruct (ranking_sorted_unless_NaN squaring Binary64.sqrt None
              (Some "k-123") "k-123" (fun _ => failingForBB)
              "2024-07-01T00:00:00.000Z" ["AA"; "BB"; "CC"] false)
    as (out & Hout & _ & _ & _ & Hsorted).
  - reflexivity.
  - discriminate.
  - exists out. split; [exact Hout|].
    vm_compute in Hout. injection Hout as <-.
    split; [|vm_compute; reflexivity].
    apply Hsorted. repeat constructor.
Defined.


(* ------------------------------------------------------------------ *)
(** ** The utilization of the capacity *)
(* ------------------------------------------------------------------ *)

(** X13.  With generation records, a summer capacity above [0], a
    potential output [capacity * 30.4375 * 24] above [0] and a ratio of
    the generation of the latest period to that potential that is neither
    [0] nor [NaN], the utilization is that ratio rounded to four decimals,
    [parseFloat(ratio.toFixed(4))], and the generation in GWh is the
    generation of the latest period over [1000], rounded to three
    decimals; sums, products and quotients are those of binary64. *)
Theorem utilization_is_rounded_ratio
  (cm : CapacityAnalyzer.RegionalCapacityMetrics)
  (generationData : list GenerationData) :
  generationData <> [] ->
  gt (CapacityAnalyzer.totalSummerCapacityMW cm) zero = true ->
  gt (potentialMWh cm) zero = true ->
  truthy (div (latestGenerationMWh generationData) (potentialMWh cm)) = true ->
  let result :=
    CapacityAnalyzer.calculateCapacityUtilization cm generationData in
  CapacityAnalyzer.utilization result
  = Some (toFixed 4
            (div (latestGenerationMWh generationData) (potentialMWh cm)))
  /\ CapacityAnalyzer.totalGenerationGWh result
     = toFixed 3 (div (latestGenerationMWh generationData) (ofZ 1000)).
Proof.
  intros Hne Hcap Hpot Hratio result. subst result.
  destruct generationData as [|first rest]; [congruence|].
  unfold CapacityAnalyzer.calculateCapacityUtilization.
  assert (Hguard : le (CapacityAnalyzer.totalSummerCapacityMW cm) zero = false).
  { destruct (CapacityAnalyzer.totalSummerCapacityMW cm) as [s|s| |s m e];
      try destruct s; try discriminate Hcap; reflexivity. }
  rewrite Hguard.
  cbn [CapacityAnalyzer.utilization CapacityAnalyzer.totalGenerationGWh].
  rewrite fold_add_map.
  change (fold_left add
            (map (fun gen => nullish (generation gen) zero)
               (filter (fun d => String.eqb (period d) (period first))
                  (first :: rest))) zero)
    with (latestGenerationMWh (first :: rest)).
  change (mul (CapacityAnalyzer.totalSummerCapacityMW cm)
            CapacityAnalyzer.totalHoursInMonth) with (potentialMWh cm).
  rewrite Hpot, Hratio. split; reflexivity.
Qed.

(** The theorem at 40000 MW and 4383 MWh: the ratio is just below
    [0.00015], and the utilization is [0.0001]. *)
Lemma utilization_is_rounded_ratio_witness :
  CapacityAnalyzer.utilization
    (CapacityAnalyzer.calculateCapacityUtilization fortyGW slackMonth)
  = Some (decimal 1 4)
  /\ CapacityAnalyzer.totalGenerationGWh
       (CapacityAnalyzer.calculateCapacityUtilization fortyGW slackMonth)
     = decimal 4383 3.
Proof.
  destruct (utilization_is_rounded_ratio fortyGW slackMonth)
    as [Hu Hg]; try (vm_compute; reflexivity).
  - discriminate.
  - rewrite Hu, Hg. split; vm_compute; reflexivity.
Defined.

End OverBinary64.
